(** * VoxLoom backend: a shallow embedding of the message pipeline,
      the rule-based responder, the CRM intake handler and the
      conversation read-back, with the properties of its specification.

    Source files embedded here:
      - app/services/ai_pipeline.py  (generate_reply, run_asr, run_llm,
                                      run_tts)
      - app/api/v1/sessions.py       (create_session, post_message,
                                      get_conversation)
      - app/api/v1/tools.py          (mcp_handler)
      - app/models/models.py         (the five tables)

    Conventions.  A Python [str] is the list of its Unicode code points,
    [bytes] the list of its octets.  Everything the handlers obtain from
    outside the repository (random identifiers, the clock, faults of the
    disk, of the database and of the network, the interpreter's Unicode
    case table) is read from an environment [Env]; the handlers are
    functions of a mutable [World] (database, unit of work, media
    directory) written in a small state-and-exception monad in which
    the state survives a raised exception, as it does in Python.

    What is left out: the bearer-token check of app/main.py, request
    parsing by the framework, and the lines printed to the console.
    Reading the database is taken to succeed; writing it, writing files
    and the network call can fail as the environment says.

    Layout: the embedding (strings, responder, JSON, tables, runtime,
    library calls, stages, handlers), then concrete environments and
    the vocabulary of the statements, then the properties, claim by
    claim (C1 to C10 of the specification), concrete runs, and further
    properties of the handlers (X1 to X18). *)

From Stdlib Require Import List NArith ZArith Bool Lia String Ascii.
From Stdlib Require Import Sorting.Sorted Sorting.Permutation.
From Stdlib Require Import Floats.PrimFloat.
From Stdlib Require Import Numbers.DecimalString.
From Stdlib Require Numbers.DecimalZ.
Import ListNotations.

(* ================================================================== *)
(** ** Python strings *)
(* ================================================================== *)

Module PyStr.

(** A [str] is a sequence of code points. *)
Definition pystr := list N.

(** ASCII literals; code points above 127 are written out where the
    source text has them. *)
Definition u (s : string) : pystr :=
  List.map N_of_ascii (list_ascii_of_string s).
#[global] Arguments u : simpl never.

Definition str_eqb (a b : pystr) : bool :=
  if list_eq_dec N.eq_dec a b then true else false.

(** Truth value of a string: [bool(s)] is [len(s) != 0]. *)
Definition truthy_str (s : pystr) : bool :=
  match s with [] => false | _ :: _ => true end.

(** [x or d] for an [Optional[str]] [x]. *)
Definition str_or (x : option pystr) (d : pystr) : pystr :=
  match x with
  | Some s => if truthy_str s then s else d
  | None => d
  end.

(** Whitespace as [str.strip()] sees it without an argument
    (Py_UNICODE_ISSPACE): TAB..CR, FS..US, SPACE, NEL, NBSP, OGHAM SPACE,
    EN QUAD..HAIR SPACE, LINE and PARAGRAPH SEPARATOR, NNBSP, MMSP and
    IDEOGRAPHIC SPACE. *)
Definition isspace (c : N) : bool :=
  ((9 <=? c) && (c <=? 13) || (28 <=? c) && (c <=? 32)
   || (c =? 133) || (c =? 160) || (c =? 5760)
   || (8192 <=? c) && (c <=? 8202)
   || (c =? 8232) || (c =? 8233) || (c =? 8239) || (c =? 8287)
   || (c =? 12288))%N.

Fixpoint lstrip (s : pystr) : pystr :=
  match s with
  | [] => []
  | c :: t => if isspace c then lstrip t else s
  end.

Definition rstrip (s : pystr) : pystr := rev (lstrip (rev s)).

(** [s.strip()] *)
Definition strip (s : pystr) : pystr := rstrip (lstrip s).

(** [s.startswith(p)] *)
Fixpoint startswith (p s : pystr) : bool :=
  match p, s with
  | [], _ => true
  | _ :: _, [] => false
  | a :: p', b :: s' => (a =? b)%N && startswith p' s'
  end.

(** [p in s] for strings: [p] occurs as a contiguous run of [s]. *)
Fixpoint contains (p s : pystr) : bool :=
  match s with
  | [] => startswith p []
  | _ :: t => startswith p s || contains p t
  end.

(** [s[:n]] for a non-negative [n]. *)
Definition take (n : nat) (s : pystr) : pystr := firstn n s.

(** ASCII-only lower-casing: what [str.lower()] does on text without
    code points above 127.  One admissible instance of the case table
    the environment carries. *)
Definition ascii_lower_char (c : N) : N :=
  if ((65 <=? c) && (c <=? 90))%N then (c + 32)%N else c.

Definition ascii_lower (s : pystr) : pystr := List.map ascii_lower_char s.

(** Binary (code point) collation, the order of [ORDER BY] on a text
    column under the C collation. *)
Fixpoint str_leb (a b : pystr) : bool :=
  match a, b with
  | [], _ => true
  | _ :: _, [] => false
  | x :: a', y :: b' =>
      if (x <? y)%N then true
      else if (y <? x)%N then false
      else str_leb a' b'
  end.

End PyStr.
Import PyStr.

(* ================================================================== *)
(** ** The responder: app/services/ai_pipeline.py, generate_reply *)
(* ================================================================== *)

Module Responder.

(** The four fixed replies.  8217 is the right single quotation mark
    and 8211 the en dash of the source text. *)
Definition ASK_REPEAT : pystr :=
  u "I couldn't clearly understand the audio. "
  ++ u "Could you please repeat your question about your bill or refund?".

Definition REFUND_REPLY : pystr :=
  u "I understand you" ++ [8217%N] ++ u "d like a refund for your recent bill. "
  ++ u "I" ++ [8217%N] ++ u "ve marked this as a refund request with high priority. "
  ++ u "You" ++ [8217%N] ++ u "ll receive an update on the refund status within 3"
  ++ [8211%N] ++ u "5 business days.".

Definition BILLING_REPLY : pystr :=
  u "I can help explain your bill. "
  ++ u "Your latest invoice usually includes your base plan, taxes, "
  ++ u "and any extra usage or late fees. "
  ++ u "If you" ++ [8217%N]
  ++ u "d like, I can break down the charges for the last billing cycle.".

Definition FALLBACK_REPLY : pystr :=
  u "Thanks for your question. "
  ++ u "I" ++ [8217%N] ++ u "ve logged your request and linked it to your account. "
  ++ u "Someone from the billing team will review it and get back to you soon.".

Section WithCaseTable.

(** [str.lower()]: the interpreter's Unicode case mapping. *)
Variable lower : pystr -> pystr.

(** generate_reply(user_text) *)
Definition generate_reply (user_text : pystr) : pystr :=
  (* 1) No transcript / empty text *)
  if negb (truthy_str user_text) || str_eqb (strip user_text) [] then
    ASK_REPEAT
  else
    let text := strip (lower user_text) in
    (* 2) Refund-related *)
    if contains (u "refund") text || contains (u "money back") text then
      REFUND_REPLY
    (* 3) Bill / charges related *)
    else if contains (u "bill") text
         || contains (u "charge") text
         || contains (u "charges") text
         || contains (u "amount") text
         || contains (u "invoice") text
         || contains (u "fees") text
         || contains (u "fee") text then
      BILLING_REPLY
    (* 4) Generic fallback *)
    else FALLBACK_REPLY.

End WithCaseTable.

End Responder.
Import Responder.

(* ================================================================== *)
(** ** JSON values (the [Dict[str, Any]] payloads) and bytes *)
(* ================================================================== *)

Module Json.

Definition bytes := list N.

(** A decoded JSON document as Python holds it.  A [dict] is kept as
    its items in insertion order; [dict_get] returns the first item of
    a key. *)
#[local] Set Warnings "-register-all".
Inductive json : Type :=
| JNull
| JBool (b : bool)
| JInt (z : Z)
| JFloat (f : float)
| JStr (s : pystr)
| JList (l : list json)
| JDict (d : list (pystr * json)).

Definition dict := list (pystr * json).

(** [bool(v)]: None, False, zero, and the empty string, list and dict
    are false. *)
Definition truthy (v : json) : bool :=
  match v with
  | JNull => false
  | JBool b => b
  | JInt z => negb (z =? 0)%Z
  | JFloat f => negb (PrimFloat.eqb f 0%float)
  | JStr s => truthy_str s
  | JList l => match l with [] => false | _ :: _ => true end
  | JDict d => match d with [] => false | _ :: _ => true end
  end.

(** [d.get(k)]: [None] when the key is absent. *)
Fixpoint dict_get (d : dict) (k : pystr) : option json :=
  match d with
  | [] => None
  | (k', v) :: d' => if str_eqb k' k then Some v else dict_get d' k
  end.

(** [bool(d.get(k))] *)
Definition truthy_get (d : dict) (k : pystr) : bool :=
  match dict_get d k with
  | Some v => truthy v
  | None => false
  end.

(** [d[k] = v] on a dict: replaces the value of an existing key in
    place, appends a new key. *)
Fixpoint dict_set (d : dict) (k : pystr) (v : json) : dict :=
  match d with
  | [] => [(k, v)]
  | (k', v') :: d' =>
      if str_eqb k' k then (k', v) :: d' else (k', v') :: dict_set d' k v
  end.

(** [d.pop(k, None)] *)
Fixpoint dict_del (d : dict) (k : pystr) : dict :=
  match d with
  | [] => []
  | (k', v') :: d' =>
      if str_eqb k' k then dict_del d' k else (k', v') :: dict_del d' k
  end.

(** [x or {}] for an [Optional[Dict]] [x]. *)
Definition dict_or_empty (x : option dict) : dict :=
  match x with
  | Some d => d
  | None => []
  end.

Definition json_of_opt_str (x : option pystr) : json :=
  match x with Some s => JStr s | None => JNull end.

Definition json_of_opt_dict (x : option dict) : json :=
  match x with Some d => JDict d | None => JNull end.

(** [repr] of a list of plain identifiers (no quote, backslash or
    control character in them), as an f-string interpolates it:
    ['a', 'b']. *)
Fixpoint repr_items (l : list pystr) : pystr :=
  match l with
  | [] => []
  | [x] => u "'" ++ x ++ u "'"
  | x :: t => u "'" ++ x ++ u "', " ++ repr_items t
  end.

Definition repr_list (l : list pystr) : pystr :=
  u "[" ++ repr_items l ++ u "]".

End Json.
Import Json.

(* ================================================================== *)
(** ** The tables: app/models/models.py *)
(* ================================================================== *)

Module Session.
Record t := {
  id : pystr;
  customer_id : pystr;
  language : pystr;
  channel : pystr;
  persona : option pystr;
  created_at : pystr
}.
End Session.

Module Message.
Record t := {
  id : pystr;
  session_id : pystr;
  direction : option pystr;
  type : option pystr;
  text : option pystr;
  audio_path_or_b64 : option pystr;
  transcript : option pystr;
  reply_text : option pystr;
  reply_audio_path_or_b64 : option pystr;
  created_at : pystr
}.
End Message.

Module ModelCall.
Record t := {
  id : pystr;
  message_id : option pystr;
  model_type : option pystr;
  model_id : option pystr;
  duration_ms : option Z;
  raw_response_snippet : option pystr;
  created_at : pystr
}.
End ModelCall.

Module CRMRecord.
Record t := {
  id : pystr;
  session_id : option pystr;
  customer_id : option pystr;
  scenario : option pystr;
  record_json : option dict;
  status : option pystr;
  created_at : pystr
}.
End CRMRecord.

Module ToolCall.
Record t := {
  id : pystr;
  session_id : option pystr;
  payload_json : option dict;
  status : option pystr;
  created_at : pystr
}.

(** [row.status = s] *)
Definition set_status (row : t) (s : pystr) : t :=
  {| id := id row; session_id := session_id row;
     payload_json := payload_json row; status := Some s;
     created_at := created_at row |}.
End ToolCall.

(** Request bodies. *)
Module CreateSessionReq.
Record t := {
  customer_id : pystr;
  language : pystr;
  channel : pystr;
  persona : option pystr
}.
End CreateSessionReq.

Module MessageReq.
Record t := {
  type : pystr;
  text : option pystr;
  audio_base64 : option pystr;
  mime : option pystr
}.
End MessageReq.

Module MCPPayload.
Record t := {
  session_id : pystr;
  customer_id : option pystr;
  llm_response : option pystr;
  scenario : option pystr;
  crm_record : option dict;
  meta : option dict
}.

(** [payload.dict()] *)
Definition to_dict (p : t) : dict :=
  [ (u "session_id", JStr (session_id p));
    (u "customer_id", json_of_opt_str (customer_id p));
    (u "llm_response", json_of_opt_str (llm_response p));
    (u "scenario", json_of_opt_str (scenario p));
    (u "crm_record", json_of_opt_dict (crm_record p));
    (u "meta", json_of_opt_dict (meta p)) ].
End MCPPayload.

(* ================================================================== *)
(** ** Exceptions, the world and the environment *)
(* ================================================================== *)

Module Runtime.

(** The exceptions that occur in the handlers.  [HTTPException] is the
    framework's structured error (status code and detail); the others
    are raw library exceptions. *)
Inductive exn : Type :=
| HTTPException (status_code : Z) (detail : pystr)
| ValueError (msg : pystr)          (* binascii.Error included *)
| OSError (msg : pystr)
| MultipleResultsFound
| DBAPIError (msg : pystr)          (* sqlalchemy.exc.SQLAlchemyError *)
| TransportError (msg : pystr).     (* httpx.TransportError, timeouts included *)

Definition str_of_Z (z : Z) : pystr :=
  u (NilEmpty.string_of_int (Z.to_int z)).

(** [str(e)] *)
Definition str_of_exn (e : exn) : pystr :=
  match e with
  | HTTPException c d => str_of_Z c ++ u ": " ++ d
  | ValueError m => m
  | OSError m => m
  | MultipleResultsFound =>
      u "Multiple rows were found when one or none was required"
  | DBAPIError m => m
  | TransportError m => m
  end.

(** Whether an exception is the structured error a caller is meant to
    see, and its kind. *)
Definition is_http_exception (e : exn) : bool :=
  match e with HTTPException _ _ => true | _ => false end.

Inductive result (A : Type) : Type :=
| Ok (a : A)
| Raise (e : exn).
Arguments Ok {A} a.
Arguments Raise {A} e.

(** The committed rows, each table in insertion order. *)
Record Store := {
  sessions : list Session.t;
  messages : list Message.t;
  model_calls : list ModelCall.t;
  crm_records : list CRMRecord.t;
  tool_calls : list ToolCall.t
}.

Definition empty_store : Store :=
  {| sessions := []; messages := []; model_calls := [];
     crm_records := []; tool_calls := [] |}.

(** An object handed to [db.add]. *)
Inductive Row : Type :=
| RSession (r : Session.t)
| RMessage (r : Message.t)
| RModelCall (r : ModelCall.t)
| RCRMRecord (r : CRMRecord.t)
| RToolCall (r : ToolCall.t).

Definition insert_row (st : Store) (r : Row) : Store :=
  match r with
  | RSession x =>
      {| sessions := sessions st ++ [x]; messages := messages st;
         model_calls := model_calls st; crm_records := crm_records st;
         tool_calls := tool_calls st |}
  | RMessage x =>
      {| sessions := sessions st; messages := messages st ++ [x];
         model_calls := model_calls st; crm_records := crm_records st;
         tool_calls := tool_calls st |}
  | RModelCall x =>
      {| sessions := sessions st; messages := messages st;
         model_calls := model_calls st ++ [x]; crm_records := crm_records st;
         tool_calls := tool_calls st |}
  | RCRMRecord x =>
      {| sessions := sessions st; messages := messages st;
         model_calls := model_calls st; crm_records := crm_records st ++ [x];
         tool_calls := tool_calls st |}
  | RToolCall x =>
      {| sessions := sessions st; messages := messages st;
         model_calls := model_calls st; crm_records := crm_records st;
         tool_calls := tool_calls st ++ [x] |}
  end.

(** The INSERTs of one flush, in the order the objects were added. *)
Definition flush (st : Store) (rows : list Row) : Store :=
  fold_left insert_row rows st.

(** What a handler can change: the database, the unit of work of the
    open [AsyncSession], the media directory, and how many identifiers,
    clock readings and commits have been drawn from the environment. *)
Record World := {
  db : Store;
  uow : list Row;
  media : list (pystr * bytes);
  entropy_ctr : nat;
  clock_ctr : nat;
  commit_ctr : nat
}.

Definition set_db (w : World) (st : Store) : World :=
  {| db := st; uow := uow w; media := media w;
     entropy_ctr := entropy_ctr w; clock_ctr := clock_ctr w;
     commit_ctr := commit_ctr w |}.

Definition set_uow (w : World) (rows : list Row) : World :=
  {| db := db w; uow := rows; media := media w;
     entropy_ctr := entropy_ctr w; clock_ctr := clock_ctr w;
     commit_ctr := commit_ctr w |}.

Definition set_media (w : World) (m : list (pystr * bytes)) : World :=
  {| db := db w; uow := uow w; media := m;
     entropy_ctr := entropy_ctr w; clock_ctr := clock_ctr w;
     commit_ctr := commit_ctr w |}.

Definition tick_entropy (w : World) : World :=
  {| db := db w; uow := uow w; media := media w;
     entropy_ctr := S (entropy_ctr w); clock_ctr := clock_ctr w;
     commit_ctr := commit_ctr w |}.

Definition tick_clock (w : World) : World :=
  {| db := db w; uow := uow w; media := media w;
     entropy_ctr := entropy_ctr w; clock_ctr := S (clock_ctr w);
     commit_ctr := commit_ctr w |}.

Definition tick_commit (w : World) : World :=
  {| db := db w; uow := uow w; media := media w;
     entropy_ctr := entropy_ctr w; clock_ctr := clock_ctr w;
     commit_ctr := S (commit_ctr w) |}.

Definition initial_world : World :=
  {| db := empty_store; uow := []; media := [];
     entropy_ctr := 0; clock_ctr := 0; commit_ctr := 0 |}.

(** How the POST to the CRM endpoint ends for the client:
    the request is served and its response read ([Delivered]); the
    connection fails before the request is served ([Unreachable]); or
    the ten-second timeout expires, the request served or not
    ([TimedOut]). *)
Inductive transport : Type :=
| Delivered
| Unreachable (msg : pystr)
| TimedOut (served : bool).

(** Everything outside the repository that a handler consults. *)
Record Env := {
  (** [str.lower()] *)
  lower : pystr -> pystr;
  (** [str(uuid.uuid4())], by number of draws so far *)
  uuid4 : nat -> pystr;
  (** [os.urandom(6).hex()], by number of draws so far *)
  urandom_hex : nat -> pystr;
  (** [datetime.utcnow()] in microseconds, by number of readings so far *)
  utcnow : nat -> Z;
  (** [datetime.isoformat()] *)
  isoformat : Z -> pystr;
  (** [int((end - start).total_seconds() * 1000)], evaluated in floating
      point by the datetime library *)
  elapsed_ms : Z -> Z -> Z;
  (** creating the media directory and writing a file at a path:
      [None] when it succeeds, the [OSError] text when it fails *)
  write_fault : pystr -> option pystr;
  (** the k-th [commit()]: [None] when it succeeds, the storage error
      text when it fails *)
  commit_fault : nat -> option pystr;
  (** the outcome of the POST to the CRM endpoint *)
  crm_transport : transport
}.

Definition with_transport (env : Env) (t : transport) : Env :=
  {| lower := lower env; uuid4 := uuid4 env; urandom_hex := urandom_hex env;
     utcnow := utcnow env; isoformat := isoformat env;
     elapsed_ms := elapsed_ms env; write_fault := write_fault env;
     commit_fault := commit_fault env; crm_transport := t |}.

(** *** The monad: state that survives a raised exception *)

Definition M (A : Type) : Type := World -> result A * World.

Definition ret {A} (a : A) : M A := fun w => (Ok a, w).

Definition raise {A} (e : exn) : M A := fun w => (Raise e, w).

Definition bind {A B} (c : M A) (k : A -> M B) : M B :=
  fun w =>
    match c w with
    | (Ok a, w') => k a w'
    | (Raise e, w') => (Raise e, w')
    end.

(** [try: body / except Exception as e: handler(e)] *)
Definition try_except {A} (body : M A) (handler : exn -> M A) : M A :=
  fun w =>
    match body w with
    | (Ok a, w') => (Ok a, w')
    | (Raise e, w') => handler e w'
    end.

(** [async with AsyncSessionLocal() as db: body]: a fresh unit of work,
    dropped when the block is left, normally or by an exception. *)
Definition with_session {A} (body : M A) : M A :=
  fun w =>
    let outer := uow w in
    match body (set_uow w []) with
    | (r, w') => (r, set_uow w' outer)
    end.

End Runtime.
Import Runtime.

Declare Scope monad_scope.
Delimit Scope monad_scope with monad.
Notation "x <- c ;; k" := (bind c (fun x => k))
  (at level 61, c at next level, right associativity) : monad_scope.
Notation "' p <- c ;; k" := (bind c (fun x => match x with p => k end))
  (at level 61, p pattern, c at next level, right associativity) : monad_scope.
Notation "c ;; k" := (bind c (fun _ => k))
  (at level 61, right associativity) : monad_scope.
Open Scope monad_scope.

(* ================================================================== *)
(** ** Library calls the handlers make *)
(* ================================================================== *)

Module Lib.

(** *** base64.b64decode(s) for a [str] [s]

    The string is first encoded as ASCII (a code point above 127 is a
    [ValueError]), then decoded as binascii.a2b_base64 does without
    strict mode: characters outside the alphabet are skipped, a
    complete pad sequence ends the input, and a quad left incomplete at
    the end is an error (binascii.Error, a [ValueError]).  The result
    is the decoded bytes or the text of the error. *)

Definition b64_value (c : N) : option N :=
  if ((65 <=? c) && (c <=? 90))%N then Some (c - 65)%N
  else if ((97 <=? c) && (c <=? 122))%N then Some (c - 71)%N
  else if ((48 <=? c) && (c <=? 57))%N then Some (c + 4)%N
  else if (c =? 43)%N then Some 62%N
  else if (c =? 47)%N then Some 63%N
  else None.

Definition BASE64_PAD : N := 61.

Definition b64_error (quad_pos : N) (out : bytes) : pystr :=
  if (quad_pos =? 1)%N then
    u "Invalid base64-encoded string: number of data characters ("
    ++ u (NilEmpty.string_of_uint
            (N.to_uint (N.of_nat (List.length out) / 3 * 4 + 1)))
    ++ u ") cannot be 1 more than a multiple of 4"
  else u "Incorrect padding".

Fixpoint a2b_base64 (data : list N) (quad_pos leftchar pads : N)
    (out : bytes) : bytes + pystr :=
  match data with
  | [] => if (quad_pos =? 0)%N then inl out
          else inr (b64_error quad_pos out)
  | this_ch :: rest =>
      if (this_ch =? BASE64_PAD)%N then
        if (2 <=? quad_pos)%N then
          if (4 <=? quad_pos + (pads + 1))%N then inl out
          else a2b_base64 rest quad_pos leftchar (pads + 1)%N out
        else a2b_base64 rest quad_pos leftchar pads out
      else
        match b64_value this_ch with
        | None => a2b_base64 rest quad_pos leftchar pads out
        | Some v =>
            match quad_pos with
            | 0%N => a2b_base64 rest 1%N v 0%N out
            | 1%N =>
                a2b_base64 rest 2%N (N.land v 15) 0%N
                  (out ++ [N.lor (N.shiftl leftchar 2) (N.shiftr v 4)])
            | 2%N =>
                a2b_base64 rest 3%N (N.land v 3) 0%N
                  (out ++ [N.lor (N.shiftl leftchar 4) (N.shiftr v 2)])
            | _ =>
                a2b_base64 rest 0%N 0%N 0%N
                  (out ++ [N.lor (N.shiftl leftchar 6) v])
            end
        end
  end.

Definition b64decode (s : pystr) : bytes + pystr :=
  if forallb (fun c => (c <? 128)%N) s then a2b_base64 s 0 0 0 []
  else inr (u "string argument should contain only ASCII characters").

(** *** The [wave] module: a PCM file of the given frames *)

Definition le16 (n : N) : bytes :=
  [N.land n 255; N.land (N.shiftr n 8) 255].

Definition le32 (n : N) : bytes :=
  [N.land n 255; N.land (N.shiftr n 8) 255;
   N.land (N.shiftr n 16) 255; N.land (N.shiftr n 24) 255].

Definition wave_file (nchannels sampwidth framerate : N) (frames : bytes)
    : bytes :=
  let datalength := N.of_nat (List.length frames) in
  u "RIFF" ++ le32 (36 + datalength) ++ u "WAVE" ++ u "fmt " ++ le32 16
  ++ le16 1 ++ le16 nchannels ++ le32 framerate
  ++ le32 (nchannels * framerate * sampwidth)
  ++ le16 (nchannels * sampwidth) ++ le16 (sampwidth * 8)
  ++ u "data" ++ le32 datalength ++ frames.

(** *** The media directory *)

Fixpoint file_get (fs : list (pystr * bytes)) (path : pystr)
    : option bytes :=
  match fs with
  | [] => None
  | (p, c) :: fs' => if str_eqb p path then Some c else file_get fs' path
  end.

Fixpoint file_del (fs : list (pystr * bytes)) (path : pystr)
    : list (pystr * bytes) :=
  match fs with
  | [] => []
  | (p, c) :: fs' =>
      if str_eqb p path then file_del fs' path else (p, c) :: file_del fs' path
  end.

(** *** ORDER BY on a text column: a stable insertion sort under the
    binary collation.  The engine leaves the order of equal keys open;
    the stable one is taken here. *)

Section OrderBy.
Context {A : Type} (key : A -> pystr).

Fixpoint insert_by (x : A) (l : list A) : list A :=
  match l with
  | [] => [x]
  | y :: l' =>
      if str_leb (key x) (key y) then x :: l else y :: insert_by x l'
  end.

Definition order_by (l : list A) : list A :=
  fold_right insert_by [] l.

End OrderBy.

Section Effects.
Variable env : Env.

(** gen_uuid() *)
Definition gen_uuid : M pystr :=
  fun w => (Ok (uuid4 env (entropy_ctr w)), tick_entropy w).

(** os.urandom(6).hex() *)
Definition os_urandom_hex : M pystr :=
  fun w => (Ok (urandom_hex env (entropy_ctr w)), tick_entropy w).

(** datetime.datetime.utcnow() *)
Definition datetime_utcnow : M Z :=
  fun w => (Ok (utcnow env (clock_ctr w)), tick_clock w).

(** now_iso() *)
Definition now_iso : M pystr :=
  t <- datetime_utcnow ;;
  ret (isoformat env t ++ u "Z").

(** base64.b64decode(s) *)
Definition base64_b64decode (s : pystr) : M bytes :=
  match b64decode s with
  | inl b => ret b
  | inr msg => raise (ValueError msg)
  end.

(** os.makedirs("media", exist_ok=True) followed by writing the whole
    content to the file at [path] *)
Definition write_media (path : pystr) (content : bytes) : M unit :=
  fun w =>
    match write_fault env path with
    | Some m => (Raise (OSError m), w)
    | None =>
        (Ok tt, set_media w ((path, content) :: file_del (media w) path))
    end.

(** os.path.exists(path) *)
Definition os_path_exists (path : pystr) : M bool :=
  fun w =>
    (Ok (match file_get (media w) path with Some _ => true | None => false end),
     w).

(** os.path.getsize(path) *)
Definition os_path_getsize (path : pystr) : M N :=
  fun w =>
    match file_get (media w) path with
    | Some c => (Ok (N.of_nat (List.length c)), w)
    | None => (Raise (OSError (u "No such file or directory")), w)
    end.

(** db.add(obj) *)
Definition db_add (r : Row) : M unit :=
  fun w => (Ok tt, set_uow w (uow w ++ [r])).

(** await db.commit(): the unit of work becomes visible as a whole, or
    the transaction is rolled back, its pending objects expunged, and
    the storage error raised. *)
Definition db_commit : M unit :=
  fun w =>
    match commit_fault env (commit_ctr w) with
    | None =>
        (Ok tt, tick_commit (set_uow (set_db w (flush (db w) (uow w))) []))
    | Some m => (Raise (DBAPIError m), tick_commit (set_uow w []))
    end.

(** await db.execute(select(T).where(p)), read as [.scalars().all()] *)
Definition db_select {A} (table : Store -> list A) (where_ : A -> bool)
    : M (list A) :=
  fun w => (Ok (filter where_ (table (db w))), w).

(** .scalars().one_or_none() *)
Definition one_or_none {A} (rows : list A) : M (option A) :=
  match rows with
  | [] => ret None
  | [x] => ret (Some x)
  | _ :: _ :: _ => raise MultipleResultsFound
  end.

End Effects.

End Lib.
Import Lib.

(* ================================================================== *)
(** ** The speech stages: app/services/ai_pipeline.py *)
(* ================================================================== *)

Module AiPipeline.

Definition EMPTY_TRANSCRIPT : pystr := u "<empty_transcript>".

Definition PENDING_TRANSCRIPT : pystr :=
  u "<transcript_from_asr_pending_real_model>".

#[global] Arguments EMPTY_TRANSCRIPT : simpl never.
#[global] Arguments PENDING_TRANSCRIPT : simpl never.

Section WithEnv.
Variable env : Env.

(** run_asr(source, mime): [source] is a file path ([str]) or the audio
    itself ([bytes]). *)
Definition run_asr (source : pystr + bytes) (mime : pystr) : M pystr :=
  try_except
    (match source with
     | inl path =>
         present <- os_path_exists path ;;
         if present : bool then
           size <- os_path_getsize path ;;
           if (0 <? size)%N then ret PENDING_TRANSCRIPT
           else ret EMPTY_TRANSCRIPT
         else ret EMPTY_TRANSCRIPT
     | inr data =>
         if Nat.eqb (List.length data) 0 then ret EMPTY_TRANSCRIPT
         else ret PENDING_TRANSCRIPT
     end)
    (fun _ => ret EMPTY_TRANSCRIPT).

(** run_llm(prompt) *)
Definition run_llm (prompt : pystr) : M pystr :=
  ret (generate_reply (lower env) prompt).

(** The one second of 16 kHz, 16-bit mono silence run_tts writes. *)
Definition tts_silence : bytes :=
  let framerate := 16000%N in
  let nframes := 16000%N in      (* int(framerate * duration_s) *)
  let sampwidth := 2%N in
  let nchannels := 1%N in
  wave_file nchannels sampwidth framerate
    (repeat 0%N (N.to_nat (sampwidth * nframes))).

(** run_tts(text, message_id) *)
Definition run_tts (text : pystr) (message_id : option pystr)
    : M (option pystr) :=
  try_except
    (message_id <- match message_id with
                   | Some m => ret m
                   | None => h <- os_urandom_hex env ;; ret (u "tts_" ++ h)
                   end ;;
     let out_path := u "media/reply_" ++ message_id ++ u ".wav" in
     write_media env out_path tts_silence ;;
     ret (Some out_path))
    (fun _ => ret None).

End WithEnv.

End AiPipeline.
Import AiPipeline.

(* ================================================================== *)
(** ** The CRM intake handler: app/api/v1/tools.py *)
(* ================================================================== *)

Module Tools.

Definition REQUIRED_FIELDS : list pystr :=
  [u "name"; u "phone"; u "account_id"; u "query"; u "intent"; u "priority"].

(** [f for f in REQUIRED_FIELDS if not rec.get(f)] *)
Definition missing_fields (rec : dict) : list pystr :=
  filter (fun f => negb (truthy_get rec f)) REQUIRED_FIELDS.

(** The success body of the endpoint. *)
Record McpResponse := {
  ok : bool;
  status : option pystr;
  crm_record_id : pystr;
  tool_call_id : pystr
}.

Definition opt_truthy (x : option pystr) : bool :=
  match x with Some s => truthy_str s | None => false end.

Definition opt_str_eqb (x : option pystr) (s : pystr) : bool :=
  match x with Some a => str_eqb a s | None => false end.

Section WithEnv.
Variable env : Env.

(** mcp_handler(payload, request) *)
Definition mcp_handler (payload : MCPPayload.t) : M McpResponse :=
  (* Validate scenario *)
  if negb (opt_truthy (MCPPayload.scenario payload)) then
    raise (HTTPException 400 (u "scenario is required"))
  else
  (* Billing scenario required fields *)
  (if opt_str_eqb (MCPPayload.scenario payload) (u "billing_query") then
     let rec := dict_or_empty (MCPPayload.crm_record payload) in
     let missing := missing_fields rec in
     match missing with
     | _ :: _ =>
         raise (HTTPException 400
                  (u "Missing crm_record fields: " ++ repr_list missing))
     | [] => ret tt
     end
   else ret tt) ;;
  with_session (
    (* Ensure session exists *)
    r <- db_select sessions
           (fun s => str_eqb (Session.id s) (MCPPayload.session_id payload)) ;;
    session_row <- one_or_none r ;;
    match session_row with
    | None => raise (HTTPException 404 (u "session not found"))
    | Some session_row =>
        (* Create CRMRecord *)
        crm_id <- gen_uuid env ;;
        crm_created_at <- now_iso env ;;
        let crm_row :=
          {| CRMRecord.id := crm_id;
             CRMRecord.session_id := Some (MCPPayload.session_id payload);
             CRMRecord.customer_id :=
               Some (str_or (MCPPayload.customer_id payload)
                            (Session.customer_id session_row));
             CRMRecord.scenario := MCPPayload.scenario payload;
             CRMRecord.record_json :=
               Some (dict_or_empty (MCPPayload.crm_record payload));
             CRMRecord.status := Some (u "pending");
             CRMRecord.created_at := crm_created_at |} in
        (* Create ToolCall *)
        tool_id <- gen_uuid env ;;
        tool_created_at <- now_iso env ;;
        let tool_row :=
          {| ToolCall.id := tool_id;
             ToolCall.session_id := Some (MCPPayload.session_id payload);
             ToolCall.payload_json := Some (MCPPayload.to_dict payload);
             ToolCall.status := Some (u "accepted");
             ToolCall.created_at := tool_created_at |} in
        (* Try writing DB *)
        try_except
          (db_add (RCRMRecord crm_row) ;;
           db_add (RToolCall tool_row) ;;
           db_commit env)
          (fun e =>
             (* Mark tool call as failed *)
             try_except
               (let tool_row := ToolCall.set_status tool_row (u "failed") in
                db_add (RToolCall tool_row) ;;
                db_commit env)
               (fun _ => ret tt) ;;
             raise (HTTPException 500 (u "DB error: " ++ str_of_exn e))) ;;
        ret {| ok := true;
               status := ToolCall.status tool_row;
               crm_record_id := CRMRecord.id crm_row;
               tool_call_id := ToolCall.id tool_row |}
    end).

End WithEnv.

End Tools.
Import Tools.

(* ================================================================== *)
(** ** Sessions, messages and the conversation: app/api/v1/sessions.py *)
(* ================================================================== *)

Module Sessions.

Record CreateSessionResponse := {
  new_session_id : pystr;
  new_created_at : pystr
}.

(** The summary post_message returns. *)
Record MessageSummary := {
  message_id : pystr;
  session_id : pystr;
  created_at : pystr;
  incoming_text : option pystr;
  transcript : option pystr;
  reply_text : option pystr;
  reply_audio_path : option pystr
}.

(** The locals of post_message when the message row has been built
    (line 143). *)
Record Prepared := {
  p_message_id : pystr;
  p_created_at : pystr;
  p_incoming_text : option pystr;
  p_transcript : pystr;
  p_audio_path_or_b64 : option pystr;
  p_message_row : Message.t
}.

(** The locals of post_message after the commit of step 5 (line 245). *)
Record Committed := {
  c_prepared : Prepared;
  c_session : Session.t;
  c_transcript : pystr;
  c_llm_reply : pystr;
  c_message_row : Message.t;
  c_model_calls : list ModelCall.t
}.

(** What get_conversation answers: status 404 with a detail, or the
    session with its four collections. *)
Inductive ConversationResponse : Type :=
| ConversationNotFound (status_code : Z) (detail : pystr)
| Conversation (session : Session.t) (messages : list Message.t)
    (crm_records : list CRMRecord.t) (tool_calls : list ToolCall.t)
    (model_calls : list ModelCall.t).

Definition set_transcript (m : Message.t) (t : pystr) : Message.t :=
  {| Message.id := Message.id m; Message.session_id := Message.session_id m;
     Message.direction := Message.direction m; Message.type := Message.type m;
     Message.text := Message.text m;
     Message.audio_path_or_b64 := Message.audio_path_or_b64 m;
     Message.transcript := Some t;
     Message.reply_text := Message.reply_text m;
     Message.reply_audio_path_or_b64 := Message.reply_audio_path_or_b64 m;
     Message.created_at := Message.created_at m |}.

Definition set_reply (m : Message.t) (reply : pystr) (audio : option pystr)
    : Message.t :=
  {| Message.id := Message.id m; Message.session_id := Message.session_id m;
     Message.direction := Message.direction m; Message.type := Message.type m;
     Message.text := Message.text m;
     Message.audio_path_or_b64 := Message.audio_path_or_b64 m;
     Message.transcript := Message.transcript m;
     Message.reply_text := Some reply;
     Message.reply_audio_path_or_b64 := audio;
     Message.created_at := Message.created_at m |}.

Definition is_text (msg : MessageReq.t) : bool :=
  str_eqb (MessageReq.type msg) (u "text").

Definition is_audio (msg : MessageReq.t) : bool :=
  str_eqb (MessageReq.type msg) (u "audio").

Section WithEnv.
Variable env : Env.

(** create_session(req) *)
Definition create_session (req : CreateSessionReq.t)
    : M CreateSessionResponse :=
  session_id <- gen_uuid env ;;
  created_at <- now_iso env ;;
  let session_row :=
    {| Session.id := session_id;
       Session.customer_id := CreateSessionReq.customer_id req;
       Session.language := CreateSessionReq.language req;
       Session.channel := CreateSessionReq.channel req;
       Session.persona := CreateSessionReq.persona req;
       Session.created_at := created_at |} in
  with_session (
    db_add (RSession session_row) ;;
    db_commit env) ;;
  ret {| new_session_id := session_id; new_created_at := created_at |}.

(** post_message, lines 112-129: the incoming audio is written to
    media/<message_id>.wav or .mp3; any failure leaves the path unset. *)
Definition save_incoming_audio (msg : MessageReq.t) (message_id : pystr)
    : M (option pystr) :=
  if opt_truthy (MessageReq.audio_base64 msg) then
    try_except
      (audio_bytes <- base64_b64decode
                        (str_or (MessageReq.audio_base64 msg) []) ;;
       let ext :=
         if opt_truthy (MessageReq.mime msg)
            && contains (u "mp3") (lower env (str_or (MessageReq.mime msg) []))
         then u ".mp3" else u ".wav" in
       let media_filename := u "media/" ++ message_id ++ ext in
       write_media env media_filename audio_bytes ;;
       ret (Some media_filename))
      (fun _ => ret None)
  else ret None.

(** post_message, lines 99-143: identifiers, input normalisation and the
    initial message row. *)
Definition prepare_message (session_id : pystr) (msg : MessageReq.t)
    : M Prepared :=
  message_id <- gen_uuid env ;;
  created_at <- now_iso env ;;
  (* Prepare incoming text / transcript *)
  ' (incoming_text, transcript, audio_path_or_b64) <-
      (if is_text msg then
         let incoming_text := str_or (MessageReq.text msg) [] in
         ret (Some incoming_text, incoming_text, None)
       else
         audio_path_or_b64 <- save_incoming_audio msg message_id ;;
         ret (None, u "<audio_received>", audio_path_or_b64)) ;;
  (* Build message row with initial values *)
  let message_row :=
    {| Message.id := message_id;
       Message.session_id := session_id;
       Message.direction := Some (u "incoming");
       Message.type := Some (MessageReq.type msg);
       Message.text := incoming_text;
       Message.audio_path_or_b64 := audio_path_or_b64;
       Message.transcript := Some transcript;
       Message.reply_text := None;
       Message.reply_audio_path_or_b64 := None;
       Message.created_at := created_at |} in
  ret {| p_message_id := message_id; p_created_at := created_at;
         p_incoming_text := incoming_text; p_transcript := transcript;
         p_audio_path_or_b64 := audio_path_or_b64;
         p_message_row := message_row |}.

(** post_message, lines 156-187: the ASR stage of an audio message. *)
Definition asr_stage (msg : MessageReq.t) (p : Prepared)
    : M (pystr * ModelCall.t) :=
  asr_start <- datetime_utcnow env ;;
  (* Choose ASR input: the saved file if there is one, else the bytes *)
  asr_source <-
    (if opt_truthy (p_audio_path_or_b64 p) then
       ret (inl (str_or (p_audio_path_or_b64 p) []))
     else if opt_truthy (MessageReq.audio_base64 msg) then
       b <- base64_b64decode (str_or (MessageReq.audio_base64 msg) []) ;;
       ret (inr b)
     else ret (inr [])) ;;
  transcript <- run_asr asr_source
                  (str_or (MessageReq.mime msg) (u "audio/wav")) ;;
  asr_end <- datetime_utcnow env ;;
  let duration_ms := elapsed_ms env asr_start asr_end in
  (* Log ASR model call *)
  call_id <- gen_uuid env ;;
  call_created_at <- now_iso env ;;
  let asr_call :=
    {| ModelCall.id := call_id;
       ModelCall.message_id := Some (p_message_id p);
       ModelCall.model_type := Some (u "ASR");
       ModelCall.model_id := Some (u "Systran/faster-whisper-tiny.en");
       ModelCall.duration_ms := Some duration_ms;
       ModelCall.raw_response_snippet := Some (take 200 transcript);
       ModelCall.created_at := call_created_at |} in
  ret (transcript, asr_call).

(** post_message, lines 195-211: the reply generator and its log row. *)
Definition llm_stage (p : Prepared) (user_text : pystr)
    : M (pystr * ModelCall.t) :=
  llm_start <- datetime_utcnow env ;;
  let llm_reply := generate_reply (lower env) user_text in
  llm_end <- datetime_utcnow env ;;
  let llm_duration_ms := elapsed_ms env llm_start llm_end in
  call_id <- gen_uuid env ;;
  call_created_at <- now_iso env ;;
  let llm_call :=
    {| ModelCall.id := call_id;
       ModelCall.message_id := Some (p_message_id p);
       ModelCall.model_type := Some (u "LLM");
       ModelCall.model_id := Some (u "rule-based-generate-reply-v1");
       ModelCall.duration_ms := Some llm_duration_ms;
       ModelCall.raw_response_snippet := Some (take 200 llm_reply);
       ModelCall.created_at := call_created_at |} in
  ret (llm_reply, llm_call).

(** post_message, lines 213-234: the TTS stage and its log row. *)
Definition tts_stage (p : Prepared) (llm_reply : pystr)
    : M (option pystr * ModelCall.t) :=
  tts_start <- datetime_utcnow env ;;
  tts_path <- run_tts env llm_reply (Some (p_message_id p)) ;;
  tts_end <- datetime_utcnow env ;;
  let tts_duration_ms := elapsed_ms env tts_start tts_end in
  (* Log TTS model call (even if stub / None) *)
  let tts_snippet :=
    match tts_path with
    | Some path => Some (take 200 path)
    | None => None
    end in
  call_id <- gen_uuid env ;;
  call_created_at <- now_iso env ;;
  let tts_call :=
    {| ModelCall.id := call_id;
       ModelCall.message_id := Some (p_message_id p);
       ModelCall.model_type := Some (u "TTS");
       ModelCall.model_id := Some (u "stub-tts");
       ModelCall.duration_ms := Some tts_duration_ms;
       ModelCall.raw_response_snippet := tts_snippet;
       ModelCall.created_at := call_created_at |} in
  ret (tts_path, tts_call).

(** [for mc in model_calls_to_save: db.add(mc)] *)
Fixpoint add_model_calls (l : list ModelCall.t) : M unit :=
  match l with
  | [] => ret tt
  | mc :: l' => db_add (RModelCall mc) ;; add_model_calls l'
  end.

(** post_message, lines 146-245, inside the database block: the session
    check, the stages in order, and the single commit of the message
    row with its model calls. *)
Definition run_stages_and_commit (session_id : pystr) (msg : MessageReq.t)
    (p : Prepared) : M Committed :=
  (* Check session exists and load session metadata *)
  r <- db_select sessions (fun s => str_eqb (Session.id s) session_id) ;;
  s <- one_or_none r ;;
  match s with
  | None => raise (HTTPException 404 (u "session not found"))
  | Some s =>
      let message_row := p_message_row p in
      let transcript := p_transcript p in
      let model_calls_to_save := [] in
      (* ---- 1) ASR (if audio) ---- *)
      ' (transcript, message_row, model_calls_to_save) <-
          (if is_audio msg then
             ' (transcript, asr_call) <- asr_stage msg p ;;
             ret (transcript, set_transcript message_row transcript,
                  model_calls_to_save ++ [asr_call])
           else ret (transcript, message_row, model_calls_to_save)) ;;
      (* ---- 2) Decide what text goes into the reply generator ---- *)
      let user_text :=
        if is_text msg then str_or (p_incoming_text p) []
        else str_or (Some transcript) [] in
      (* ---- 3) LLM ---- *)
      ' (llm_reply, llm_call) <- llm_stage p user_text ;;
      let model_calls_to_save := model_calls_to_save ++ [llm_call] in
      (* ---- 4) TTS ---- *)
      ' (tts_path, tts_call) <- tts_stage p llm_reply ;;
      let model_calls_to_save := model_calls_to_save ++ [tts_call] in
      (* ---- 5) Update message with reply; save message + model calls ---- *)
      let message_row := set_reply message_row llm_reply tts_path in
      db_add (RMessage message_row) ;;
      add_model_calls model_calls_to_save ;;
      db_commit env ;;
      ret {| c_prepared := p; c_session := s; c_transcript := transcript;
             c_llm_reply := llm_reply; c_message_row := message_row;
             c_model_calls := model_calls_to_save |}
  end.

(** The body the pipeline posts to the CRM endpoint, as the endpoint
    parses it. *)
Definition crm_payload (session_id : pystr) (c : Committed) : MCPPayload.t :=
  {| MCPPayload.session_id := session_id;
     MCPPayload.customer_id :=
       Some (str_or (Some (Session.customer_id (c_session c)))
                    (u "cust_demo"));
     MCPPayload.llm_response := Some (c_llm_reply c);
     MCPPayload.scenario := Some (u "billing_query");
     MCPPayload.crm_record :=
       Some [ (u "name", JStr (u "Asha Sharma"));
              (u "phone", JStr (u "+91-98xxxxxxx"));
              (u "account_id", JStr (u "acc_" ++ take 8 session_id));
              (u "query", JStr (c_transcript c));
              (u "intent", JStr (u "request_refund"));
              (u "priority", JStr (u "high")) ];
     MCPPayload.meta :=
       Some [ (u "model", JStr (u "stub-llm"));
              (u "confidence", JFloat 0.5%float) ] |}.

(** await client.post(mcp_url, json=crm_payload, ..., timeout=10.0):
    when the request is served the CRM handler runs against the same
    database and its outcome, success or error, comes back as a
    response; a transport failure or timeout is raised to the caller. *)
Definition client_post (payload : MCPPayload.t) : M unit :=
  let serve := try_except (mcp_handler env payload ;; ret tt)
                          (fun _ => ret tt) in
  match crm_transport env with
  | Delivered => serve
  | Unreachable m => raise (TransportError m)
  | TimedOut served =>
      (if served then serve else ret tt) ;;
      raise (TransportError (u "timed out"))
  end.

(** post_message, lines 247-273: the best-effort CRM dispatch. *)
Definition dispatch_crm (session_id : pystr) (c : Committed) : M unit :=
  try_except (client_post (crm_payload session_id c))
             (fun _ => ret tt).

(** post_message, lines 276-284. *)
Definition summary (session_id : pystr) (c : Committed) : MessageSummary :=
  {| message_id := p_message_id (c_prepared c);
     session_id := session_id;
     created_at := p_created_at (c_prepared c);
     incoming_text := p_incoming_text (c_prepared c);
     transcript := Message.transcript (c_message_row c);
     reply_text := Message.reply_text (c_message_row c);
     reply_audio_path := Message.reply_audio_path_or_b64 (c_message_row c) |}.

Definition BAD_TYPE : exn :=
  HTTPException 400 (u "type must be 'text' or 'audio'").

(** post_message(session_id, msg) *)
Definition post_message (session_id : pystr) (msg : MessageReq.t)
    : M MessageSummary :=
  (* Validate type *)
  if negb (is_text msg || is_audio msg) then raise BAD_TYPE
  else
    p <- prepare_message session_id msg ;;
    c <- with_session (
           c <- run_stages_and_commit session_id msg p ;;
           dispatch_crm session_id c ;;
           ret c) ;;
    ret (summary session_id c).

(** post_message up to and including the commit of step 5 (line 245):
    the same run with the CRM dispatch left out. *)
Definition post_message_through_commit (session_id : pystr)
    (msg : MessageReq.t) : M Committed :=
  if negb (is_text msg || is_audio msg) then raise BAD_TYPE
  else
    p <- prepare_message session_id msg ;;
    with_session (run_stages_and_commit session_id msg p).

(** The join of get_conversation: a ModelCall row for each message of
    the session whose id it carries. *)
Definition join_model_calls (st : Store) (session_id : pystr)
    : list ModelCall.t :=
  flat_map
    (fun mc =>
       List.map (fun _ => mc)
         (filter
            (fun m =>
               opt_str_eqb (ModelCall.message_id mc) (Message.id m)
               && str_eqb (Message.session_id m) session_id)
            (messages st)))
    (model_calls st).

(** get_conversation(session_id, response) *)
Definition get_conversation (session_id : pystr) : M ConversationResponse :=
  with_session (
    (* Ensure session exists *)
    r <- db_select sessions (fun s => str_eqb (Session.id s) session_id) ;;
    session_obj <- one_or_none r ;;
    match session_obj with
    | None => ret (ConversationNotFound 404 (u "session not found"))
    | Some session_obj =>
        (* Fetch messages *)
        r_msgs <- db_select messages
                    (fun m => str_eqb (Message.session_id m) session_id) ;;
        let messages := order_by Message.created_at r_msgs in
        (* Fetch CRM records *)
        r_crm <- db_select crm_records
                   (fun c => opt_str_eqb (CRMRecord.session_id c) session_id) ;;
        let crm_records := order_by CRMRecord.created_at r_crm in
        (* Fetch tool calls *)
        r_tools <- db_select tool_calls
                     (fun t => opt_str_eqb (ToolCall.session_id t) session_id) ;;
        let tool_calls := order_by ToolCall.created_at r_tools in
        (* Fetch model calls belonging to messages in this session *)
        r_model_calls <-
          (fun w => (Ok (join_model_calls (db w) session_id), w)) ;;
        let model_calls := order_by ModelCall.created_at r_model_calls in
        ret (Conversation session_obj messages crm_records tool_calls
               model_calls)
    end).

End WithEnv.

End Sessions.
Import Sessions.

(* ================================================================== *)
(** ** The bearer-token check: app/main.py *)
(* ================================================================== *)

Module Main.

(** [s.split(sep, 1)] for a non-empty [sep]: the text before and after
    the first occurrence of [sep], or [s] alone when there is none. *)
Fixpoint cut_first (sep s : pystr) : option (pystr * pystr) :=
  match s with
  | [] => None
  | c :: t =>
      if startswith sep s then Some ([], skipn (List.length sep) s)
      else match cut_first sep t with
           | Some (a, b) => Some (c :: a, b)
           | None => None
           end
  end.

Definition split_once (sep s : pystr) : list pystr :=
  match cut_first sep s with
  | Some (a, b) => [a; b]
  | None => [s]
  end.

(** How the dependency ends: it returns, it raises, or an index is out
    of range ([IndexError]). *)
Inductive checked : Type :=
| Authorized
| Refused (e : exn)
| IndexError.

Section WithKey.

(** [API_KEY], read from the process environment at start-up. *)
Variable API_KEY : pystr.

(** require_api_key(authorization) *)
Definition require_api_key (authorization : option pystr) : checked :=
  match authorization with
  | None =>
      Refused (HTTPException 401
                 (u "Missing or invalid Authorization header"))
  | Some a =>
      if negb (startswith (u "Bearer ") a) then
        Refused (HTTPException 401
                   (u "Missing or invalid Authorization header"))
      else
        match nth_error (split_once (u " ") a) 1 with
        | None => IndexError
        | Some token =>
            if negb (str_eqb token API_KEY) then
              Refused (HTTPException 403 (u "Invalid API key"))
            else Authorized
        end
  end.

End WithKey.

(** The Authorization header post_message sends with its CRM call:
    f"Bearer {API_KEY}". *)
Definition bearer_header (API_KEY : pystr) : pystr := u "Bearer " ++ API_KEY.

End Main.
Import Main.

(* ================================================================== *)
(** ** Concrete environments, worlds and requests *)
(* ================================================================== *)

Module Demo.

(** An environment without faults, for concrete runs: ASCII case
    table, identifiers "id-0", "id-1", ..., a clock that advances one
    millisecond per reading within the first second of 2025. *)
Definition demo_env : Env :=
  {| lower := ascii_lower;
     uuid4 := fun n => u "id-" ++ str_of_Z (Z.of_nat n);
     urandom_hex := fun n => u "rnd-" ++ str_of_Z (Z.of_nat n);
     utcnow := fun n => (Z.of_nat n * 1000)%Z;
     isoformat := fun t => u "2025-01-01T00:00:00."
                           ++ tl (str_of_Z (1000000 + t));
     elapsed_ms := fun a b => ((b - a) / 1000)%Z;
     write_fault := fun _ => None;
     commit_fault := fun _ => None;
     crm_transport := Delivered |}.

(** The same environment with a database whose commits all fail. *)
Definition failing_db_env : Env :=
  {| lower := lower demo_env; uuid4 := uuid4 demo_env;
     urandom_hex := urandom_hex demo_env; utcnow := utcnow demo_env;
     isoformat := isoformat demo_env; elapsed_ms := elapsed_ms demo_env;
     write_fault := write_fault demo_env;
     commit_fault := fun _ => Some (u "connection lost");
     crm_transport := crm_transport demo_env |}.

Definition demo_session : Session.t :=
  {| Session.id := u "s-1"; Session.customer_id := u "cust_123";
     Session.language := u "en"; Session.channel := u "phone";
     Session.persona := None;
     Session.created_at := u "2025-01-01T00:00:00.000000Z" |}.

(** A world whose database holds the one session "s-1". *)
Definition demo_world : World :=
  set_db initial_world (insert_row empty_store (RSession demo_session)).

Definition full_record : dict :=
  [ (u "name", JStr (u "Asha Sharma"));
    (u "phone", JStr (u "+91-98xxxxxxx"));
    (u "account_id", JStr (u "acc_1"));
    (u "query", JStr (u "Why is my bill so high?"));
    (u "intent", JStr (u "billing_query"));
    (u "priority", JInt 2) ].

(** A record that lacks only "phone", in a billing query. *)
Definition record_without_phone : dict :=
  [ (u "name", JStr (u "Asha Sharma"));
    (u "account_id", JStr (u "acc_1"));
    (u "query", JStr (u "Why is my bill so high?"));
    (u "intent", JStr (u "billing_query"));
    (u "priority", JInt 2) ].

Definition no_scenario_payload : MCPPayload.t :=
  {| MCPPayload.session_id := u "s-1";
     MCPPayload.customer_id := None;
     MCPPayload.llm_response := None;
     MCPPayload.scenario := None;
     MCPPayload.crm_record := Some [(u "name", JStr (u "Asha Sharma"))];
     MCPPayload.meta := None |}.

Definition billing_payload (rec : option dict) : MCPPayload.t :=
  {| MCPPayload.session_id := u "s-1";
     MCPPayload.customer_id := Some (u "cust_123");
     MCPPayload.llm_response := None;
     MCPPayload.scenario := Some (u "billing_query");
     MCPPayload.crm_record := rec;
     MCPPayload.meta := None |}.

Definition text_msg (t : pystr) : MessageReq.t :=
  {| MessageReq.type := u "text"; MessageReq.text := Some t;
     MessageReq.audio_base64 := None; MessageReq.mime := None |}.

Definition audio_msg (b64 : option pystr) : MessageReq.t :=
  {| MessageReq.type := u "audio"; MessageReq.text := None;
     MessageReq.audio_base64 := b64; MessageReq.mime := None |}.

Definition bill_msg : MessageReq.t :=
  text_msg (u "Mera bill bahut zyada aaya hai").

(** Rows for a conversation read-back. *)
Definition msg_row (id sid created : string) : Message.t :=
  {| Message.id := u id; Message.session_id := u sid;
     Message.direction := Some (u "incoming");
     Message.type := Some (u "text"); Message.text := Some (u "hi");
     Message.audio_path_or_b64 := None; Message.transcript := Some (u "hi");
     Message.reply_text := None; Message.reply_audio_path_or_b64 := None;
     Message.created_at := u created |}.

Definition call_row (id mid created : string) : ModelCall.t :=
  {| ModelCall.id := u id; ModelCall.message_id := Some (u mid);
     ModelCall.model_type := Some (u "LLM"); ModelCall.model_id := None;
     ModelCall.duration_ms := Some 0%Z;
     ModelCall.raw_response_snippet := None;
     ModelCall.created_at := u created |}.

(** A database with messages of two sessions, stored out of order. *)
Definition two_session_world : World :=
  set_db initial_world
    {| sessions := [demo_session];
       messages := [ msg_row "m2" "s-1" "2025-01-01T00:00:02.000000Z";
                     msg_row "m9" "s-2" "2025-01-01T00:00:01.500000Z";
                     msg_row "m1" "s-1" "2025-01-01T00:00:01.000000Z" ];
       model_calls := [ call_row "c3" "m2" "2025-01-01T00:00:02.100000Z";
                        call_row "c2" "m9" "2025-01-01T00:00:01.600000Z";
                        call_row "c1" "m1" "2025-01-01T00:00:01.100000Z" ];
       crm_records := []; tool_calls := [] |}.

End Demo.
Import Demo.

(* ================================================================== *)
(** ** The vocabulary of the properties *)
(* ================================================================== *)

Module Vocabulary.

(** A string is blank when it is empty or all whitespace. *)
Definition blank (s : pystr) : bool := forallb isspace s.

(** [p] occurs in [s]. *)
Definition occurs (p s : pystr) : Prop := exists a b, s = a ++ p ++ b.

(** Whether the first and the last character of a key are no
    whitespace. *)
Definition solid (p : pystr) : bool :=
  match p, rev p with
  | h :: _, l :: _ => negb (isspace h) && negb (isspace l)
  | _, _ => false
  end.

Definition REFUND_KEYS : list pystr := [u "refund"; u "money back"].

Definition BILLING_KEYS : list pystr :=
  [u "bill"; u "charge"; u "charges"; u "amount"; u "invoice"; u "fees";
   u "fee"].

Definition REPLIES : list pystr :=
  [ASK_REPEAT; REFUND_REPLY; BILLING_REPLY; FALLBACK_REPLY].

(** The ordered rules in the words of the specification: the keys are
    looked for in the lower-cased text, the first rule that matches
    wins. *)
Definition reply_rules (lower : pystr -> pystr) (text : pystr) : pystr :=
  if blank text then ASK_REPEAT
  else if existsb (fun k => contains k (lower text)) REFUND_KEYS then
    REFUND_REPLY
  else if existsb (fun k => contains k (lower text)) BILLING_KEYS then
    BILLING_REPLY
  else FALLBACK_REPLY.

(** What a step leaves alone: the database and the commit count. *)
Definition quiet (w w' : World) : Prop :=
  db w' = db w /\ uow w' = uow w /\ commit_ctr w' = commit_ctr w.

(** The rows a valid call builds, read off the environment: the first
    two identifiers and clock readings drawn from the world [w]. *)
Definition crm_row_of (env : Env) (w : World) (payload : MCPPayload.t)
    (s : Session.t) : CRMRecord.t :=
  {| CRMRecord.id := uuid4 env (entropy_ctr w);
     CRMRecord.session_id := Some (MCPPayload.session_id payload);
     CRMRecord.customer_id :=
       Some (str_or (MCPPayload.customer_id payload) (Session.customer_id s));
     CRMRecord.scenario := MCPPayload.scenario payload;
     CRMRecord.record_json :=
       Some (dict_or_empty (MCPPayload.crm_record payload));
     CRMRecord.status := Some (u "pending");
     CRMRecord.created_at := isoformat env (utcnow env (clock_ctr w)) ++ u "Z" |}.

Definition tool_row_of (env : Env) (w : World) (payload : MCPPayload.t)
    : ToolCall.t :=
  {| ToolCall.id := uuid4 env (S (entropy_ctr w));
     ToolCall.session_id := Some (MCPPayload.session_id payload);
     ToolCall.payload_json := Some (MCPPayload.to_dict payload);
     ToolCall.status := Some (u "accepted");
     ToolCall.created_at :=
       isoformat env (utcnow env (S (clock_ctr w))) ++ u "Z" |}.

(** A call that passes validation and names an existing session. *)
Definition valid_call (w : World) (payload : MCPPayload.t) (s : Session.t)
    : Prop :=
  opt_truthy (MCPPayload.scenario payload) = true
  /\ (MCPPayload.scenario payload = Some (u "billing_query") ->
      missing_fields (dict_or_empty (MCPPayload.crm_record payload)) = [])
  /\ filter (fun x => str_eqb (Session.id x) (MCPPayload.session_id payload))
       (sessions (db w)) = [s].

(** [payload] with another record. *)
Definition with_record (payload : MCPPayload.t) (rec : option dict)
    : MCPPayload.t :=
  {| MCPPayload.session_id := MCPPayload.session_id payload;
     MCPPayload.customer_id := MCPPayload.customer_id payload;
     MCPPayload.llm_response := MCPPayload.llm_response payload;
     MCPPayload.scenario := MCPPayload.scenario payload;
     MCPPayload.crm_record := rec;
     MCPPayload.meta := MCPPayload.meta payload |}.

(** An audio payload that is present and is no valid base64. *)
Definition malformed_audio (msg : MessageReq.t) : bool :=
  opt_truthy (MessageReq.audio_base64 msg)
  && match b64decode (str_or (MessageReq.audio_base64 msg) []) with
     | inl _ => false
     | inr _ => true
     end.

(** The text of the decoding error of an audio payload. *)
Definition decode_error (msg : MessageReq.t) : pystr :=
  match b64decode (str_or (MessageReq.audio_base64 msg) []) with
  | inl _ => []
  | inr m => m
  end.

(** What the locals hold once the message row is built. *)
Definition prepared_for (sid : pystr) (msg : MessageReq.t) (p : Prepared)
    : Prop :=
  Message.id (p_message_row p) = p_message_id p
  /\ Message.session_id (p_message_row p) = sid
  /\ Message.transcript (p_message_row p) = Some (p_transcript p)
  /\ Message.text (p_message_row p) = p_incoming_text p
  /\ (is_text msg = true ->
      p_incoming_text p = Some (str_or (MessageReq.text msg) [])
      /\ p_transcript p = str_or (MessageReq.text msg) [])
  /\ (is_text msg = false ->
      p_incoming_text p = None
      /\ (malformed_audio msg = true -> p_audio_path_or_b64 p = None)).

(** The session the handler finds for an id: exactly one row. *)
Definition session_is (w : World) (sid : pystr) (s : Session.t) : Prop :=
  filter (fun x => str_eqb (Session.id x) sid) (sessions (db w)) = [s].

(** No session row has the id. *)
Definition no_session (w : World) (sid : pystr) : Prop :=
  filter (fun x => str_eqb (Session.id x) sid) (sessions (db w)) = [].

(** The model types the pipeline logs for a message, in order. *)
Definition expected_types (msg : MessageReq.t) : list (option pystr) :=
  (if is_audio msg then [Some (u "ASR")] else [])
  ++ [Some (u "LLM"); Some (u "TTS")].

(** The text handed to the reply generator. *)
Definition user_text_of (msg : MessageReq.t) (p : Prepared) (tr : pystr)
    : pystr :=
  if is_text msg then str_or (p_incoming_text p) [] else str_or (Some tr) [].

(** The message row as it stands at the commit. *)
Definition final_row (env : Env) (msg : MessageReq.t) (p : Prepared)
    (tr : pystr) (audio : option pystr) : Message.t :=
  set_reply
    (if is_audio msg then set_transcript (p_message_row p) tr
     else p_message_row p)
    (generate_reply (lower env) (user_text_of msg p tr)) audio.

(** The locals at the commit. *)
Definition committed_of (env : Env) (msg : MessageReq.t) (p : Prepared)
    (s : Session.t) (tr : pystr) (audio : option pystr)
    (calls : list ModelCall.t) : Committed :=
  {| c_prepared := p; c_session := s; c_transcript := tr;
     c_llm_reply := generate_reply (lower env) (user_text_of msg p tr);
     c_message_row := final_row env msg p tr audio;
     c_model_calls := calls |}.

Definition pipeline_tables_kept (w w' : World) : Prop :=
  sessions (db w') = sessions (db w)
  /\ messages (db w') = messages (db w)
  /\ model_calls (db w') = model_calls (db w)
  /\ uow w' = uow w.


(** Row [a] may come before row [b] under the binary order of the
    key. *)
Definition before {A : Type} (key : A -> pystr) (a b : A) : Prop :=
  str_leb (key a) (key b) = true.

(** A list in ascending order of the key: every row may come before
    every later one. *)
Definition ascending {A : Type} (key : A -> pystr) (l : list A) : Prop :=
  StronglySorted (before key) l.

End Vocabulary.
Import Vocabulary.

(* ================================================================== *)
(** ** The vocabulary of the further properties *)
(* ================================================================== *)

Module Further.

(** The row create_session builds, read off the environment: the next
    identifier and clock reading drawn from the world [w]. *)
Definition session_row_of (env : Env) (w : World) (req : CreateSessionReq.t)
    : Session.t :=
  {| Session.id := uuid4 env (entropy_ctr w);
     Session.customer_id := CreateSessionReq.customer_id req;
     Session.language := CreateSessionReq.language req;
     Session.channel := CreateSessionReq.channel req;
     Session.persona := CreateSessionReq.persona req;
     Session.created_at :=
       isoformat env (utcnow env (clock_ctr w)) ++ u "Z" |}.

(** No row of the message, CRM or tool-call table refers to the
    session id. *)
Definition unreferenced (w : World) (sid : pystr) : Prop :=
  filter (fun m => str_eqb (Message.session_id m) sid) (messages (db w)) = []
  /\ filter (fun c => opt_str_eqb (CRMRecord.session_id c) sid)
       (crm_records (db w)) = []
  /\ filter (fun t => opt_str_eqb (ToolCall.session_id t) sid)
       (tool_calls (db w)) = [].

Definition demo_req : CreateSessionReq.t :=
  {| CreateSessionReq.customer_id := u "cust_123";
     CreateSessionReq.language := u "en";
     CreateSessionReq.channel := u "phone";
     CreateSessionReq.persona := None |}.

(** A call that passes the validation of mcp_handler. *)
Definition well_formed (payload : MCPPayload.t) : Prop :=
  opt_truthy (MCPPayload.scenario payload) = true
  /\ (MCPPayload.scenario payload = Some (u "billing_query") ->
      missing_fields (dict_or_empty (MCPPayload.crm_record payload)) = []).

(** The session ids are a key of the session table. *)
Definition session_ids_unique (w : World) : Prop :=
  NoDup (List.map Session.id (sessions (db w))).

(** A call of another scenario, without a record. *)
Definition callback_payload : MCPPayload.t :=
  {| MCPPayload.session_id := u "s-1";
     MCPPayload.customer_id := None;
     MCPPayload.llm_response := None;
     MCPPayload.scenario := Some (u "Billing_Query");
     MCPPayload.crm_record := None;
     MCPPayload.meta := None |}.

(** The decoded audio of a request: none when the payload is absent,
    empty or no valid base64. *)
Definition audio_bytes (msg : MessageReq.t) : option bytes :=
  if opt_truthy (MessageReq.audio_base64 msg) then
    match b64decode (str_or (MessageReq.audio_base64 msg) []) with
    | inl b => Some b
    | inr _ => None
    end
  else None.

(** What the speech stage reports for a request: whether any byte of
    audio arrived. *)
Definition heard (msg : MessageReq.t) : pystr :=
  match audio_bytes msg with
  | Some (_ :: _) => PENDING_TRANSCRIPT
  | _ => EMPTY_TRANSCRIPT
  end.

(** The file the speech synthesis writes for a message. *)
Definition reply_path (mid : pystr) : pystr :=
  u "media/reply_" ++ mid ++ u ".wav".

(** The path of the reply audio as the synthesis returns it: none when
    the file cannot be written. *)
Definition tts_path_of (env : Env) (mid : pystr) : option pystr :=
  match write_fault env (reply_path mid) with
  | None => Some (reply_path mid)
  | Some _ => None
  end.

(** The saved input of a prepared audio message, when there is one, is
    a file of the media directory that holds the decoded payload. *)
Definition stored_input (msg : MessageReq.t) (p : Prepared) (w : World)
    : Prop :=
  match p_audio_path_or_b64 p with
  | Some path =>
      truthy_str path = true
      /\ path <> reply_path (p_message_id p)
      /\ exists b, audio_bytes msg = Some b
                   /\ file_get (media w) path = Some b
  | None => True
  end.

(** The mime type of the request names mp3. *)
Definition mp3_mime (env : Env) (msg : MessageReq.t) : Prop :=
  exists m, MessageReq.mime msg = Some m /\ m <> []
            /\ occurs (u "mp3") (lower env m).

(** Whether the CRM endpoint serves the request the pipeline posts. *)
Definition served (t : transport) : bool :=
  match t with
  | Delivered => true
  | Unreachable _ => false
  | TimedOut b => b
  end.

(** Where the dispatch leaves the world it starts in. *)
Definition after_dispatch (env : Env) (sid : pystr) (c : Committed)
    (w : World) : World :=
  if served (crm_transport env)
  then snd (mcp_handler env (crm_payload sid c) w)
  else w.

(** A text without code points above 127. *)
Definition is_ascii (s : pystr) : bool := forallb (fun c => (c <? 128)%N) s.

(** A case table that lower-cases ASCII text as the interpreter does:
    A..Z to a..z, every other code point below 128 to itself. *)
Definition lowers_ascii (lower : pystr -> pystr) : Prop :=
  forall s, is_ascii s = true -> lower s = ascii_lower s.

(** The primary key of a row. *)
Definition row_id (r : Row) : pystr :=
  match r with
  | RSession x => Session.id x
  | RMessage x => Message.id x
  | RModelCall x => ModelCall.id x
  | RCRMRecord x => CRMRecord.id x
  | RToolCall x => ToolCall.id x
  end.

(** All the primary keys stored, table by table. *)
Definition ids_of (st : Store) : list pystr :=
  List.map Session.id (sessions st)
  ++ List.map Message.id (messages st)
  ++ List.map ModelCall.id (model_calls st)
  ++ List.map CRMRecord.id (crm_records st)
  ++ List.map ToolCall.id (tool_calls st).

(** An identifier that was drawn from the environment before the world
    [w]. *)
Definition drawn (env : Env) (w : World) (x : pystr) : Prop :=
  exists i, i < entropy_ctr w /\ x = uuid4 env i.

(** The stored keys are pairwise different, across the tables, and
    each of them was drawn from the environment. *)
Definition keyed (env : Env) (w : World) : Prop :=
  NoDup (ids_of (db w)) /\ Forall (drawn env w) (ids_of (db w)).

(** The identifier source never repeats itself. *)
Definition injective_ids (env : Env) : Prop :=
  forall i j, uuid4 env i = uuid4 env j -> i = j.

(** A computation never takes back a draw. *)
Definition mono {A : Type} (c : M A) : Prop :=
  forall w, entropy_ctr w <= entropy_ctr (snd (c w)).

End Further.
Import Further.

(* ================================================================== *)
(** * Properties *)
(* ================================================================== *)

(** ** Strings *)

Module PyStrFacts.

Lemma str_eqb_eq a b : str_eqb a b = true <-> a = b.
Proof.
  unfold str_eqb. destruct (list_eq_dec N.eq_dec a b); split; congruence.
Qed.

Lemma str_eqb_refl a : str_eqb a a = true.
Proof. now apply str_eqb_eq. Qed.

Lemma str_eqb_neq a b : str_eqb a b = false <-> a <> b.
Proof.
  unfold str_eqb. destruct (list_eq_dec N.eq_dec a b); split; congruence.
Qed.

Lemma str_eqb_sym a b : str_eqb a b = str_eqb b a.
Proof.
  apply eq_true_iff_eq. rewrite !str_eqb_eq. split; congruence.
Qed.

Lemma str_eqb_nil s : str_eqb s [] = negb (truthy_str s).
Proof. now destruct s. Qed.

Lemma lstrip_blank s : blank s = true -> lstrip s = [].
Proof.
  induction s as [|c t IH]; simpl; [reflexivity|].
  intros H. apply andb_true_iff in H as [Hc Ht]. rewrite Hc. now apply IH.
Qed.

Lemma lstrip_head s :
  match lstrip s with
  | [] => blank s = true
  | c :: _ => isspace c = false
  end.
Proof.
  induction s as [|c t IH]; simpl; [reflexivity|].
  destruct (isspace c) eqn:Hc; simpl; [exact IH | exact Hc].
Qed.

Lemma lstrip_nil_blank s : lstrip s = [] -> blank s = true.
Proof. intros H. pose proof (lstrip_head s) as Hh. now rewrite H in Hh. Qed.

Lemma blank_rev s : blank (rev s) = blank s.
Proof.
  unfold blank. induction s as [|c t IH]; simpl; [reflexivity|].
  rewrite forallb_app, IH. simpl. rewrite andb_true_r. apply andb_comm.
Qed.

Lemma lstrip_suffix s : exists ws, s = ws ++ lstrip s /\ blank ws = true.
Proof.
  induction s as [|c t [ws [E B]]]; simpl.
  - now exists [].
  - destruct (isspace c) eqn:Hc.
    + exists (c :: ws). simpl. rewrite Hc, B. split; [now f_equal|reflexivity].
    + now exists [].
Qed.

Lemma strip_nil_iff s : strip s = [] <-> blank s = true.
Proof.
  unfold strip, rstrip. split.
  - intros H.
    assert (Hr : lstrip (rev (lstrip s)) = []).
    { rewrite <- (rev_involutive (lstrip (rev (lstrip s)))), H. reflexivity. }
    apply lstrip_nil_blank in Hr. rewrite blank_rev in Hr.
    pose proof (lstrip_head s) as Hh.
    destruct (lstrip s) as [|c t] eqn:E; [exact Hh|].
    simpl in Hr. rewrite Hh in Hr. discriminate.
  - intros H. now rewrite (lstrip_blank s H).
Qed.

Lemma startswith_spec p s : startswith p s = true <-> exists b, s = p ++ b.
Proof.
  revert s. induction p as [|a p IH]; intros s; simpl.
  - split; [intros _; now exists s | reflexivity].
  - destruct s as [|c s].
    + split; [discriminate | intros [b Hb]; discriminate].
    + rewrite andb_true_iff, N.eqb_eq, IH. split.
      * intros [-> [b ->]]. now exists b.
      * intros [b Hb]. injection Hb as -> ->. split; [reflexivity | now exists b].
Qed.

Lemma contains_spec p s : contains p s = true <-> occurs p s.
Proof.
  unfold occurs. induction s as [|c s IH]; cbn [contains].
  - rewrite startswith_spec. split.
    + intros [b Hb]. now exists [], b.
    + intros [a [b Hab]]. destruct a; [now exists b | discriminate].
  - rewrite orb_true_iff, IH, startswith_spec. split.
    + intros [[b Hb] | [a [b Hab]]].
      * now exists [], b.
      * exists (c :: a), b. simpl. now f_equal.
    + intros [a [b Hab]]. destruct a as [|x a].
      * left. now exists b.
      * right. injection Hab as -> ->. now exists a, b.
Qed.

Lemma occurs_rev p s : occurs (rev p) (rev s) <-> occurs p s.
Proof.
  assert (H : forall p s, occurs p s -> occurs (rev p) (rev s)).
  { intros p0 s0 [a [b ->]]. exists (rev b), (rev a).
    now rewrite !rev_app_distr, app_assoc. }
  split; [|apply H].
  intros Hr. apply H in Hr. now rewrite !rev_involutive in Hr.
Qed.

Lemma contains_rev p s : contains (rev p) (rev s) = contains p s.
Proof.
  apply eq_true_iff_eq. rewrite !contains_spec. apply occurs_rev.
Qed.

(** A key that begins with a character that is no whitespace is found
    in the left-stripped text exactly when it is found in the text. *)
Lemma contains_lstrip h p s :
  isspace h = false -> contains (h :: p) (lstrip s) = contains (h :: p) s.
Proof.
  intros Hh. induction s as [|c t IH]; [reflexivity|].
  simpl lstrip. destruct (isspace c) eqn:Hc; [|reflexivity].
  rewrite IH. simpl.
  destruct (N.eqb_spec h c) as [->|_]; [congruence | reflexivity].
Qed.

Lemma contains_strip p s : solid p = true -> contains p (strip s) = contains p s.
Proof.
  unfold solid, strip, rstrip. intros Hp.
  destruct p as [|h p']; [discriminate|].
  destruct (rev (h :: p')) as [|l q] eqn:Er; [discriminate|].
  apply andb_true_iff in Hp as [Hh Hl].
  apply negb_true_iff in Hh, Hl.
  rewrite <- (contains_lstrip h p' s Hh).
  rewrite <- (contains_rev (h :: p') (rev _)), rev_involutive, Er.
  rewrite (contains_lstrip l q _ Hl).
  rewrite <- Er. apply contains_rev.
Qed.

End PyStrFacts.
Import PyStrFacts.

(** ** The responder *)

Module ResponderFacts.

Lemma keys_solid : forallb solid (REFUND_KEYS ++ BILLING_KEYS) = true.
Proof. vm_compute. reflexivity. Qed.

Lemma key_contains_strip k s :
  In k (REFUND_KEYS ++ BILLING_KEYS) -> contains k (strip s) = contains k s.
Proof.
  intros Hk. apply contains_strip.
  pose proof keys_solid as H. rewrite forallb_forall in H. now apply H.
Qed.

Lemma blank_test s :
  negb (truthy_str s) || str_eqb (strip s) [] = blank s.
Proof.
  apply eq_true_iff_eq.
  rewrite orb_true_iff, negb_true_iff, str_eqb_eq, strip_nil_iff.
  split; [|now right].
  intros [H|H]; [|exact H]. destruct s; [reflexivity | discriminate].
Qed.

Lemma replies_distinct : NoDup REPLIES.
Proof.
  assert (D : forall a b, str_eqb a b = false -> a <> b)
    by (intros a b; apply str_eqb_neq).
  unfold REPLIES.
  repeat constructor; simpl; intuition;
    match goal with
    | H : ?a = ?b |- False => revert H; apply D; vm_compute; reflexivity
    end.
Qed.

(** Example runs under ASCII lower-casing. *)
Example reply_billing :
  generate_reply ascii_lower (u "Mera bill bahut zyada aaya hai") = BILLING_REPLY.
Proof. vm_compute. reflexivity. Qed.

Example reply_refund_beats_bill :
  generate_reply ascii_lower (u "Please REFUND my last Bill") = REFUND_REPLY.
Proof. vm_compute. reflexivity. Qed.

Example reply_blank :
  generate_reply ascii_lower (u "   ") = ASK_REPEAT.
Proof. vm_compute. reflexivity. Qed.

Example reply_fallback :
  generate_reply ascii_lower (u "hello there") = FALLBACK_REPLY.
Proof. vm_compute. reflexivity. Qed.

(** C2.  Whatever the case table, [generate_reply] answers every text
    by the ordered first-match rules (blank text: ask to repeat; else
    "refund" or "money back" in the lower-cased text: the refund reply;
    else one of the seven billing keys: the billing reply; else the
    fallback), the answer is one of the four fixed replies, these are
    pairwise different, and a text with both "refund" and "bill" gets
    the refund reply. *)
Theorem generate_reply_ordered_rules (lower : pystr -> pystr) (text : pystr) :
  generate_reply lower text = reply_rules lower text
  /\ In (generate_reply lower text) REPLIES
  /\ NoDup REPLIES
  /\ (blank text = false /\ contains (u "refund") (lower text) = true
      /\ contains (u "bill") (lower text) = true ->
      generate_reply lower text = REFUND_REPLY).
Proof.
  assert (E : generate_reply lower text = reply_rules lower text).
  { unfold generate_reply, reply_rules. rewrite blank_test.
    destruct (blank text); [reflexivity|].
    cbv zeta. cbn [existsb REFUND_KEYS BILLING_KEYS].
    rewrite !key_contains_strip by (simpl; tauto).
    now rewrite !orb_false_r, !orb_assoc. }
  split; [exact E|]. split; [|split; [exact replies_distinct|]].
  - rewrite E. unfold reply_rules, REPLIES.
    repeat match goal with |- context [if ?b then _ else _] => destruct b end;
      simpl; tauto.
  - intros [Hb [Hr _]]. rewrite E. unfold reply_rules.
    rewrite Hb. cbn [existsb REFUND_KEYS]. now rewrite Hr.
Qed.

(** A witness: a text that names both a refund and a bill, in capitals. *)
Lemma generate_reply_ordered_rules_witness :
  blank (u "Please REFUND my last Bill") = false
  /\ contains (u "refund") (ascii_lower (u "Please REFUND my last Bill")) = true
  /\ contains (u "bill") (ascii_lower (u "Please REFUND my last Bill")) = true
  /\ generate_reply ascii_lower (u "Please REFUND my last Bill") = REFUND_REPLY.
Proof.
  assert (H : blank (u "Please REFUND my last Bill") = false
              /\ contains (u "refund")
                   (ascii_lower (u "Please REFUND my last Bill")) = true
              /\ contains (u "bill")
                   (ascii_lower (u "Please REFUND my last Bill")) = true)
    by (vm_compute; repeat split).
  destruct H as [Hb [Hr Hl]].
  split; [exact Hb|]. split; [exact Hr|]. split; [exact Hl|].
  exact (proj2 (proj2 (proj2
           (generate_reply_ordered_rules ascii_lower
              (u "Please REFUND my last Bill"))))
           (conj Hb (conj Hr Hl))).
Defined.

End ResponderFacts.

(** ** Running the monad *)

Module MonadFacts.

Lemma bind_ok {A B} {c : M A} {k : A -> M B} {w a w'} :
  c w = (Ok a, w') -> bind c k w = k a w'.
Proof. unfold bind. now intros ->. Qed.

Lemma bind_raise {A B} {c : M A} {k : A -> M B} {w e w'} :
  c w = (Raise e, w') -> bind c k w = (Raise e, w').
Proof. unfold bind. now intros ->. Qed.

Lemma try_ok {A} {c : M A} {h w a w'} :
  c w = (Ok a, w') -> try_except c h w = (Ok a, w').
Proof. unfold try_except. now intros ->. Qed.

Lemma try_raise {A} {c : M A} {h w e w'} :
  c w = (Raise e, w') -> try_except c h w = h e w'.
Proof. unfold try_except. now intros ->. Qed.

Lemma session_run {A} {c : M A} {w r w'} :
  c (set_uow w []) = (r, w') -> with_session c w = (r, set_uow w' (uow w)).
Proof. unfold with_session. now intros ->. Qed.

Lemma quiet_refl w : quiet w w.
Proof. now repeat split. Qed.

Lemma quiet_trans {w1 w2 w3} : quiet w1 w2 -> quiet w2 w3 -> quiet w1 w3.
Proof.
  intros [A1 [A2 A3]] [B1 [B2 B3]]. repeat split; congruence.
Qed.

Lemma flush_app st a b : flush st (a ++ b) = flush (flush st a) b.
Proof. unfold flush. apply fold_left_app. Qed.

End MonadFacts.
Import MonadFacts.

(** ** The CRM intake handler *)

Module ToolsFacts.

Lemma dict_get_set d k v k' :
  dict_get (dict_set d k v) k' =
  if str_eqb k k' then Some v else dict_get d k'.
Proof.
  induction d as [|[a x] d IH]; simpl.
  - destruct (str_eqb k k'); reflexivity.
  - destruct (str_eqb a k) eqn:Eak; simpl.
    + apply str_eqb_eq in Eak. subst a. destruct (str_eqb k k'); reflexivity.
    + rewrite IH. destruct (str_eqb a k') eqn:Eak'; [|reflexivity].
      apply str_eqb_eq in Eak'. subst a.
      now rewrite str_eqb_sym, Eak.
Qed.

Lemma dict_get_del d k k' :
  dict_get (dict_del d k) k' =
  if str_eqb k k' then None else dict_get d k'.
Proof.
  induction d as [|[a x] d IH]; simpl.
  - destruct (str_eqb k k'); reflexivity.
  - destruct (str_eqb a k) eqn:Eak; simpl.
    + rewrite IH. apply str_eqb_eq in Eak. subst a.
      destruct (str_eqb k k'); reflexivity.
    + rewrite IH. destruct (str_eqb a k') eqn:Eak'; [|reflexivity].
      apply str_eqb_eq in Eak'. subst a.
      now rewrite str_eqb_sym, Eak.
Qed.

(** A falsy value under a key reads as the key being absent. *)
Lemma truthy_get_falsy d k v k' :
  truthy v = false ->
  truthy_get (dict_set d k v) k' = truthy_get (dict_del d k) k'.
Proof.
  intros Hv. unfold truthy_get. rewrite dict_get_set, dict_get_del.
  destruct (str_eqb k k'); [exact Hv | reflexivity].
Qed.

Lemma missing_fields_spec rec f :
  In f (missing_fields rec) <-> In f REQUIRED_FIELDS /\ truthy_get rec f = false.
Proof.
  unfold missing_fields. rewrite filter_In, negb_true_iff. reflexivity.
Qed.

Lemma missing_fields_falsy rec f v :
  truthy v = false ->
  missing_fields (dict_set rec f v) = missing_fields (dict_del rec f).
Proof.
  intros Hv. unfold missing_fields. apply filter_ext.
  intros k. now rewrite (truthy_get_falsy rec f v k Hv).
Qed.

Lemma required_fields_nodup : NoDup REQUIRED_FIELDS.
Proof.
  assert (D : forall a b, str_eqb a b = false -> a <> b)
    by (intros a b; apply str_eqb_neq).
  unfold REQUIRED_FIELDS.
  repeat constructor; simpl; intuition;
    match goal with
    | H : ?a = ?b |- False => revert H; apply D; vm_compute; reflexivity
    end.
Qed.

Lemma missing_fields_nodup rec : NoDup (missing_fields rec).
Proof. apply NoDup_filter, required_fields_nodup. Qed.

(** The validation step on its own: the handler stops before it opens
    the database block. *)
Lemma mcp_no_scenario env payload w :
  opt_truthy (MCPPayload.scenario payload) = false ->
  mcp_handler env payload w
  = (Raise (HTTPException 400 (u "scenario is required")), w).
Proof. intros H. unfold mcp_handler. now rewrite H. Qed.

Lemma mcp_missing env payload w :
  MCPPayload.scenario payload = Some (u "billing_query") ->
  missing_fields (dict_or_empty (MCPPayload.crm_record payload)) <> [] ->
  mcp_handler env payload w
  = (Raise (HTTPException 400
              (u "Missing crm_record fields: "
               ++ repr_list (missing_fields
                    (dict_or_empty (MCPPayload.crm_record payload))))), w).
Proof.
  intros Hs Hm. unfold mcp_handler. rewrite Hs.
  cbn [opt_truthy opt_str_eqb negb]. change (truthy_str (u "billing_query")) with true.
  rewrite str_eqb_refl. cbn [negb].
  destruct (missing_fields _) eqn:E; [congruence|]. reflexivity.
Qed.

Example missing_phone_detail env w :
  mcp_handler env (billing_payload (Some record_without_phone)) w
  = (Raise (HTTPException 400 (u "Missing crm_record fields: ['phone']")), w).
Proof.
  rewrite mcp_missing; [reflexivity | reflexivity | discriminate].
Qed.

(** C5.  A call without a scenario is refused with status 400; a
    billing query whose record lacks a required field is refused with
    status 400 and a detail that lists the missing fields, which are
    exactly the required fields the record has no (truthy) value for,
    each once, every absent key among them, and exactly the absent
    keys when the values that are present are truthy; a record that
    lacks only "phone" is answered with ['phone']; and in both cases
    the world, so every table, is left as it was. *)
Theorem mcp_validation_refusals env (payload : MCPPayload.t) (w : World) :
  let rec := dict_or_empty (MCPPayload.crm_record payload) in
  (MCPPayload.scenario payload = None ->
     mcp_handler env payload w
     = (Raise (HTTPException 400 (u "scenario is required")), w))
  /\ (MCPPayload.scenario payload = Some (u "billing_query") ->
      (exists f, In f REQUIRED_FIELDS /\ dict_get rec f = None) ->
      mcp_handler env payload w
      = (Raise (HTTPException 400
                  (u "Missing crm_record fields: "
                   ++ repr_list (missing_fields rec))), w))
  /\ (forall f, In f (missing_fields rec)
                <-> In f REQUIRED_FIELDS /\ truthy_get rec f = false)
  /\ (forall f, In f REQUIRED_FIELDS -> dict_get rec f = None ->
                In f (missing_fields rec))
  /\ ((forall f v, In f REQUIRED_FIELDS -> dict_get rec f = Some v ->
                   truthy v = true) ->
      forall f, In f (missing_fields rec)
                <-> In f REQUIRED_FIELDS /\ dict_get rec f = None)
  /\ NoDup (missing_fields rec)
  /\ mcp_handler env (billing_payload (Some record_without_phone)) w
     = (Raise (HTTPException 400 (u "Missing crm_record fields: ['phone']")),
        w).
Proof.
  intros rec. split; [|split; [|split; [|split; [|split; [|split]]]]].
  - intros Hs. apply mcp_no_scenario. now rewrite Hs.
  - intros Hs [f [Hf Hn]]. apply mcp_missing; [exact Hs|].
    fold rec. intros E.
    assert (Hin : In f (missing_fields rec)).
    { apply missing_fields_spec. split; [exact Hf|].
      unfold truthy_get. now rewrite Hn. }
    rewrite E in Hin. exact Hin.
  - intros f. apply missing_fields_spec.
  - intros f Hf Hn. apply missing_fields_spec. split; [exact Hf|].
    unfold truthy_get. now rewrite Hn.
  - intros Hall f. rewrite missing_fields_spec. unfold truthy_get.
    split; intros [Hf Hg]; (split; [exact Hf|]).
    + destruct (dict_get rec f) as [v|] eqn:Eg; [|reflexivity].
      rewrite (Hall f v Hf Eg) in Hg. discriminate.
    + now rewrite Hg.
  - apply missing_fields_nodup.
  - apply missing_phone_detail.
Qed.

(** A witness: a call without a scenario, and the record without
    "phone". *)
Lemma mcp_validation_refusals_witness :
  mcp_handler demo_env no_scenario_payload demo_world
  = (Raise (HTTPException 400 (u "scenario is required")), demo_world)
  /\ mcp_handler demo_env (billing_payload (Some record_without_phone))
       demo_world
     = (Raise (HTTPException 400 (u "Missing crm_record fields: ['phone']")),
        demo_world).
Proof.
  split.
  - exact (proj1 (mcp_validation_refusals demo_env no_scenario_payload
                    demo_world) eq_refl).
  - assert (Hphone : exists f, In f REQUIRED_FIELDS
                               /\ dict_get record_without_phone f = None).
    { exists (u "phone"). split; [simpl; tauto | reflexivity]. }
    exact (proj1 (proj2
             (mcp_validation_refusals demo_env
                (billing_payload (Some record_without_phone)) demo_world))
             eq_refl Hphone).
Defined.

Lemma mcp_valid_run env {w payload s} :
  valid_call w payload s ->
  let crm := crm_row_of env w payload s in
  let tool := tool_row_of env w payload in
  exists w',
    uow w' = uow w /\ media w' = media w
    /\ match commit_fault env (commit_ctr w) with
       | None =>
           mcp_handler env payload w
           = (Ok {| ok := true; status := Some (u "accepted");
                    crm_record_id := CRMRecord.id crm;
                    tool_call_id := ToolCall.id tool |}, w')
           /\ db w' = flush (db w) [RCRMRecord crm; RToolCall tool]
       | Some e =>
           mcp_handler env payload w
           = (Raise (HTTPException 500 (u "DB error: " ++ e)), w')
           /\ match commit_fault env (S (commit_ctr w)) with
              | None =>
                  db w' = flush (db w)
                            [RToolCall (ToolCall.set_status tool (u "failed"))]
              | Some _ => db w' = db w
              end
       end.
Proof.
  intros [Hscen [Hmiss Hsel]] crm tool.
  assert (E : mcp_handler env payload w
              = with_session
                  (r <- db_select sessions
                          (fun x => str_eqb (Session.id x)
                                      (MCPPayload.session_id payload)) ;;
                   session_row <- one_or_none r ;;
                   match session_row with
                   | None => raise (HTTPException 404 (u "session not found"))
                   | Some session_row =>
                       crm_id <- gen_uuid env ;;
                       crm_created_at <- now_iso env ;;
                       tool_id <- gen_uuid env ;;
                       tool_created_at <- now_iso env ;;
                       let crm_row :=
                         {| CRMRecord.id := crm_id;
                            CRMRecord.session_id :=
                              Some (MCPPayload.session_id payload);
                            CRMRecord.customer_id :=
                              Some (str_or (MCPPayload.customer_id payload)
                                      (Session.customer_id session_row));
                            CRMRecord.scenario := MCPPayload.scenario payload;
                            CRMRecord.record_json :=
                              Some (dict_or_empty
                                      (MCPPayload.crm_record payload));
                            CRMRecord.status := Some (u "pending");
                            CRMRecord.created_at := crm_created_at |} in
                       let tool_row :=
                         {| ToolCall.id := tool_id;
                            ToolCall.session_id :=
                              Some (MCPPayload.session_id payload);
                            ToolCall.payload_json :=
                              Some (MCPPayload.to_dict payload);
                            ToolCall.status := Some (u "accepted");
                            ToolCall.created_at := tool_created_at |} in
                       try_except
                         (db_add (RCRMRecord crm_row) ;;
                          db_add (RToolCall tool_row) ;;
                          db_commit env)
                         (fun e =>
                            try_except
                              (db_add (RToolCall
                                         (ToolCall.set_status tool_row
                                            (u "failed"))) ;;
                               db_commit env)
                              (fun _ => ret tt) ;;
                            raise (HTTPException 500
                                     (u "DB error: " ++ str_of_exn e))) ;;
                       ret {| ok := true;
                              status := ToolCall.status tool_row;
                              crm_record_id := CRMRecord.id crm_row;
                              tool_call_id := ToolCall.id tool_row |}
                   end) w).
  { unfold mcp_handler. rewrite Hscen. cbn [negb].
    match goal with
    | |- bind ?c _ w = _ => assert (Hv : c w = (Ok tt, w))
    end.
    { destruct (MCPPayload.scenario payload) as [sc|] eqn:Esc; [|reflexivity].
      cbn [opt_str_eqb]. destruct (str_eqb sc (u "billing_query")) eqn:Eb;
        [|reflexivity].
      apply str_eqb_eq in Eb. subst sc. cbv zeta. now rewrite Hmiss. }
    now rewrite (bind_ok Hv). }
  rewrite E. clear E.
  unfold with_session, bind, db_select, gen_uuid, now_iso, datetime_utcnow,
    try_except, db_add, db_commit, bind, ret, raise.
  cbn [db set_uow uow]. rewrite Hsel. cbn [one_or_none ret].
  cbn [db uow media entropy_ctr clock_ctr commit_ctr set_uow set_db
       tick_entropy tick_clock tick_commit app].
  destruct (commit_fault env (commit_ctr w)) as [e|] eqn:E1.
  - cbn [db uow media entropy_ctr clock_ctr commit_ctr set_uow set_db
         tick_entropy tick_clock tick_commit app].
    destruct (commit_fault env (S (commit_ctr w))) as [e2|] eqn:E2;
      eexists; (split; [|split; [|split]]);
      [ | | reflexivity | | | | reflexivity | ]; reflexivity.
  - eexists; (split; [|split; [|split]]);
      [ | | reflexivity | ]; reflexivity.
Qed.



Lemma falsy_values :
  truthy (JStr []) = false /\ truthy JNull = false
  /\ truthy (JInt 0) = false /\ truthy (JBool false) = false.
Proof. repeat split. Qed.

(** C10.  In a billing query, a required field that is present with a
    falsy value [v] (the empty string, null, 0 and false are such) is
    reported exactly as if its key were absent: the field is listed, the
    list is the one of the record without the key, and the handler
    gives the same refusal, status 400, for both records. *)
Theorem falsy_field_reported_as_missing env (w : World)
    (payload : MCPPayload.t) (rec : dict) (f : pystr) (v : json) :
  MCPPayload.scenario payload = Some (u "billing_query") ->
  In f REQUIRED_FIELDS ->
  truthy v = false ->
  In f (missing_fields (dict_set rec f v))
  /\ missing_fields (dict_set rec f v) = missing_fields (dict_del rec f)
  /\ mcp_handler env (with_record payload (Some (dict_set rec f v))) w
     = (Raise (HTTPException 400
                 (u "Missing crm_record fields: "
                  ++ repr_list (missing_fields (dict_del rec f)))), w)
  /\ mcp_handler env (with_record payload (Some (dict_set rec f v))) w
     = mcp_handler env (with_record payload (Some (dict_del rec f))) w
  /\ truthy (JStr []) = false /\ truthy JNull = false
  /\ truthy (JInt 0) = false /\ truthy (JBool false) = false.
Proof.
  intros Hs Hf Hv.
  assert (Hin : In f (missing_fields (dict_set rec f v))).
  { apply missing_fields_spec. split; [exact Hf|].
    unfold truthy_get. now rewrite dict_get_set, str_eqb_refl. }
  assert (Hin' : In f (missing_fields (dict_del rec f)))
    by now rewrite <- (missing_fields_falsy rec f v Hv).
  assert (R : forall r, In f (missing_fields r) ->
              mcp_handler env (with_record payload (Some r)) w
              = (Raise (HTTPException 400
                          (u "Missing crm_record fields: "
                           ++ repr_list (missing_fields r))), w)).
  { intros r Hr. apply mcp_missing; [exact Hs|].
    cbn [with_record MCPPayload.crm_record dict_or_empty].
    intros E. now rewrite E in Hr. }
  split; [exact Hin|]. split; [now apply missing_fields_falsy|].
  split; [|split; [|exact falsy_values]].
  - rewrite (R _ Hin). now rewrite (missing_fields_falsy rec f v Hv).
  - rewrite (R _ Hin), (R _ Hin').
    now rewrite (missing_fields_falsy rec f v Hv).
Qed.

(** A witness: "phone": "" in an otherwise complete record. *)
Lemma falsy_field_reported_as_missing_witness :
  mcp_handler demo_env
    (billing_payload (Some (dict_set full_record (u "phone") (JStr [])))) demo_world
  = (Raise (HTTPException 400 (u "Missing crm_record fields: ['phone']")),
     demo_world).
Proof.
  assert (Hs : MCPPayload.scenario (billing_payload None)
               = Some (u "billing_query")) by reflexivity.
  assert (Hf : In (u "phone") REQUIRED_FIELDS) by (simpl; tauto).
  assert (Hv : truthy (JStr []) = false) by reflexivity.
  exact (proj1 (proj2 (proj2
           (falsy_field_reported_as_missing demo_env demo_world
              (billing_payload None) full_record (u "phone") (JStr [])
              Hs Hf Hv)))).
Defined.

End ToolsFacts.

(** ** The message pipeline *)

Module SessionsFacts.

Ltac quiet_now := unfold quiet; cbn; repeat split; reflexivity.

(** *** The stages never fail by themselves *)

Lemma run_asr_total source mime w :
  exists t, run_asr source mime w = (Ok t, w)
            /\ (t = EMPTY_TRANSCRIPT \/ t = PENDING_TRANSCRIPT).
Proof.
  unfold run_asr, try_except, bind, os_path_exists, os_path_getsize, ret.
  assert (T : forall t, t = EMPTY_TRANSCRIPT \/ t = PENDING_TRANSCRIPT ->
              exists t', (Ok t, w) = (Ok t', w)
                         /\ (t' = EMPTY_TRANSCRIPT \/ t' = PENDING_TRANSCRIPT))
    by (intros t Ht; now exists t).
  destruct source as [path|data].
  - destruct (file_get (media w) path) as [c|] eqn:Ef; cbn;
      [rewrite Ef; cbn | apply T; now left].
    destruct (0 <? N.of_nat (List.length c))%N; apply T; tauto.
  - destruct (Nat.eqb (List.length data) 0); apply T; tauto.
Qed.

Lemma run_tts_total env text mid w :
  exists r w', run_tts env text (Some mid) w = (Ok r, w')
               /\ quiet w w'
               /\ entropy_ctr w' = entropy_ctr w /\ clock_ctr w' = clock_ctr w.
Proof.
  unfold run_tts, try_except, bind, write_media, ret.
  destruct (write_fault env _); do 2 eexists;
    (split; [reflexivity|]); split; try quiet_now; split; reflexivity.
Qed.

Lemma save_incoming_audio_total env msg mid w :
  exists r w', save_incoming_audio env msg mid w = (Ok r, w')
               /\ quiet w w'
               /\ entropy_ctr w' = entropy_ctr w /\ clock_ctr w' = clock_ctr w.
Proof.
  unfold save_incoming_audio, try_except, bind, base64_b64decode, write_media,
    ret, raise.
  destruct (opt_truthy (MessageReq.audio_base64 msg)).
  - destruct (b64decode _) as [b|]; [destruct (write_fault env _)|];
      do 2 eexists; (split; [reflexivity|]); split; try quiet_now;
      split; reflexivity.
  - do 2 eexists; (split; [reflexivity|]); split; try quiet_now;
      split; reflexivity.
Qed.

Lemma text_is_not_audio msg : is_text msg = true -> is_audio msg = false.
Proof.
  unfold is_text, is_audio. intros H. apply str_eqb_eq in H. rewrite H.
  vm_compute. reflexivity.
Qed.

Lemma str_or_nil t : str_or (Some t) [] = t.
Proof. now destruct t. Qed.

Lemma prepare_message_total env sid msg w :
  exists p w',
    prepare_message env sid msg w = (Ok p, w')
    /\ quiet w w'
    /\ prepared_for sid msg p.
Proof.
  unfold prepared_for, prepare_message, bind, gen_uuid, now_iso,
    datetime_utcnow, bind, ret.
  destruct (is_text msg) eqn:Et.
  - do 2 eexists. split; [reflexivity|]. split; [quiet_now|].
    cbn. repeat split; intros; congruence.
  - unfold malformed_audio, save_incoming_audio, try_except, bind,
      base64_b64decode, write_media, ret, raise.
    destruct (opt_truthy (MessageReq.audio_base64 msg));
      [destruct (b64decode _) as [b|]; [destruct (write_fault env _)|]|];
      do 2 eexists; (split; [reflexivity|]); (split; [quiet_now|]);
      cbn; repeat split; intros; congruence.
Qed.

Lemma asr_stage_ok env msg p w :
  malformed_audio msg = false ->
  exists t call w',
    asr_stage env msg p w = (Ok (t, call), w')
    /\ quiet w w'
    /\ ModelCall.model_type call = Some (u "ASR")
    /\ ModelCall.message_id call = Some (p_message_id p)
    /\ ModelCall.raw_response_snippet call = Some (take 200 t)
    /\ (t = EMPTY_TRANSCRIPT \/ t = PENDING_TRANSCRIPT).
Proof.
  intros Hm. unfold asr_stage.
  assert (Hsrc : exists src,
             (if opt_truthy (p_audio_path_or_b64 p)
              then ret (inl (str_or (p_audio_path_or_b64 p) []))
              else if opt_truthy (MessageReq.audio_base64 msg)
                   then b <- base64_b64decode
                               (str_or (MessageReq.audio_base64 msg) []) ;;
                        ret (inr b)
                   else ret (inr [])) (tick_clock w)
             = (Ok src, tick_clock w)).
  { unfold malformed_audio in Hm.
    destruct (opt_truthy (p_audio_path_or_b64 p)); [eexists; reflexivity|].
    destruct (opt_truthy (MessageReq.audio_base64 msg));
      [|eexists; reflexivity].
    unfold bind, base64_b64decode.
    destruct (b64decode _); [eexists; reflexivity | discriminate]. }
  destruct Hsrc as [src Hsrc].
  destruct (run_asr_total src (str_or (MessageReq.mime msg) (u "audio/wav"))
              (tick_clock w)) as [t [Ht Hcase]].
  unfold bind at 1. unfold datetime_utcnow at 1.
  rewrite (bind_ok Hsrc), (bind_ok Ht).
  unfold bind, gen_uuid, now_iso, datetime_utcnow, bind, ret.
  do 3 eexists. split; [reflexivity|]. split; [quiet_now|].
  cbn. repeat split. exact Hcase.
Qed.

Lemma asr_stage_crash env msg p w :
  malformed_audio msg = true ->
  opt_truthy (p_audio_path_or_b64 p) = false ->
  asr_stage env msg p w
  = (Raise (ValueError (decode_error msg)), tick_clock w).
Proof.
  unfold malformed_audio, decode_error. intros Hm Hp.
  apply andb_true_iff in Hm as [Hb Hd].
  unfold asr_stage, bind, datetime_utcnow. rewrite Hp, Hb.
  unfold base64_b64decode.
  destruct (b64decode _); [discriminate | reflexivity].
Qed.

Lemma llm_stage_total env p user_text w :
  exists call w',
    llm_stage env p user_text w
    = (Ok (generate_reply (lower env) user_text, call), w')
    /\ quiet w w'
    /\ ModelCall.model_type call = Some (u "LLM")
    /\ ModelCall.message_id call = Some (p_message_id p).
Proof.
  unfold llm_stage, bind, gen_uuid, now_iso, datetime_utcnow, bind, ret.
  do 2 eexists. split; [reflexivity|]. split; [quiet_now|]. now split.
Qed.

Lemma tts_stage_total env p reply w :
  exists path call w',
    tts_stage env p reply w = (Ok (path, call), w')
    /\ quiet w w'
    /\ ModelCall.model_type call = Some (u "TTS")
    /\ ModelCall.message_id call = Some (p_message_id p).
Proof.
  unfold tts_stage.
  destruct (run_tts_total env reply (p_message_id p) (tick_clock w))
    as [r [w1 [Hr [Hq _]]]].
  unfold bind at 1. unfold datetime_utcnow at 1. rewrite (bind_ok Hr).
  unfold bind, gen_uuid, now_iso, datetime_utcnow, bind, ret.
  do 3 eexists. split; [reflexivity|]. split; [|now split].
  destruct Hq as [Q1 [Q2 Q3]]. unfold quiet. cbn. now rewrite Q1, Q2, Q3.
Qed.

Lemma add_model_calls_run l w :
  add_model_calls l w = (Ok tt, set_uow w (uow w ++ List.map RModelCall l)).
Proof.
  revert w. induction l as [|mc l IH]; intros w; cbn [add_model_calls].
  - unfold ret. cbn. rewrite app_nil_r. now destruct w.
  - unfold bind, db_add. rewrite IH. cbn. now rewrite <- app_assoc.
Qed.

(** What one flush of a message row and its model calls does to the
    tables. *)
Lemma flush_message_and_calls st row calls :
  let st' := flush st (RMessage row :: List.map RModelCall calls) in
  sessions st' = sessions st
  /\ messages st' = messages st ++ [row]
  /\ model_calls st' = model_calls st ++ calls
  /\ crm_records st' = crm_records st
  /\ tool_calls st' = tool_calls st.
Proof.
  assert (H : forall calls st,
             let st' := flush st (List.map RModelCall calls) in
             sessions st' = sessions st
             /\ messages st' = messages st
             /\ model_calls st' = model_calls st ++ calls
             /\ crm_records st' = crm_records st
             /\ tool_calls st' = tool_calls st).
  { clear. induction calls as [|c calls IH]; intros st.
    - cbn. now rewrite app_nil_r.
    - change (flush st (List.map RModelCall (c :: calls)))
        with (flush (insert_row st (RModelCall c)) (List.map RModelCall calls)).
      destruct (IH (insert_row st (RModelCall c))) as [A [B [C [D E]]]].
      cbv zeta. rewrite A, B, C, D, E. cbn.
      now rewrite <- app_assoc. }
  change (flush st (RMessage row :: List.map RModelCall calls))
    with (flush (insert_row st (RMessage row)) (List.map RModelCall calls)).
  destruct (H calls (insert_row st (RMessage row))) as [A [B [C [D E]]]].
  cbv zeta. now rewrite A, B, C, D, E.
Qed.

Lemma run_stages_outcome env {sid} msg p {s w} :
  session_is w sid s ->
  uow w = [] ->
  is_audio msg = false \/ malformed_audio msg = false ->
  exists calls tr audio w1,
    List.map ModelCall.model_type calls = expected_types msg
    /\ Forall (fun c => ModelCall.message_id c = Some (p_message_id p)) calls
    /\ (if is_audio msg
        then tr = EMPTY_TRANSCRIPT \/ tr = PENDING_TRANSCRIPT
        else tr = p_transcript p)
    /\ db w1 = db w
    /\ run_stages_and_commit env sid msg p w
       = match commit_fault env (commit_ctr w) with
         | None =>
             (Ok (committed_of env msg p s tr audio calls),
              tick_commit
                (set_uow
                   (set_db w1
                      (flush (db w)
                         (RMessage (final_row env msg p tr audio)
                          :: List.map RModelCall calls))) []))
         | Some e => (Raise (DBAPIError e), tick_commit (set_uow w1 []))
         end.
Proof.
  intros Hs Hu Hok. unfold run_stages_and_commit.
  unfold bind at 1. unfold db_select at 1. rewrite Hs.
  unfold bind at 1. cbn [one_or_none ret].
  (* 1) ASR *)
  assert (Hasr : exists tr calls0 w0,
             (if is_audio msg
              then ' (transcript, asr_call) <- asr_stage env msg p ;;
                   ret (transcript, set_transcript (p_message_row p) transcript,
                        [] ++ [asr_call])
              else ret (p_transcript p, p_message_row p, [])) w
             = (Ok (tr, (if is_audio msg
                         then set_transcript (p_message_row p) tr
                         else p_message_row p), calls0), w0)
             /\ quiet w w0
             /\ List.map ModelCall.model_type calls0
                = (if is_audio msg then [Some (u "ASR")] else [])
             /\ Forall (fun c => ModelCall.message_id c
                                 = Some (p_message_id p)) calls0
             /\ (if is_audio msg
                 then tr = EMPTY_TRANSCRIPT \/ tr = PENDING_TRANSCRIPT
                 else tr = p_transcript p)).
  { destruct (is_audio msg) eqn:Ea.
    - destruct Hok as [Hok|Hok]; [discriminate|].
      destruct (asr_stage_ok env msg p w Hok)
        as [t [call [w0 [Hrun [Hq [Hty [Hid [_ Hcase]]]]]]]].
      exists t, [call], w0. rewrite (bind_ok Hrun). cbn.
      rewrite Hty.
      split; [reflexivity|]. split; [exact Hq|]. split; [reflexivity|].
      split; [now constructor | exact Hcase].
    - exists (p_transcript p), [], w.
      split; [reflexivity|]. split; [apply quiet_refl|].
      split; [reflexivity|]. split; [constructor | reflexivity]. }
  destruct Hasr as [tr [calls0 [w0 [Hrun0 [Hq0 [Hty0 [Hid0 Htr]]]]]]].
  rewrite (bind_ok Hrun0).
  (* 3) LLM *)
  destruct (llm_stage_total env p (user_text_of msg p tr) w0)
    as [llm [w2 [Hrun2 [Hq2 [Hty2 Hid2]]]]].
  unfold user_text_of in Hrun2. rewrite (bind_ok Hrun2).
  (* 4) TTS *)
  destruct (tts_stage_total env p
              (generate_reply (lower env) (user_text_of msg p tr)) w2)
    as [audio [tts [w3 [Hrun3 [Hq3 [Hty3 Hid3]]]]]].
  unfold user_text_of in Hrun3. rewrite (bind_ok Hrun3).
  (* 5) the single commit *)
  pose proof (quiet_trans (quiet_trans Hq0 Hq2) Hq3) as [Qdb [Quow Qc]].
  exists ((calls0 ++ [llm]) ++ [tts]), tr, audio, w3.
  split; [|split; [|split; [exact Htr|split; [exact Qdb|]]]].
  - unfold expected_types. rewrite !map_app, Hty0, <- app_assoc. cbn.
    now rewrite Hty2, Hty3.
  - apply Forall_app. split; [apply Forall_app; split|];
      [exact Hid0 | now repeat constructor | now repeat constructor].
  - unfold bind at 1. unfold db_add at 1.
    unfold bind at 1. rewrite add_model_calls_run.
    unfold bind, db_commit, ret. cbn [commit_ctr set_uow uow db].
    rewrite Qc, Quow, Hu, Qdb.
    destruct (commit_fault env (commit_ctr w)); reflexivity.
Qed.

(** *** The CRM dispatch: never an error, never a change to the
    session, message or model-call tables *)

Lemma mcp_handler_keeps env payload w :
  pipeline_tables_kept w (snd (mcp_handler env payload w)).
Proof.
  unfold mcp_handler.
  destruct (negb (opt_truthy (MCPPayload.scenario payload)));
    [now repeat split|].
  unfold bind at 1.
  match goal with
  | |- context [match ?c w with _ => _ end] =>
      assert (Hv : c w = (Ok tt, w) \/ exists e, c w = (Raise e, w))
  end.
  { destruct (opt_str_eqb _ _); [|now left]. cbv zeta.
    destruct (missing_fields _); [now left | right; eexists; reflexivity]. }
  destruct Hv as [Hv | [e Hv]]; rewrite Hv; [|now repeat split].
  unfold with_session, bind, db_select, gen_uuid, now_iso, datetime_utcnow,
    try_except, db_add, db_commit, bind, ret, raise.
  cbn [db set_uow uow].
  destruct (filter _ (sessions (db w))) as [|s [|s' l]];
    cbn [one_or_none ret raise]; [now repeat split | | now repeat split].
  cbn [db uow media entropy_ctr clock_ctr commit_ctr set_uow set_db
       tick_entropy tick_clock tick_commit app].
  destruct (commit_fault env (commit_ctr w)) as [e|].
  - cbn [db uow media entropy_ctr clock_ctr commit_ctr set_uow set_db
         tick_entropy tick_clock tick_commit app].
    destruct (commit_fault env (S (commit_ctr w))); now repeat split.
  - now repeat split.
Qed.

Lemma dispatch_crm_total env sid c w :
  exists w', dispatch_crm env sid c w = (Ok tt, w')
             /\ pipeline_tables_kept w w'.
Proof.
  unfold dispatch_crm, client_post.
  pose proof (mcp_handler_keeps env (crm_payload sid c) w) as Hk.
  assert (Hserve : exists w',
             try_except (mcp_handler env (crm_payload sid c) ;; ret tt)
               (fun _ => ret tt) w = (Ok tt, w')
             /\ pipeline_tables_kept w w').
  { unfold try_except, bind, ret.
    destruct (mcp_handler env (crm_payload sid c) w) as [[r|e] w'];
      exists w'; split; try reflexivity; exact Hk. }
  destruct Hserve as [w' [Hserve Hk']].
  destruct (crm_transport env) as [|m|[|]].
  - exists w'. rewrite (try_ok Hserve). now split.
  - exists w. split; [reflexivity | now repeat split].
  - exists w'. unfold try_except at 1. rewrite (bind_ok Hserve). now split.
  - exists w. split; [reflexivity | now repeat split].
Qed.

(** *** post_message against its first five steps *)

Lemma through_commit_ignores_transport env t sid msg :
  post_message_through_commit (with_transport env t) sid msg
  = post_message_through_commit env sid msg.
Proof. reflexivity. Qed.

(** The full handler ends as its first five steps do: with their error,
    in their world, when they fail; with the summary of their locals
    when they succeed, whatever the dispatch then does. *)
Lemma post_message_after_commit env sid msg w :
  match post_message_through_commit env sid msg w with
  | (Ok c, w1) =>
      exists w2, post_message env sid msg w = (Ok (summary sid c), w2)
                 /\ pipeline_tables_kept w1 w2
  | (Raise e, w1) => post_message env sid msg w = (Raise e, w1)
  end.
Proof.
  unfold post_message_through_commit, post_message.
  destruct (negb (is_text msg || is_audio msg)); [reflexivity|].
  destruct (prepare_message env sid msg w) as [[p|e] wp] eqn:Hp;
    [rewrite !(bind_ok Hp) | now rewrite !(bind_raise Hp)].
  destruct (run_stages_and_commit env sid msg p (set_uow wp []))
    as [[c|e] w1] eqn:Hr.
  - destruct (dispatch_crm_total env sid c w1) as [wd [Hd Hk]].
    rewrite (session_run Hr).
    assert (Hs : (c <- run_stages_and_commit env sid msg p ;;
                  dispatch_crm env sid c ;; ret c) (set_uow wp [])
                 = (Ok c, wd))
      by (rewrite (bind_ok Hr), (bind_ok Hd); reflexivity).
    rewrite (bind_ok (session_run Hs)).
    eexists. split; [reflexivity|].
    destruct Hk as [K1 [K2 [K3 K4]]]. now repeat split.
  - rewrite (session_run Hr).
    assert (Hs : (c <- run_stages_and_commit env sid msg p ;;
                  dispatch_crm env sid c ;; ret c) (set_uow wp [])
                 = (Raise e, w1))
      by (rewrite (bind_raise Hr); reflexivity).
    now rewrite (bind_raise (session_run Hs)).
Qed.

(** The first five steps of a post that reaches the ASR stage with a
    usable input: the outcome is the one of the commit. *)
Lemma through_commit_outcome env {sid msg w s} :
  is_text msg || is_audio msg = true ->
  session_is w sid s ->
  is_audio msg = false \/ malformed_audio msg = false ->
  exists p calls tr audio w1,
    prepared_for sid msg p
    /\ List.map ModelCall.model_type calls = expected_types msg
    /\ Forall (fun c => ModelCall.message_id c = Some (p_message_id p)) calls
    /\ (if is_audio msg
        then tr = EMPTY_TRANSCRIPT \/ tr = PENDING_TRANSCRIPT
        else tr = p_transcript p)
    /\ uow w1 = uow w
    /\ match commit_fault env (commit_ctr w) with
       | None =>
           post_message_through_commit env sid msg w
           = (Ok (committed_of env msg p s tr audio calls), w1)
           /\ db w1 = flush (db w)
                        (RMessage (final_row env msg p tr audio)
                         :: List.map RModelCall calls)
       | Some e =>
           post_message_through_commit env sid msg w
           = (Raise (DBAPIError e), w1)
           /\ db w1 = db w
       end.
Proof.
  intros Hty Hs Hok. unfold post_message_through_commit.
  rewrite Hty. cbn [negb].
  destruct (prepare_message_total env sid msg w)
    as [p [wp [Hp [[Qdb [Quow Qc]] Hpf]]]].
  rewrite (bind_ok Hp).
  assert (Hs' : session_is (set_uow wp []) sid s)
    by (unfold session_is in *; cbn; now rewrite Qdb).
  destruct (run_stages_outcome env msg p Hs' eq_refl Hok)
    as [calls [tr [audio [w1 [Hc [Hid [Htr [Hdb Hrun]]]]]]]].
  cbn [set_uow commit_ctr db] in Hrun, Hdb. rewrite Qc, Qdb in Hrun.
  exists p, calls, tr, audio.
  destruct (commit_fault env (commit_ctr w)) as [e|];
    match type of Hrun with
    | _ = (_, ?W) => exists (set_uow W (uow wp))
    end;
    (split; [exact Hpf|]); (split; [exact Hc|]);
    (split; [exact Hid|]); (split; [exact Htr|]);
    rewrite (session_run Hrun); cbn; (split; [exact Quow|]);
    split; try reflexivity.
  now rewrite Hdb.
Qed.

(** *** The ways the first five steps stop early *)

Lemma run_stages_no_session env {sid} msg p {w} :
  no_session w sid ->
  run_stages_and_commit env sid msg p w
  = (Raise (HTTPException 404 (u "session not found")), w).
Proof.
  intros Hn. unfold run_stages_and_commit, bind, db_select.
  unfold no_session in Hn. now rewrite Hn.
Qed.

Lemma run_stages_ambiguous env {sid} msg p {w a b} l :
  filter (fun x => str_eqb (Session.id x) sid) (sessions (db w))
  = a :: b :: l ->
  run_stages_and_commit env sid msg p w = (Raise MultipleResultsFound, w).
Proof.
  intros Hn. unfold run_stages_and_commit, bind, db_select. now rewrite Hn.
Qed.

Lemma run_stages_crash env {sid msg p s w} :
  session_is w sid s ->
  is_audio msg = true ->
  malformed_audio msg = true ->
  opt_truthy (p_audio_path_or_b64 p) = false ->
  run_stages_and_commit env sid msg p w
  = (Raise (ValueError (decode_error msg)), tick_clock w).
Proof.
  intros Hs Ha Hm Hp. unfold run_stages_and_commit.
  unfold bind at 1. unfold db_select at 1. rewrite Hs.
  unfold bind at 1. cbn [one_or_none ret]. rewrite Ha.
  pose proof (asr_stage_crash env msg p w Hm Hp) as Hc.
  now rewrite (bind_raise (bind_raise Hc)).
Qed.

(** A post whose first five steps return has committed: the commit
    succeeded, the session exists, and the tables hold one more message
    row, the returned one, and its model calls. *)
Lemma through_commit_ok_inv env {sid msg w c w1} :
  post_message_through_commit env sid msg w = (Ok c, w1) ->
  commit_fault env (commit_ctr w) = None
  /\ session_is w sid (c_session c)
  /\ messages (db w1) = messages (db w) ++ [c_message_row c]
  /\ model_calls (db w1) = model_calls (db w) ++ c_model_calls c
  /\ List.map ModelCall.model_type (c_model_calls c) = expected_types msg
  /\ Message.id (c_message_row c) = p_message_id (c_prepared c)
  /\ Message.text (c_message_row c) = p_incoming_text (c_prepared c).
Proof.
  intros H.
  assert (Hty : is_text msg || is_audio msg = true).
  { unfold post_message_through_commit in H.
    destruct (is_text msg || is_audio msg); [reflexivity | discriminate]. }
  (* the run inside the database block *)
  destruct (prepare_message_total env sid msg w)
    as [p [wp [Hp [[Qdb _] Hpf]]]].
  assert (Hin : with_session (run_stages_and_commit env sid msg p) wp
                = (Ok c, w1)).
  { unfold post_message_through_commit in H. rewrite Hty in H.
    cbn [negb] in H. now rewrite (bind_ok Hp) in H. }
  (* the session lookup *)
  destruct (filter (fun x => str_eqb (Session.id x) sid) (sessions (db w)))
    as [|s [|s' l]] eqn:Hsel.
  - exfalso.
    assert (Hn : no_session (set_uow wp []) sid)
      by (unfold no_session; cbn; now rewrite Qdb).
    rewrite (session_run (run_stages_no_session env msg p Hn)) in Hin.
    discriminate.
  - (* the ASR input *)
    assert (Hok : is_audio msg = false \/ malformed_audio msg = false).
    { destruct (is_audio msg) eqn:Ea; [|now left].
      destruct (malformed_audio msg) eqn:Em; [|now right].
      exfalso.
      assert (Hs : session_is (set_uow wp []) sid s)
        by (unfold session_is; cbn; now rewrite Qdb).
      assert (Et : is_text msg = false).
      { destruct (is_text msg) eqn:Et; [|reflexivity].
        now rewrite (text_is_not_audio msg Et) in Ea. }
      destruct Hpf as [_ [_ [_ [_ [_ Hpa]]]]].
      destruct (Hpa Et) as [_ Hnone]. specialize (Hnone Em).
      assert (Hpath : opt_truthy (p_audio_path_or_b64 p) = false)
        by now rewrite Hnone.
      rewrite (session_run (run_stages_crash env Hs Ea Em Hpath)) in Hin.
      discriminate. }
    clear Hin Hp Hpf Qdb p wp.
    destruct (through_commit_outcome env Hty Hsel Hok)
      as [p [calls [tr [audio [w1' [Hpf [Hc [_ [_ [_ Hrun]]]]]]]]]].
    destruct (commit_fault env (commit_ctr w)) as [e|];
      destruct Hrun as [Hrun Hdb]; rewrite Hrun in H; [discriminate|].
    injection H as <- <-.
    destruct (flush_message_and_calls (db w) (final_row env msg p tr audio)
                calls) as [_ [Fm [Fc _]]].
    rewrite <- Hdb in Fm, Fc.
    destruct Hpf as [Hid [_ [_ [Htext _]]]].
    repeat split; try assumption.
    + cbn. unfold final_row. destruct (is_audio msg); exact Hid.
    + cbn. unfold final_row. destruct (is_audio msg); exact Htext.
  - exfalso.
    assert (Hn : filter (fun x => str_eqb (Session.id x) sid)
                   (sessions (db (set_uow wp []))) = s :: s' :: l)
      by (cbn; now rewrite Qdb).
    rewrite (session_run (run_stages_ambiguous env msg p _ Hn)) in Hin.
    discriminate.
Qed.

Lemma session_restore w : set_uow (set_uow w []) (uow w) = w.
Proof. now destruct w. Qed.

(** *** Atomicity of the write of step 5

    The first five steps either return, and then the message row and
    all its model calls are in the tables, or raise, and then the
    database is as it was. *)
Lemma through_commit_atomic env sid msg w :
  match post_message_through_commit env sid msg w with
  | (Ok c, w1) =>
      messages (db w1) = messages (db w) ++ [c_message_row c]
      /\ model_calls (db w1) = model_calls (db w) ++ c_model_calls c
  | (Raise _, w1) => db w1 = db w
  end.
Proof.
  destruct (post_message_through_commit env sid msg w) as [[c|e] w1] eqn:H.
  - destruct (through_commit_ok_inv env H) as [_ [_ [Hm [Hc _]]]].
    now split.
  - unfold post_message_through_commit in H.
    destruct (is_text msg || is_audio msg) eqn:Hty; cbn [negb] in H;
      [|now injection H as _ <-].
    destruct (prepare_message_total env sid msg w)
      as [p [wp [Hp [[Qdb _] Hpf]]]].
    rewrite (bind_ok Hp) in H.
    destruct (filter (fun x => str_eqb (Session.id x) sid) (sessions (db w)))
      as [|s [|s' l]] eqn:Hsel.
    + assert (Hn : no_session (set_uow wp []) sid)
        by (unfold no_session; cbn; now rewrite Qdb).
      rewrite (session_run (run_stages_no_session env msg p Hn)) in H.
      injection H as _ <-. exact Qdb.
    + assert (Hs : session_is (set_uow wp []) sid s)
        by (unfold session_is; cbn; now rewrite Qdb).
      destruct (is_audio msg) eqn:Ea; [destruct (malformed_audio msg) eqn:Em|].
      * assert (Et : is_text msg = false).
        { destruct (is_text msg) eqn:Et; [|reflexivity].
          rewrite (text_is_not_audio msg Et) in Ea. discriminate. }
        destruct Hpf as [_ [_ [_ [_ [_ Hpa]]]]].
        destruct (Hpa Et) as [_ Hnone]. specialize (Hnone Em).
        assert (Hpath : opt_truthy (p_audio_path_or_b64 p) = false)
          by now rewrite Hnone.
        rewrite (session_run (run_stages_crash env Hs Ea Em Hpath)) in H.
        injection H as _ <-. exact Qdb.
      * destruct (run_stages_outcome env msg p Hs eq_refl (or_intror Em))
          as [calls [tr [audio [w1' [_ [_ [_ [Hdb Hrun]]]]]]]].
        destruct (commit_fault env (commit_ctr (set_uow wp []))) as [e'|];
          rewrite (session_run Hrun) in H; [|discriminate].
        injection H as _ <-. cbn. cbn in Hdb. now rewrite Hdb.
      * destruct (run_stages_outcome env msg p Hs eq_refl (or_introl Ea))
          as [calls [tr [audio [w1' [_ [_ [_ [Hdb Hrun]]]]]]]].
        destruct (commit_fault env (commit_ctr (set_uow wp []))) as [e'|];
          rewrite (session_run Hrun) in H; [|discriminate].
        injection H as _ <-. cbn. cbn in Hdb. now rewrite Hdb.
    + assert (Hn : filter (fun x => str_eqb (Session.id x) sid)
                     (sessions (db (set_uow wp []))) = s :: s' :: l)
        by (cbn; now rewrite Qdb).
      rewrite (session_run (run_stages_ambiguous env msg p _ Hn)) in H.
      injection H as _ <-. exact Qdb.
Qed.

(** *** The claims about post_message *)

(** C1.  When the first five steps of a post return - the write of
    step 5 has committed, the message row and its model calls are in
    the tables - the post returns the summary of the locals of that
    moment (ids, created_at, incoming text, and transcript, reply text
    and reply audio of the committed row) for every outcome of the CRM
    dispatch: delivered, unreachable or timed out, it is never an
    error, and the message and model-call tables are as the commit left
    them. *)
Theorem dispatch_outcome_never_alters_result env (sid : pystr)
    (msg : MessageReq.t) (w w1 : World) (c : Committed) :
  post_message_through_commit env sid msg w = (Ok c, w1) ->
  In (c_message_row c) (messages (db w1))
  /\ message_id (summary sid c) = Message.id (c_message_row c)
  /\ incoming_text (summary sid c) = Message.text (c_message_row c)
  /\ transcript (summary sid c) = Message.transcript (c_message_row c)
  /\ reply_text (summary sid c) = Message.reply_text (c_message_row c)
  /\ reply_audio_path (summary sid c)
     = Message.reply_audio_path_or_b64 (c_message_row c)
  /\ forall t : transport,
       exists w2,
         post_message (with_transport env t) sid msg w
         = (Ok (summary sid c), w2)
         /\ messages (db w2) = messages (db w1)
         /\ model_calls (db w2) = model_calls (db w1).
Proof.
  intros H.
  destruct (through_commit_ok_inv env H) as [_ [_ [Hm [_ [_ [Hid Htx]]]]]].
  split; [rewrite Hm; apply in_or_app; right; now left|].
  split; [symmetry; exact Hid|]. split; [symmetry; exact Htx|].
  do 3 (split; [reflexivity|]).
  intros t.
  pose proof (post_message_after_commit (with_transport env t) sid msg w)
    as Hpost.
  rewrite through_commit_ignores_transport, H in Hpost.
  destruct Hpost as [w2 [Hrun [_ [K2 [K3 _]]]]].
  exists w2. now repeat split.
Qed.

(** A witness: the billing complaint posted to session "s-1". *)
Lemma dispatch_outcome_never_alters_result_witness :
  exists c w1,
    post_message_through_commit demo_env (u "s-1") bill_msg demo_world
    = (Ok c, w1)
    /\ forall t : transport,
         exists w2,
           post_message (with_transport demo_env t) (u "s-1") bill_msg
             demo_world
           = (Ok (summary (u "s-1") c), w2)
           /\ messages (db w2) = messages (db w1)
           /\ model_calls (db w2) = model_calls (db w1).
Proof.
  destruct (post_message_through_commit demo_env (u "s-1") bill_msg
              demo_world) as [[c|e] w1] eqn:E.
  - exists c, w1. split; [reflexivity|].
    exact (proj2 (proj2 (proj2 (proj2 (proj2 (proj2
             (dispatch_outcome_never_alters_result demo_env (u "s-1")
                bill_msg demo_world w1 c E))))))).
  - exfalso. vm_compute in E. discriminate E.
Defined.

(** The two ways a post of a usable message to an existing session
    ends, with the rows it has built for its single commit. *)
Lemma post_message_outcome env {sid msg w s} :
  is_text msg || is_audio msg = true ->
  session_is w sid s ->
  is_audio msg = false \/ malformed_audio msg = false ->
  exists p calls tr audio w',
    prepared_for sid msg p
    /\ List.map ModelCall.model_type calls = expected_types msg
    /\ Forall (fun c => ModelCall.message_id c = Some (p_message_id p)) calls
    /\ (if is_audio msg
        then tr = EMPTY_TRANSCRIPT \/ tr = PENDING_TRANSCRIPT
        else tr = p_transcript p)
    /\ match commit_fault env (commit_ctr w) with
       | None =>
           post_message env sid msg w
           = (Ok (summary sid (committed_of env msg p s tr audio calls)), w')
           /\ messages (db w')
              = messages (db w) ++ [final_row env msg p tr audio]
           /\ model_calls (db w') = model_calls (db w) ++ calls
       | Some e =>
           post_message env sid msg w = (Raise (DBAPIError e), w')
           /\ db w' = db w
       end.
Proof.
  intros Hty Hs Hok.
  destruct (through_commit_outcome env Hty Hs Hok)
    as [p [calls [tr [audio [w1 [Hpf [Hc [Hid [Htr [_ Hrun]]]]]]]]]].
  pose proof (post_message_after_commit env sid msg w) as Hpost.
  exists p, calls, tr, audio.
  destruct (commit_fault env (commit_ctr w)) as [e|];
    destruct Hrun as [Hrun Hdb]; rewrite Hrun in Hpost.
  - exists w1. do 4 (split; [assumption|]). now split.
  - destruct Hpost as [w2 [Hpost [_ [K2 [K3 _]]]]].
    exists w2. do 4 (split; [assumption|]).
    split; [exact Hpost|]. split.
    + rewrite K2, Hdb.
      now destruct (flush_message_and_calls (db w)
                      (final_row env msg p tr audio) calls) as [_ [Fm _]].
    + rewrite K3, Hdb.
      now destruct (flush_message_and_calls (db w)
                      (final_row env msg p tr audio) calls) as [_ [_ [Fc _]]].
Qed.

(** C9.  A post of type text to an existing session builds a message
    row whose transcript and text are the supplied text ("" when none
    is supplied) and exactly two model calls for it, an LLM one and
    then a TTS one, no ASR one.  These rows go into one commit: when it
    succeeds the post returns a summary whose transcript equals its
    incoming text, the supplied text, and the tables have gained
    exactly that message row and those two model calls; when it fails
    the post ends with the storage error and an unchanged database. *)
Theorem text_post_transcript_and_calls env (sid : pystr)
    (msg : MessageReq.t) (w : World) (s : Session.t) :
  is_text msg = true ->
  session_is w sid s ->
  let text := str_or (MessageReq.text msg) [] in
  exists (row : Message.t) (llm tts : ModelCall.t) (w' : World),
    (forall t, MessageReq.text msg = Some t -> text = t)
    /\ Message.transcript row = Some text
    /\ Message.text row = Some text
    /\ Message.session_id row = sid
    /\ Message.reply_text row = Some (generate_reply (lower env) text)
    /\ ModelCall.model_type llm = Some (u "LLM")
    /\ ModelCall.model_type tts = Some (u "TTS")
    /\ ModelCall.message_id llm = Some (Message.id row)
    /\ ModelCall.message_id tts = Some (Message.id row)
    /\ match commit_fault env (commit_ctr w) with
       | None =>
           exists r : MessageSummary,
             post_message env sid msg w = (Ok r, w')
             /\ transcript r = Some text
             /\ incoming_text r = Some text
             /\ transcript r = incoming_text r
             /\ reply_text r = Some (generate_reply (lower env) text)
             /\ message_id r = Message.id row
             /\ messages (db w') = messages (db w) ++ [row]
             /\ model_calls (db w') = model_calls (db w) ++ [llm; tts]
       | Some e =>
           post_message env sid msg w = (Raise (DBAPIError e), w')
           /\ db w' = db w
       end.
Proof.
  intros Ht Hs text.
  pose proof (text_is_not_audio msg Ht) as Ha.
  assert (Hty : is_text msg || is_audio msg = true) by now rewrite Ht.
  destruct (post_message_outcome env Hty Hs (or_introl Ha))
    as [p [calls [tr [audio [w' [Hpf [Hc [Hid [Htr Hrun]]]]]]]]].
  unfold expected_types in Hc. rewrite Ha in Hc, Htr. cbn in Hc.
  destruct calls as [|llm [|tts [|x calls]]]; try discriminate.
  injection Hc as Hllm Htts.
  apply Forall_cons_iff in Hid as [Hid1 Hid2].
  apply Forall_cons_iff in Hid2 as [Hid2 _].
  destruct Hpf as [Hrid [Hsid [Htrs [Htext [Hpt _]]]]].
  destruct (Hpt Ht) as [Hinc Hptr]. subst tr.
  assert (Hut : user_text_of msg p (p_transcript p) = text)
    by (unfold user_text_of; now rewrite Ht, Hinc, str_or_nil).
  assert (Hrow : final_row env msg p (p_transcript p) audio
                 = set_reply (p_message_row p)
                     (generate_reply (lower env) text) audio)
    by (unfold final_row; now rewrite Ha, Hut).
  exists (final_row env msg p (p_transcript p) audio), llm, tts, w'.
  rewrite Hrow. cbn [set_reply Message.transcript Message.text
                     Message.session_id Message.reply_text Message.id].
  split; [intros t E; unfold text; rewrite E; apply str_or_nil|].
  split; [now rewrite Htrs, Hptr|]. split; [now rewrite Htext, Hinc|].
  split; [exact Hsid|]. split; [reflexivity|].
  split; [exact Hllm|]. split; [exact Htts|].
  split; [now rewrite Hrid|]. split; [now rewrite Hrid|].
  destruct (commit_fault env (commit_ctr w)) as [e|]; [exact Hrun|].
  destruct Hrun as [Hrun [Hm Hmc]].
  eexists. split; [exact Hrun|].
  cbn [summary committed_of transcript incoming_text reply_text message_id
       c_prepared c_message_row].
  rewrite Hrow in *.
  cbn [set_reply Message.transcript Message.text Message.reply_text].
  rewrite Htrs, Hptr, Hinc, Hrid.
  repeat split; try reflexivity; assumption.
Qed.

(** A witness: the billing complaint, with the reply it gets. *)
Lemma text_post_transcript_and_calls_witness :
  is_text bill_msg = true
  /\ session_is demo_world (u "s-1") demo_session
  /\ exists r w',
       post_message demo_env (u "s-1") bill_msg demo_world = (Ok r, w')
       /\ transcript r = Some (u "Mera bill bahut zyada aaya hai")
       /\ transcript r = incoming_text r
       /\ reply_text r = Some BILLING_REPLY
       /\ List.map ModelCall.model_type (model_calls (db w'))
          = [Some (u "LLM"); Some (u "TTS")].
Proof.
  assert (Ht : is_text bill_msg = true) by reflexivity.
  assert (Hs : session_is demo_world (u "s-1") demo_session) by reflexivity.
  split; [exact Ht|]. split; [exact Hs|].
  destruct (text_post_transcript_and_calls demo_env (u "s-1") bill_msg
              demo_world demo_session Ht Hs)
    as [row [llm [tts [w' [_ [_ [_ [_ [_ [Hl [Ht' [_ [_ H]]]]]]]]]]]]].
  cbn [commit_fault demo_env] in H.
  destruct H as [r [Hrun [Htr [_ [Heq [Hrep [_ [_ Hmc]]]]]]]].
  exists r, w'. split; [exact Hrun|]. split; [exact Htr|].
  split; [exact Heq|]. split; [exact Hrep|].
  rewrite Hmc. cbn. now rewrite Hl, Ht'.
Defined.

(** *** Audio posts *)

(** X15.  An audio post whose payload is absent, empty or valid
    base64, to an existing session: exactly three model calls are built
    for the message, ASR, LLM and TTS in that order, whatever the ASR
    and TTS stages return; one commit makes them visible with the
    message row. *)
Lemma audio_post_three_calls env sid msg w s :
  is_audio msg = true ->
  session_is w sid s ->
  malformed_audio msg = false ->
  exists (row : Message.t) (asr llm tts : ModelCall.t) (w' : World),
    List.map ModelCall.model_type [asr; llm; tts]
    = [Some (u "ASR"); Some (u "LLM"); Some (u "TTS")]
    /\ Forall (fun c => ModelCall.message_id c = Some (Message.id row))
         [asr; llm; tts]
    /\ (Message.transcript row = Some EMPTY_TRANSCRIPT
        \/ Message.transcript row = Some PENDING_TRANSCRIPT)
    /\ match commit_fault env (commit_ctr w) with
       | None =>
           exists r : MessageSummary,
             post_message env sid msg w = (Ok r, w')
             /\ message_id r = Message.id row
             /\ messages (db w') = messages (db w) ++ [row]
             /\ model_calls (db w') = model_calls (db w) ++ [asr; llm; tts]
       | Some e =>
           post_message env sid msg w = (Raise (DBAPIError e), w')
           /\ db w' = db w
       end.
Proof.
  intros Ha Hs Hm.
  assert (Hty : is_text msg || is_audio msg = true)
    by (rewrite Ha; apply orb_true_r).
  destruct (post_message_outcome env Hty Hs (or_intror Hm))
    as [p [calls [tr [audio [w' [Hpf [Hc [Hid [Htr Hrun]]]]]]]]].
  unfold expected_types in Hc. rewrite Ha in Hc, Htr. cbn in Hc.
  destruct calls as [|asr [|llm [|tts [|x calls]]]]; try discriminate.
  destruct Hpf as [Hrid _].
  assert (Hrow_id : Message.id (final_row env msg p tr audio) = p_message_id p)
    by (unfold final_row; rewrite Ha; exact Hrid).
  assert (Hrow_tr : Message.transcript (final_row env msg p tr audio) = Some tr)
    by (unfold final_row; now rewrite Ha).
  exists (final_row env msg p tr audio), asr, llm, tts, w'.
  split; [exact Hc|]. split; [now rewrite Hrow_id|].
  split; [rewrite Hrow_tr; destruct Htr as [-> | ->]; tauto|].
  destruct (commit_fault env (commit_ctr w)) as [e|]; [exact Hrun|].
  destruct Hrun as [Hrun [Hmsg Hmc]].
  eexists. split; [exact Hrun|]. split; [|now split].
  cbn [summary committed_of message_id c_prepared]. now rewrite Hrow_id.
Qed.

Lemma audio_post_three_calls_witness :
  exists r w',
    post_message demo_env (u "s-1") (audio_msg None) demo_world = (Ok r, w')
    /\ List.map ModelCall.model_type (model_calls (db w'))
       = [Some (u "ASR"); Some (u "LLM"); Some (u "TTS")].
Proof.
  destruct (audio_post_three_calls demo_env (u "s-1") (audio_msg None)
              demo_world demo_session eq_refl eq_refl eq_refl)
    as [row [asr [llm [tts [w' [Hty [_ [_ Hrun]]]]]]]].
  destruct Hrun as [r [Hpost [_ [_ Hc]]]].
  exists r, w'. split; [exact Hpost|]. rewrite Hc. exact Hty.
Defined.

(** An audio post whose payload is no valid base64, to an existing
    session: the second decoding, outside any handler, ends the request
    with the raw [ValueError]; nothing is written. *)
Lemma audio_post_malformed_crash env {sid msg w s} :
  is_audio msg = true ->
  session_is w sid s ->
  malformed_audio msg = true ->
  exists w',
    post_message env sid msg w = (Raise (ValueError (decode_error msg)), w')
    /\ db w' = db w.
Proof.
  intros Ha Hs Hm.
  assert (Et : is_text msg = false).
  { destruct (is_text msg) eqn:Et; [|reflexivity].
    rewrite (text_is_not_audio msg Et) in Ha. discriminate. }
  pose proof (post_message_after_commit env sid msg w) as Hpost.
  unfold post_message_through_commit in Hpost. rewrite Et, Ha in Hpost.
  cbn [orb negb] in Hpost.
  destruct (prepare_message_total env sid msg w)
    as [p [wp [Hp [[Qdb _] Hpf]]]].
  rewrite (bind_ok Hp) in Hpost.
  destruct Hpf as [_ [_ [_ [_ [_ Hpa]]]]].
  destruct (Hpa Et) as [_ Hnone]. specialize (Hnone Hm).
  assert (Hpath : opt_truthy (p_audio_path_or_b64 p) = false)
    by now rewrite Hnone.
  assert (Hs' : session_is (set_uow wp []) sid s)
    by (unfold session_is in *; cbn; now rewrite Qdb).
  rewrite (session_run (run_stages_crash env Hs' Ha Hm Hpath)) in Hpost.
  eexists. split; [exact Hpost|]. exact Qdb.
Qed.

(** C3, at a failing input.  The audio payload "abc" is a string the
    request type admits and no valid base64.  Posted to the existing
    session "s-1" it ends the request with the raw [ValueError] of the
    undecodable payload - no structured error, and no ModelCall row,
    where the claim has three. *)
Theorem audio_post_abc_creates_no_model_call :
  is_audio (audio_msg (Some (u "abc"))) = true
  /\ session_is demo_world (u "s-1") demo_session
  /\ b64decode (u "abc") = inr (u "Incorrect padding")
  /\ exists w',
       post_message demo_env (u "s-1") (audio_msg (Some (u "abc"))) demo_world
       = (Raise (ValueError (u "Incorrect padding")), w')
       /\ model_calls (db w') = []
       /\ messages (db w') = [].
Proof.
  assert (Ha : is_audio (audio_msg (Some (u "abc"))) = true) by reflexivity.
  assert (Hs : session_is demo_world (u "s-1") demo_session) by reflexivity.
  assert (Hm : malformed_audio (audio_msg (Some (u "abc"))) = true)
    by reflexivity.
  split; [exact Ha|]. split; [exact Hs|]. split; [reflexivity|].
  destruct (audio_post_malformed_crash demo_env Ha Hs Hm) as [w' [Hrun Hdb]].
  exists w'. split; [exact Hrun|]. now rewrite Hdb.
Qed.

(** *** The write of step 5 *)

(** X16.  Every post leaves the message and model-call tables either
    as they were or with exactly one more message row and all the model
    calls built for it: no outcome shows a part of the unit. *)
Lemma post_message_atomic env sid msg w :
  let w' := snd (post_message env sid msg w) in
  (messages (db w') = messages (db w)
   /\ model_calls (db w') = model_calls (db w))
  \/ exists row calls,
       messages (db w') = messages (db w) ++ [row]
       /\ model_calls (db w') = model_calls (db w) ++ calls
       /\ List.map ModelCall.model_type calls = expected_types msg.
Proof.
  pose proof (post_message_after_commit env sid msg w) as Hpost.
  pose proof (through_commit_atomic env sid msg w) as Hat.
  destruct (post_message_through_commit env sid msg w) as [[c|e] w1] eqn:H.
  - right. destruct Hpost as [w2 [Hrun [_ [K2 [K3 _]]]]].
    destruct (through_commit_ok_inv env H) as [_ [_ [_ [_ [Hc _]]]]].
    destruct Hat as [Hm Hmc].
    exists (c_message_row c), (c_model_calls c). rewrite Hrun. cbn [snd].
    rewrite K2, K3. now repeat split.
  - left. rewrite Hpost. cbn [snd]. now rewrite Hat.
Qed.

(** C7, at a failing input.  The billing complaint posted to the
    existing session "s-1" while the database refuses every commit:
    no row becomes visible, which is the atomic half of the claim, but
    the post ends with the raw storage exception, not with the
    structured error (status and detail) that the CRM handler builds
    for the same failure. *)
Theorem failed_commit_escapes_post_message :
  session_is demo_world (u "s-1") demo_session
  /\ (exists w',
        post_message failing_db_env (u "s-1") bill_msg demo_world
        = (Raise (DBAPIError (u "connection lost")), w')
        /\ db w' = db demo_world)
  /\ is_http_exception (DBAPIError (u "connection lost")) = false
  /\ (exists w',
        mcp_handler failing_db_env (billing_payload (Some full_record))
          demo_world
        = (Raise (HTTPException 500 (u "DB error: connection lost")), w')).
Proof.
  assert (Hs : session_is demo_world (u "s-1") demo_session) by reflexivity.
  split; [exact Hs|]. split; [|split; [reflexivity|]].
  - assert (Hty : is_text bill_msg || is_audio bill_msg = true) by reflexivity.
    assert (Ha : is_audio bill_msg = false) by reflexivity.
    destruct (post_message_outcome failing_db_env Hty Hs (or_introl Ha))
      as [p [calls [tr [audio [w' [_ [_ [_ [_ Hrun]]]]]]]]].
    cbn [commit_fault failing_db_env] in Hrun. now exists w'.
  - eexists. vm_compute. reflexivity.
Qed.

(** *** Posts to a session that does not exist *)

(** C4 as first stated fails here: a request of an unknown type to a
    session that does not exist is refused with status 400 for its
    type, not with 404. *)
Lemma unknown_type_is_checked_before_the_session :
  no_session demo_world (u "no-such-session")
  /\ post_message demo_env (u "no-such-session")
       {| MessageReq.type := u "video"; MessageReq.text := None;
          MessageReq.audio_base64 := None; MessageReq.mime := None |}
       demo_world
     = (Raise (HTTPException 400 (u "type must be 'text' or 'audio'")),
        demo_world).
Proof. split; reflexivity. Qed.

(** C4, as amended.  A post of type text or audio to a session id
    that no session row has ends with status 404, "session not found",
    in the world the preparation of the message left: no stage has run
    (no clock reading, identifier or file beyond the preparation), no
    row is pending and every table is as it was.  A post of any other
    type ends with status 400 in an unchanged world. *)
Theorem post_to_missing_session env (sid : pystr) (msg : MessageReq.t)
    (w : World) :
  no_session w sid ->
  (is_text msg || is_audio msg = true ->
     post_message env sid msg w
     = (Raise (HTTPException 404 (u "session not found")),
        snd (prepare_message env sid msg w)))
  /\ (is_text msg || is_audio msg = false ->
      post_message env sid msg w = (Raise BAD_TYPE, w))
  /\ db (snd (post_message env sid msg w)) = db w
  /\ uow (snd (post_message env sid msg w)) = uow w
  /\ commit_ctr (snd (post_message env sid msg w)) = commit_ctr w.
Proof.
  intros Hn.
  destruct (prepare_message_total env sid msg w)
    as [p [wp [Hp [[Qdb [Quow Qc]] _]]]].
  assert (Hrun : is_text msg || is_audio msg = true ->
                 post_message env sid msg w
                 = (Raise (HTTPException 404 (u "session not found")), wp)).
  { intros Hty.
    pose proof (post_message_after_commit env sid msg w) as Hpost.
    unfold post_message_through_commit in Hpost. rewrite Hty in Hpost.
    cbn [negb] in Hpost. rewrite (bind_ok Hp) in Hpost.
    assert (Hn' : no_session (set_uow wp []) sid)
      by (unfold no_session in *; cbn; now rewrite Qdb).
    rewrite (session_run (run_stages_no_session env msg p Hn')) in Hpost.
    cbn [set_uow uow] in Hpost. now rewrite session_restore in Hpost. }
  assert (Hbad : is_text msg || is_audio msg = false ->
                 post_message env sid msg w = (Raise BAD_TYPE, w)).
  { intros Hty. unfold post_message. now rewrite Hty. }
  split; [intros Hty; rewrite (Hrun Hty), Hp; reflexivity|].
  split; [exact Hbad|].
  destruct (is_text msg || is_audio msg) eqn:Hty.
  - rewrite (Hrun eq_refl). cbn [snd]. now repeat split.
  - rewrite (Hbad eq_refl). cbn [snd]. now repeat split.
Qed.

(** A witness: an audio post with a valid payload to a session that
    does not exist; the payload file is the only trace. *)
Lemma post_to_missing_session_witness :
  no_session demo_world (u "no-such-session")
  /\ fst (post_message demo_env (u "no-such-session")
            (audio_msg (Some (u "aGVsbG8="))) demo_world)
     = Raise (HTTPException 404 (u "session not found"))
  /\ db (snd (post_message demo_env (u "no-such-session")
                (audio_msg (Some (u "aGVsbG8="))) demo_world))
     = db demo_world.
Proof.
  assert (Hn : no_session demo_world (u "no-such-session")) by reflexivity.
  split; [exact Hn|].
  destruct (post_to_missing_session demo_env (u "no-such-session")
              (audio_msg (Some (u "aGVsbG8="))) demo_world Hn)
    as [Hrun [_ [Hdb _]]].
  split; [|exact Hdb].
  rewrite (Hrun eq_refl). reflexivity.
Defined.

End SessionsFacts.

(** ** The conversation read-back *)

Module ConversationFacts.

Lemma str_leb_refl a : str_leb a a = true.
Proof.
  induction a as [|x a IH]; [reflexivity|].
  cbn. now rewrite N.ltb_irrefl.
Qed.

Lemma str_leb_total a b : str_leb a b = true \/ str_leb b a = true.
Proof.
  revert b. induction a as [|x a IH]; intros [|y b]; cbn; auto.
  destruct (N.ltb_spec x y), (N.ltb_spec y x); auto; lia.
Qed.

Lemma str_leb_trans a b c :
  str_leb a b = true -> str_leb b c = true -> str_leb a c = true.
Proof.
  revert b c. induction a as [|x a IH]; intros [|y b] [|z c]; cbn; auto;
    try discriminate.
  destruct (N.ltb_spec x y), (N.ltb_spec y x), (N.ltb_spec y z),
    (N.ltb_spec z y), (N.ltb_spec x z), (N.ltb_spec z x);
    try discriminate; try lia; auto.
  apply IH.
Qed.

Section Ordering.
Context {A : Type} (key : A -> pystr).

Lemma insert_by_perm x l : Permutation (insert_by key x l) (x :: l).
Proof.
  induction l as [|y l IH]; cbn; [reflexivity|].
  destruct (str_leb (key x) (key y)); [reflexivity|].
  rewrite IH. apply perm_swap.
Qed.

Lemma order_by_perm l : Permutation (order_by key l) l.
Proof.
  induction l as [|x l IH]; cbn; [constructor|].
  rewrite insert_by_perm. now constructor.
Qed.

Lemma insert_by_ascending x l :
  ascending key l -> ascending key (insert_by key x l).
Proof.
  unfold ascending.
  induction l as [|y l IH]; intros Hl; cbn.
  - repeat constructor.
  - apply StronglySorted_inv in Hl as [Hl Hy].
    destruct (str_leb (key x) (key y)) eqn:E.
    + constructor; [now constructor|].
      constructor; [exact E|].
      rewrite Forall_forall in *. intros z Hz.
      unfold before in *. eapply str_leb_trans; [exact E | now apply Hy].
    + constructor; [now apply IH|].
      rewrite Forall_forall in *. intros z Hz.
      apply (Permutation_in _ (insert_by_perm x l)) in Hz as [<- | Hz].
      * unfold before. destruct (str_leb_total (key x) (key y)); congruence.
      * now apply Hy.
Qed.

Lemma order_by_ascending l : ascending key (order_by key l).
Proof.
  induction l as [|x l IH]; cbn; [constructor|].
  now apply insert_by_ascending.
Qed.

End Ordering.


Lemma filter_unique_key {A} (f : A -> pystr) (P : A -> bool) k l :
  NoDup (List.map f l) ->
  (forall x, P x = true -> f x = k) ->
  filter P l = [] \/ exists x, filter P l = [x].
Proof.
  intros Hnd HP. induction l as [|a l IH]; [now left|].
  cbn in Hnd. apply NoDup_cons_iff in Hnd as [Hna Hnd]. cbn.
  destruct (P a) eqn:Ea; [|now apply IH].
  right. exists a. f_equal.
  destruct (filter P l) as [|y t] eqn:Ef; [reflexivity|].
  exfalso. apply Hna.
  assert (Hy : In y (filter P l)) by (rewrite Ef; now left).
  apply filter_In in Hy as [Hy Py].
  rewrite (HP a Ea), <- (HP y Py). now apply in_map.
Qed.




End ConversationFacts.

(** ** Concrete runs *)

Module Runs.

(** The decoder on known vectors: "hello", "hi", one padded byte, text
    with a line break, and three ways of being malformed. *)
Example b64_hello : b64decode (u "aGVsbG8=") = inl (u "hello").
Proof. vm_compute. reflexivity. Qed.

Example b64_hi : b64decode (u "aGk=") = inl (u "hi").
Proof. vm_compute. reflexivity. Qed.

Example b64_a : b64decode (u "YQ==") = inl (u "a").
Proof. vm_compute. reflexivity. Qed.

Example b64_blank : b64decode (u " ") = inl [].
Proof. vm_compute. reflexivity. Qed.

Example b64_short :
  b64decode (u "a")
  = inr (u "Invalid base64-encoded string: number of data characters (1)"
         ++ u " cannot be 1 more than a multiple of 4").
Proof. vm_compute. reflexivity. Qed.

Example b64_unpadded : b64decode (u "abc") = inr (u "Incorrect padding").
Proof. vm_compute. reflexivity. Qed.

Example b64_non_ascii :
  b64decode [233%N]
  = inr (u "string argument should contain only ASCII characters").
Proof. vm_compute. reflexivity. Qed.

(** An audio post with the payload "hello": the file is written, the
    ASR stub answers with its placeholder, the reply is the fallback,
    and the three model calls are logged in order. *)
Example audio_post_run :
  match post_message demo_env (u "s-1") (audio_msg (Some (u "aGVsbG8=")))
          demo_world with
  | (Ok r, w') =>
      transcript r = Some PENDING_TRANSCRIPT
      /\ incoming_text r = None
      /\ reply_text r = Some FALLBACK_REPLY
      /\ reply_audio_path r = Some (u "media/reply_id-0.wav")
      /\ List.map ModelCall.model_type (model_calls (db w'))
         = [Some (u "ASR"); Some (u "LLM"); Some (u "TTS")]
      /\ file_get (media w') (u "media/id-0.wav") = Some (u "hello")
      /\ List.map CRMRecord.status (crm_records (db w'))
         = [Some (u "pending")]
      /\ List.map ToolCall.status (tool_calls (db w'))
         = [Some (u "accepted")]
  | (Raise _, _) => False
  end.
Proof. vm_compute. repeat split. Qed.

(** A text post with empty text: the dispatched record has an empty
    "query", so the CRM handler refuses it and no CRM row appears; the
    post succeeds all the same. *)
Example empty_text_post_run :
  match post_message demo_env (u "s-1") (text_msg []) demo_world with
  | (Ok r, w') =>
      transcript r = Some [] /\ reply_text r = Some ASK_REPEAT
      /\ crm_records (db w') = [] /\ tool_calls (db w') = []
      /\ List.length (model_calls (db w')) = 2
  | (Raise _, _) => False
  end.
Proof. vm_compute. repeat split. Qed.

Example conversation_run :
  get_conversation (u "s-1") two_session_world
  = (Ok (Conversation demo_session
           [ msg_row "m1" "s-1" "2025-01-01T00:00:01.000000Z";
             msg_row "m2" "s-1" "2025-01-01T00:00:02.000000Z" ]
           [] []
           [ call_row "c1" "m1" "2025-01-01T00:00:01.100000Z";
             call_row "c3" "m2" "2025-01-01T00:00:02.100000Z" ]),
     two_session_world).
Proof. vm_compute. reflexivity. Qed.

Example conversation_not_found :
  get_conversation (u "s-3") two_session_world
  = (Ok (ConversationNotFound 404 (u "session not found")), two_session_world).
Proof. vm_compute. reflexivity. Qed.

End Runs.

(** * Further properties of the code *)

(** ** The bearer-token check *)

Module AuthFacts.

Lemma bearer_split rest :
  split_once (u " ") (u "Bearer " ++ rest) = [u "Bearer"; rest].
Proof. vm_compute. reflexivity. Qed.

Lemma bearer_prefix a :
  startswith (u "Bearer ") a = true -> exists rest, a = u "Bearer " ++ rest.
Proof. apply startswith_spec. Qed.

Lemma require_api_key_eval key a :
  require_api_key key (Some a)
  = if startswith (u "Bearer ") a
    then if str_eqb (skipn 7 a) key then Authorized
         else Refused (HTTPException 403 (u "Invalid API key"))
    else Refused (HTTPException 401
                    (u "Missing or invalid Authorization header")).
Proof.
  unfold require_api_key.
  destruct (startswith (u "Bearer ") a) eqn:Hp; [|reflexivity].
  destruct (bearer_prefix a Hp) as [rest ->].
  rewrite bearer_split. cbn [negb nth_error].
  change (skipn 7 (u "Bearer " ++ rest)) with rest.
  now destruct (str_eqb rest key).
Qed.

(** X1.  The check lets a request through exactly when its
    Authorization header is "Bearer " followed by the configured key,
    byte for byte (the key may itself contain spaces: the header is cut
    at the first space only).  A header that is absent or does not
    begin with "Bearer " is refused with 401, any other token with 403,
    and the indexing of the split header is never out of range. *)
Theorem require_api_key_accepts_exactly (key : pystr)
    (authorization : option pystr) :
  (require_api_key key authorization = Authorized
   <-> authorization = Some (bearer_header key))
  /\ require_api_key key authorization <> IndexError
  /\ ((authorization = None
       \/ exists a, authorization = Some a
                    /\ startswith (u "Bearer ") a = false) ->
      require_api_key key authorization
      = Refused (HTTPException 401
                   (u "Missing or invalid Authorization header")))
  /\ (forall token, authorization = Some (u "Bearer " ++ token) ->
                    token <> key ->
      require_api_key key authorization
      = Refused (HTTPException 403 (u "Invalid API key"))).
Proof.
  split; [|split; [|split]].
  - destruct authorization as [a|]; [|split; discriminate].
    rewrite require_api_key_eval. unfold bearer_header. split.
    + destruct (startswith (u "Bearer ") a) eqn:Hp; [|discriminate].
      destruct (bearer_prefix a Hp) as [rest ->].
      change (skipn 7 (u "Bearer " ++ rest)) with rest.
      destruct (str_eqb rest key) eqn:E; [|discriminate].
      apply str_eqb_eq in E. now subst.
    + intros E. injection E as ->.
      change (startswith (u "Bearer ") (u "Bearer " ++ key)) with true.
      change (skipn 7 (u "Bearer " ++ key)) with key.
      now rewrite str_eqb_refl.
  - destruct authorization as [a|]; [|discriminate].
    rewrite require_api_key_eval.
    destruct (startswith _ a); [destruct (str_eqb _ key)|]; discriminate.
  - intros [-> | [a [-> Hp]]]; [reflexivity|].
    now rewrite require_api_key_eval, Hp.
  - intros token -> Hne. rewrite require_api_key_eval.
    change (startswith (u "Bearer ") (u "Bearer " ++ token)) with true.
    change (skipn 7 (u "Bearer " ++ token)) with token.
    apply str_eqb_neq in Hne. now rewrite Hne.
Qed.

(** A witness: the default key is accepted, a header with two spaces
    and a lower-case scheme are not. *)
Lemma require_api_key_accepts_exactly_witness :
  require_api_key (u "voxloom_demo_api_key")
    (Some (u "Bearer voxloom_demo_api_key")) = Authorized
  /\ require_api_key (u "voxloom_demo_api_key")
       (Some (u "Bearer  voxloom_demo_api_key"))
     = Refused (HTTPException 403 (u "Invalid API key"))
  /\ require_api_key (u "voxloom_demo_api_key")
       (Some (u "bearer voxloom_demo_api_key"))
     = Refused (HTTPException 401
                  (u "Missing or invalid Authorization header")).
Proof.
  split; [|split].
  - exact (proj2 (proj1 (require_api_key_accepts_exactly
                           (u "voxloom_demo_api_key")
                           (Some (u "Bearer voxloom_demo_api_key"))))
             eq_refl).
  - apply (proj2 (proj2 (proj2 (require_api_key_accepts_exactly
                                  (u "voxloom_demo_api_key")
                                  (Some (u "Bearer  voxloom_demo_api_key")))))
             (u " voxloom_demo_api_key") eq_refl).
    intros E. vm_compute in E. discriminate E.
  - apply (proj1 (proj2 (proj2 (require_api_key_accepts_exactly
                                  (u "voxloom_demo_api_key")
                                  (Some (u "bearer voxloom_demo_api_key")))))).
    right. eexists. split; reflexivity.
Defined.

End AuthFacts.

(** ** Creating a session *)

Module CreateFacts.
Import ToolsFacts SessionsFacts ConversationFacts.

Lemma filter_snoc {A} (f : A -> bool) l x :
  filter f (l ++ [x]) = filter f l ++ (if f x then [x] else []).
Proof. now rewrite filter_app. Qed.

Lemma join_without_messages st sid :
  filter (fun m => str_eqb (Message.session_id m) sid) (messages st) = [] ->
  join_model_calls st sid = [].
Proof.
  intros Hm. unfold join_model_calls.
  assert (Hf : forall mc,
             filter (fun m => opt_str_eqb (ModelCall.message_id mc)
                                (Message.id m)
                              && str_eqb (Message.session_id m) sid)
               (messages st) = []).
  { intros mc. induction (messages st) as [|m l IH]; [reflexivity|].
    cbn in Hm |- *.
    destruct (str_eqb (Message.session_id m) sid); [discriminate|].
    rewrite andb_false_r. now apply IH. }
  induction (model_calls st) as [|mc l IH]; [reflexivity|].
  cbn. now rewrite Hf, IH.
Qed.

Lemma create_session_run env (req : CreateSessionReq.t) (w : World) :
  no_session w (uuid4 env (entropy_ctr w)) ->
  let row := session_row_of env w req in
  exists w',
    uow w' = uow w /\ media w' = media w
    /\ commit_ctr w' = S (commit_ctr w)
    /\ match commit_fault env (commit_ctr w) with
       | None =>
           create_session env req w
           = (Ok {| new_session_id := Session.id row;
                    new_created_at := Session.created_at row |}, w')
           /\ db w' = insert_row (db w) (RSession row)
           /\ session_is w' (Session.id row) row
           /\ (forall sid s, session_is w sid s -> session_is w' sid s)
           /\ (forall sid, sid <> Session.id row ->
                           no_session w sid -> no_session w' sid)
       | Some e =>
           create_session env req w = (Raise (DBAPIError e), w')
           /\ db w' = db w
       end.
Proof.
  intros Hfresh row.
  unfold create_session, bind, gen_uuid, now_iso, datetime_utcnow, bind, ret,
    with_session, db_add, db_commit.
  cbn [db uow media entropy_ctr clock_ctr commit_ctr set_uow set_db
       tick_entropy tick_clock tick_commit app].
  destruct (commit_fault env (commit_ctr w)) as [e|].
  - eexists. split; [|split; [|split; [|split]]];
      [ | | | reflexivity | ]; reflexivity.
  - eexists. split; [|split; [|split; [|split; [reflexivity|]]]];
      [reflexivity | reflexivity | reflexivity |].
    cbn [db set_uow set_db tick_commit flush fold_left].
    fold row. split; [reflexivity|].
    unfold session_is, no_session in *.
    cbn [db sessions set_uow set_db tick_commit insert_row].
    change (Session.id row) with (uuid4 env (entropy_ctr w)).
    split; [|split].
    + rewrite filter_snoc, Hfresh. cbn [app Session.id].
      now rewrite str_eqb_refl.
    + intros sid s Hs. rewrite filter_snoc, Hs.
      cbn [Session.id].
      destruct (str_eqb (uuid4 env (entropy_ctr w)) sid) eqn:E;
        [|reflexivity].
      apply str_eqb_eq in E. subst sid. rewrite Hfresh in Hs.
      discriminate.
    + intros sid Hne Hs. rewrite filter_snoc, Hs.
      cbn [Session.id].
      destruct (str_eqb (uuid4 env (entropy_ctr w)) sid) eqn:E;
        [|reflexivity].
      apply str_eqb_eq in E. congruence.
Qed.

(** The conversation of a session that exists, as read from the
    tables. *)
Lemma get_conversation_run {sid w s} :
  session_is w sid s ->
  get_conversation sid w
  = (Ok (Conversation s
           (order_by Message.created_at
              (filter (fun m => str_eqb (Message.session_id m) sid)
                 (messages (db w))))
           (order_by CRMRecord.created_at
              (filter (fun c => opt_str_eqb (CRMRecord.session_id c) sid)
                 (crm_records (db w))))
           (order_by ToolCall.created_at
              (filter (fun t => opt_str_eqb (ToolCall.session_id t) sid)
                 (tool_calls (db w))))
           (order_by ModelCall.created_at (join_model_calls (db w) sid))),
     w).
Proof.
  intros Hs. unfold get_conversation, with_session, bind, db_select.
  cbn [db set_uow]. rewrite Hs. cbn [one_or_none ret].
  now rewrite session_restore.
Qed.

(** X2.  create_session draws one identifier and one clock reading,
    and writes the row in a single commit.  When the identifier is new
    and the commit succeeds, the answer carries the row's id and
    timestamp, the session table gains exactly this row with the
    request's four fields, the id now resolves to it, and every lookup
    of another id answers as before; when the commit fails the raw
    storage error leaves the handler and the database is unchanged. *)
Theorem create_session_outcome env (req : CreateSessionReq.t) (w : World) :
  no_session w (uuid4 env (entropy_ctr w)) ->
  let row := session_row_of env w req in
  exists w',
    uow w' = uow w /\ media w' = media w
    /\ commit_ctr w' = S (commit_ctr w)
    /\ match commit_fault env (commit_ctr w) with
       | None =>
           create_session env req w
           = (Ok {| new_session_id := Session.id row;
                    new_created_at := Session.created_at row |}, w')
           /\ db w' = insert_row (db w) (RSession row)
           /\ session_is w' (Session.id row) row
           /\ (forall sid s, session_is w sid s -> session_is w' sid s)
           /\ (forall sid, sid <> Session.id row ->
                           no_session w sid -> no_session w' sid)
       | Some e =>
           create_session env req w = (Raise (DBAPIError e), w')
           /\ db w' = db w
       end.
Proof. exact (create_session_run env req w). Qed.

Lemma create_session_outcome_witness :
  exists w',
    create_session demo_env demo_req demo_world
    = (Ok {| new_session_id := u "id-0";
             new_created_at := u "2025-01-01T00:00:00.000000Z" |}, w')
    /\ List.map Session.id (sessions (db w')) = [u "s-1"; u "id-0"].
Proof.
  destruct (create_session_outcome demo_env demo_req demo_world eq_refl)
    as [w' [_ [_ [_ [Hrun [Hdb _]]]]]].
  exists w'. split; [exact Hrun|]. now rewrite Hdb.
Defined.

(** X3.  A session that was just created is there for the other
    handlers: when its identifier is new (no session has it and no row
    refers to it) and the commit succeeds, reading the conversation of
    the returned id gives the created row with four empty collections
    and leaves the world alone, and a text message posted to the
    returned id is answered, not refused with 404, when the next commit
    succeeds. *)
Theorem created_session_is_usable env (req : CreateSessionReq.t) (w : World) :
  no_session w (uuid4 env (entropy_ctr w)) ->
  unreferenced w (uuid4 env (entropy_ctr w)) ->
  commit_fault env (commit_ctr w) = None ->
  exists resp w',
    create_session env req w = (Ok resp, w')
    /\ get_conversation (new_session_id resp) w'
       = (Ok (Conversation (session_row_of env w req) [] [] [] []), w')
    /\ forall msg,
         is_text msg = true ->
         commit_fault env (S (commit_ctr w)) = None ->
         exists r w'',
           post_message env (new_session_id resp) msg w' = (Ok r, w'')
           /\ session_id r = new_session_id resp
           /\ reply_text r
              = Some (generate_reply (lower env)
                        (str_or (MessageReq.text msg) [])).
Proof.
  intros Hfresh [Um [Uc Ut]] Hc.
  destruct (create_session_run env req w Hfresh)
    as [w' [_ [_ [Hctr Hrun]]]].
  rewrite Hc in Hrun. destruct Hrun as [Hrun [Hdb [Hs _]]].
  do 2 eexists. split; [exact Hrun|].
  cbn [new_session_id]. split.
  - rewrite (get_conversation_run Hs), Hdb.
    cbn [insert_row messages crm_records tool_calls session_row_of Session.id].
    rewrite join_without_messages by exact Um.
    now rewrite Um, Uc, Ut.
  - intros msg Et Hc'.
    assert (Hty : is_text msg || is_audio msg = true) by now rewrite Et.
    destruct (post_message_outcome env Hty Hs
                (or_introl (text_is_not_audio msg Et)))
      as [p [calls [tr [audio [w'' [Hpf [_ [_ [Htr Hpost]]]]]]]]].
    rewrite Hctr, Hc' in Hpost. destruct Hpost as [Hpost _].
    do 2 eexists. split; [exact Hpost|]. split; [reflexivity|].
    cbn. unfold user_text_of. rewrite Et.
    destruct Hpf as [_ [_ [_ [_ [Hin _]]]]]. destruct (Hin Et) as [Hi _].
    now rewrite Hi, str_or_nil.
Qed.

Lemma created_session_is_usable_witness :
  exists resp w',
    create_session demo_env demo_req demo_world = (Ok resp, w')
    /\ get_conversation (new_session_id resp) w'
       = (Ok (Conversation (session_row_of demo_env demo_world demo_req)
                [] [] [] []), w')
    /\ exists r w'',
         post_message demo_env (new_session_id resp) bill_msg w' = (Ok r, w'')
         /\ reply_text r = Some BILLING_REPLY.
Proof.
  destruct (created_session_is_usable demo_env demo_req demo_world
              eq_refl (conj eq_refl (conj eq_refl eq_refl)) eq_refl)
    as [resp [w' [Hrun [Hget Hpost]]]].
  exists resp, w'. split; [exact Hrun|]. split; [exact Hget|].
  destruct (Hpost bill_msg eq_refl eq_refl) as [r [w'' [Hp [_ Hr]]]].
  exists r, w''. split; [exact Hp|]. rewrite Hr. vm_compute. reflexivity.
Defined.

End CreateFacts.

(** ** The CRM endpoint beyond its validation *)

Module McpFacts.
Import ToolsFacts SessionsFacts ConversationFacts.

Lemma opt_str_eqb_eq x s : opt_str_eqb x s = true <-> x = Some s.
Proof.
  destruct x as [a|]; cbn; [|split; discriminate].
  rewrite str_eqb_eq. split; congruence.
Qed.

(** Whether a call passes the validation can be told. *)
Lemma well_formed_cases payload :
  well_formed payload
  \/ opt_truthy (MCPPayload.scenario payload) = false
  \/ (MCPPayload.scenario payload = Some (u "billing_query")
      /\ missing_fields (dict_or_empty (MCPPayload.crm_record payload)) <> []).
Proof.
  unfold well_formed.
  destruct (opt_truthy (MCPPayload.scenario payload)); [|now right; left].
  destruct (opt_str_eqb (MCPPayload.scenario payload) (u "billing_query"))
    eqn:Eb.
  - apply opt_str_eqb_eq in Eb.
    destruct (missing_fields _) eqn:Em; [now left | right; right].
    split; [exact Eb | discriminate].
  - left. split; [reflexivity|]. intros E. apply opt_str_eqb_eq in E.
    congruence.
Qed.

(** A call that passes the validation and whose session lookup does not
    give one row. *)
Lemma mcp_lookup_fails env payload w :
  well_formed payload ->
  (no_session w (MCPPayload.session_id payload) ->
   mcp_handler env payload w
   = (Raise (HTTPException 404 (u "session not found")), w))
  /\ (forall a b l,
        filter (fun x => str_eqb (Session.id x)
                           (MCPPayload.session_id payload))
          (sessions (db w)) = a :: b :: l ->
        mcp_handler env payload w = (Raise MultipleResultsFound, w)).
Proof.
  intros [Hscen Hmiss].
  unfold mcp_handler. rewrite Hscen. cbn [negb].
  match goal with
  | |- (_ -> bind ?c _ w = _) /\ _ => assert (Hv : c w = (Ok tt, w))
  end.
  { destruct (MCPPayload.scenario payload) as [sc|] eqn:Esc; [|reflexivity].
    cbn [opt_str_eqb]. destruct (str_eqb sc (u "billing_query")) eqn:Eb;
      [|reflexivity].
    apply str_eqb_eq in Eb. subst sc. cbv zeta. now rewrite Hmiss. }
  rewrite (bind_ok Hv).
  unfold no_session, with_session, bind, db_select. cbn [db set_uow].
  split.
  - intros ->. cbn [one_or_none raise ret]. now rewrite session_restore.
  - intros a b l ->. cbn [one_or_none raise ret]. now rewrite session_restore.
Qed.

(** X4.  A call that names no existing session is refused and leaves
    the world exactly as it was: no identifier or clock reading is
    drawn, nothing is added.  The answer is 404 "session not found"
    exactly when the call passes the validation; otherwise the
    validation answers 400 first. *)
Theorem mcp_unknown_session env (payload : MCPPayload.t) (w : World) :
  no_session w (MCPPayload.session_id payload) ->
  exists code detail,
    mcp_handler env payload w = (Raise (HTTPException code detail), w)
    /\ (code = 400 \/ code = 404)%Z
    /\ (well_formed payload ->
        code = 404%Z /\ detail = u "session not found")
    /\ (code = 404%Z -> well_formed payload).
Proof.
  intros Hn.
  destruct (well_formed_cases payload) as [Hw | [Hs | [Hb Hm]]].
  - destruct (mcp_lookup_fails env payload w Hw) as [H404 _].
    do 2 eexists. split; [exact (H404 Hn)|].
    split; [now right|]. split; [now split | now intros _].
  - do 2 eexists. split; [exact (mcp_no_scenario env payload w Hs)|].
    split; [now left|]. split; [|discriminate].
    intros [Hw _]. congruence.
  - do 2 eexists. split; [exact (mcp_missing env payload w Hb Hm)|].
    split; [now left|]. split; [|discriminate].
    intros [_ Hw]. now specialize (Hw Hb).
Qed.

Lemma mcp_unknown_session_witness :
  mcp_handler demo_env (billing_payload (Some full_record)) initial_world
  = (Raise (HTTPException 404 (u "session not found")), initial_world).
Proof.
  destruct (mcp_unknown_session demo_env (billing_payload (Some full_record))
              initial_world eq_refl)
    as [code [detail [Hrun [_ [Hw _]]]]].
  destruct (Hw (conj eq_refl (fun _ => eq_refl))) as [-> ->].
  exact Hrun.
Defined.

Lemma flush_crm_and_tool st crm tool :
  let st' := flush st [RCRMRecord crm; RToolCall tool] in
  sessions st' = sessions st /\ messages st' = messages st
  /\ model_calls st' = model_calls st
  /\ crm_records st' = crm_records st ++ [crm]
  /\ tool_calls st' = tool_calls st ++ [tool].
Proof. now repeat split. Qed.

(** X5.  What a call to the CRM endpoint can do, for every payload:
    the session, message and model-call tables, the unit of work of the
    caller and the media directory are never touched.  An answer means
    that exactly one CRMRecord (pending) and one ToolCall (accepted)
    were appended, with the ids of the answer.  When session ids are
    unique every error is a structured one, with status 400, 404 or
    500; no CRMRecord is written then, the world is unchanged unless
    the status is 500, and at most one ToolCall, with status failed, is
    appended. *)
Theorem mcp_handler_effects env (payload : MCPPayload.t) (w : World) :
  session_ids_unique w ->
  match mcp_handler env payload w with
  | (r, w') =>
      sessions (db w') = sessions (db w)
      /\ messages (db w') = messages (db w)
      /\ model_calls (db w') = model_calls (db w)
      /\ uow w' = uow w /\ media w' = media w
      /\ match r with
         | Ok resp =>
             ok resp = true /\ status resp = Some (u "accepted")
             /\ exists crm tool,
                  crm_records (db w') = crm_records (db w) ++ [crm]
                  /\ tool_calls (db w') = tool_calls (db w) ++ [tool]
                  /\ CRMRecord.id crm = crm_record_id resp
                  /\ ToolCall.id tool = tool_call_id resp
                  /\ CRMRecord.status crm = Some (u "pending")
                  /\ ToolCall.status tool = Some (u "accepted")
         | Raise e =>
             exists code detail,
               e = HTTPException code detail
               /\ (code = 400 \/ code = 404 \/ code = 500)%Z
               /\ (code <> 500%Z -> w' = w)
               /\ crm_records (db w') = crm_records (db w)
               /\ (tool_calls (db w') = tool_calls (db w)
                   \/ exists tool,
                        tool_calls (db w') = tool_calls (db w) ++ [tool]
                        /\ ToolCall.status tool = Some (u "failed"))
         end
  end.
Proof.
  intros Hu.
  assert (Hrefuse : forall code detail,
             (code = 400 \/ code = 404)%Z ->
             mcp_handler env payload w
             = (Raise (HTTPException code detail), w) ->
             match mcp_handler env payload w with
             | (r, w') =>
                 sessions (db w') = sessions (db w)
                 /\ messages (db w') = messages (db w)
                 /\ model_calls (db w') = model_calls (db w)
                 /\ uow w' = uow w /\ media w' = media w
                 /\ match r with
                    | Ok resp =>
                        ok resp = true /\ status resp = Some (u "accepted")
                        /\ exists crm tool,
                             crm_records (db w') = crm_records (db w) ++ [crm]
                             /\ tool_calls (db w')
                                = tool_calls (db w) ++ [tool]
                             /\ CRMRecord.id crm = crm_record_id resp
                             /\ ToolCall.id tool = tool_call_id resp
                             /\ CRMRecord.status crm = Some (u "pending")
                             /\ ToolCall.status tool = Some (u "accepted")
                    | Raise e =>
                        exists code detail,
                          e = HTTPException code detail
                          /\ (code = 400 \/ code = 404 \/ code = 500)%Z
                          /\ (code <> 500%Z -> w' = w)
                          /\ crm_records (db w') = crm_records (db w)
                          /\ (tool_calls (db w') = tool_calls (db w)
                              \/ exists tool,
                                   tool_calls (db w')
                                   = tool_calls (db w) ++ [tool]
                                   /\ ToolCall.status tool
                                      = Some (u "failed"))
                    end
             end).
  { intros code detail Hc ->.
    do 5 (split; [reflexivity|]).
    exists code, detail. split; [reflexivity|].
    split; [lia|]. split; [reflexivity|]. split; [reflexivity | now left]. }
  destruct (well_formed_cases payload) as [Hw | [Hs | [Hb Hm]]].
  - destruct (filter_unique_key Session.id
                (fun x => str_eqb (Session.id x)
                            (MCPPayload.session_id payload))
                (MCPPayload.session_id payload) (sessions (db w)) Hu)
      as [Hnone | [s Hone]].
    { intros x Hx. now apply str_eqb_eq in Hx. }
    + apply (Hrefuse 404%Z (u "session not found")); [now right|].
      now apply mcp_lookup_fails.
    + clear Hrefuse. destruct Hw as [Hw1 Hw2].
      destruct (mcp_valid_run env (conj Hw1 (conj Hw2 Hone)))
        as [w' [Huow [Hmedia Hrun]]].
      destruct (commit_fault env (commit_ctr w)) as [e|].
      * destruct Hrun as [-> Hdb].
        assert (Hkeep : sessions (db w') = sessions (db w)
                        /\ messages (db w') = messages (db w)
                        /\ model_calls (db w') = model_calls (db w)
                        /\ crm_records (db w') = crm_records (db w)
                        /\ (tool_calls (db w') = tool_calls (db w)
                            \/ exists tool,
                                 tool_calls (db w')
                                 = tool_calls (db w) ++ [tool]
                                 /\ ToolCall.status tool
                                    = Some (u "failed"))).
        { destruct (commit_fault env (S (commit_ctr w))); rewrite Hdb.
          - repeat split; now left.
          - cbn. repeat split. right. eexists. now split. }
        destruct Hkeep as [K1 [K2 [K3 [K4 K5]]]].
        do 5 (split; [assumption|]).
        do 2 eexists. split; [reflexivity|].
        split; [lia|]. split; [intros H; now elim H|]. now split.
      * destruct Hrun as [-> Hdb].
        destruct (flush_crm_and_tool (db w)
                    (crm_row_of env w payload s) (tool_row_of env w payload))
          as [F1 [F2 [F3 [F4 F5]]]].
        rewrite <- Hdb in F1, F2, F3, F4, F5.
        do 5 (split; [assumption|]).
        split; [reflexivity|]. split; [reflexivity|].
        do 2 eexists. split; [exact F4|]. split; [exact F5|].
        now repeat split.
  - apply (Hrefuse 400%Z (u "scenario is required")); [now left|].
    now apply mcp_no_scenario.
  - eapply (Hrefuse 400%Z); [now left|].
    now apply mcp_missing.
Qed.

Lemma mcp_handler_effects_witness :
  exists resp w',
    mcp_handler demo_env (billing_payload (Some full_record)) demo_world
    = (Ok resp, w')
    /\ List.length (crm_records (db w')) = 1
    /\ List.length (tool_calls (db w')) = 1
    /\ sessions (db w') = [demo_session].
Proof.
  assert (Hu : session_ids_unique demo_world)
    by (repeat constructor; intros []).
  pose proof (mcp_handler_effects demo_env
                (billing_payload (Some full_record)) demo_world Hu) as H.
  destruct (mcp_handler demo_env (billing_payload (Some full_record))
              demo_world) as [[resp|e] w'] eqn:E.
  - exists resp, w'. split; [reflexivity|].
    destruct H as [Hs [_ [_ [_ [_ [_ [_ [crm [tool [Hc [Ht _]]]]]]]]]]].
    rewrite Hc, Ht, Hs. now repeat split.
  - vm_compute in E. discriminate E.
Defined.

(** X6.  Only the scenario "billing_query", spelled exactly so, has
    its record validated.  A call of any other non-empty scenario to an
    existing session is accepted whatever its record holds, even none:
    when the commit succeeds the CRMRecord is stored with the record as
    given, an absent record as the empty object. *)
Theorem mcp_other_scenario_unvalidated env (payload : MCPPayload.t)
    (w : World) (s : Session.t) (sc : pystr) :
  MCPPayload.scenario payload = Some sc ->
  truthy_str sc = true ->
  sc <> u "billing_query" ->
  session_is w (MCPPayload.session_id payload) s ->
  commit_fault env (commit_ctr w) = None ->
  exists resp w' crm,
    mcp_handler env payload w = (Ok resp, w')
    /\ status resp = Some (u "accepted")
    /\ crm_records (db w') = crm_records (db w) ++ [crm]
    /\ CRMRecord.id crm = crm_record_id resp
    /\ CRMRecord.scenario crm = Some sc
    /\ CRMRecord.record_json crm
       = Some (match MCPPayload.crm_record payload with
               | Some rec => rec
               | None => []
               end).
Proof.
  intros Hsc Ht Hne Hs Hc.
  assert (Hv : valid_call w payload s).
  { split; [now rewrite Hsc|]. split; [|exact Hs].
    intros E. congruence. }
  destruct (mcp_valid_run env Hv) as [w' [_ [_ Hrun]]].
  rewrite Hc in Hrun. destruct Hrun as [Hrun Hdb].
  do 3 eexists. split; [exact Hrun|]. split; [reflexivity|].
  rewrite Hdb. split; [reflexivity|]. split; [reflexivity|].
  split; [exact Hsc|]. cbn. unfold dict_or_empty.
  now destruct (MCPPayload.crm_record payload).
Qed.

Lemma mcp_other_scenario_unvalidated_witness :
  exists resp w' crm,
    mcp_handler demo_env callback_payload demo_world = (Ok resp, w')
    /\ crm_records (db w') = [crm]
    /\ CRMRecord.scenario crm = Some (u "Billing_Query")
    /\ CRMRecord.record_json crm = Some [].
Proof.
  assert (Hne : u "Billing_Query" <> u "billing_query")
    by (intros E; vm_compute in E; discriminate E).
  destruct (mcp_other_scenario_unvalidated demo_env callback_payload
              demo_world demo_session (u "Billing_Query")
              eq_refl eq_refl Hne eq_refl eq_refl)
    as [resp [w' [crm [Hrun [_ [Hdb [_ [Hs Hr]]]]]]]].
  exists resp, w', crm. now repeat split.
Defined.

End McpFacts.

(** ** The stages of a post, step by step *)

Module PipelineFacts.
Import ToolsFacts SessionsFacts ConversationFacts.

(** *** The media directory *)

Lemma file_get_del_other fs path q :
  q <> path -> file_get (file_del fs path) q = file_get fs q.
Proof.
  intros Hne. induction fs as [|[p c] fs IH]; [reflexivity|].
  cbn [file_del file_get].
  destruct (str_eqb p path) eqn:Ep.
  - apply str_eqb_eq in Ep. subst p.
    assert (Eq : str_eqb path q = false) by (apply str_eqb_neq; congruence).
    now rewrite Eq.
  - cbn [file_get]. now rewrite IH.
Qed.

Lemma file_get_written fs path c q :
  file_get ((path, c) :: file_del fs path) q
  = if str_eqb path q then Some c else file_get fs q.
Proof.
  cbn [file_get]. destruct (str_eqb path q) eqn:E; [reflexivity|].
  apply file_get_del_other. apply str_eqb_neq in E. congruence.
Qed.

(** The incoming audio and the reply audio of a message never share a
    file. *)
Lemma incoming_path_is_no_reply_path mid ext :
  List.length ext = 4%nat -> u "media/" ++ mid ++ ext <> reply_path mid.
Proof.
  intros Hl E. apply (f_equal (@List.length N)) in E.
  unfold reply_path in E. rewrite !length_app, Hl in E.
  change (List.length (u "media/")) with 6%nat in E.
  change (List.length (u "media/reply_")) with 12%nat in E.
  change (List.length (u ".wav")) with 4%nat in E. lia.
Qed.

(** *** Saving the incoming audio *)

Lemma save_incoming_audio_run env (msg : MessageReq.t) (mid : pystr)
    (w : World) :
  exists r w',
    save_incoming_audio env msg mid w = (Ok r, w')
    /\ db w' = db w /\ uow w' = uow w /\ commit_ctr w' = commit_ctr w
    /\ entropy_ctr w' = entropy_ctr w /\ clock_ctr w' = clock_ctr w
    /\ match r with
       | Some path =>
           exists b ext,
             audio_bytes msg = Some b
             /\ path = u "media/" ++ mid ++ ext
             /\ (ext = u ".mp3" \/ ext = u ".wav")
             /\ (ext = u ".mp3" <-> mp3_mime env msg)
             /\ write_fault env path = None
             /\ file_get (media w') path = Some b
             /\ (forall q, q <> path ->
                           file_get (media w') q = file_get (media w) q)
       | None =>
           w' = w
           /\ (audio_bytes msg = None
               \/ exists ext, write_fault env (u "media/" ++ mid ++ ext)
                              <> None)
       end.
Proof.
  unfold save_incoming_audio, audio_bytes.
  destruct (opt_truthy (MessageReq.audio_base64 msg));
    [|exists None, w; repeat split; now left].
  unfold try_except, bind, base64_b64decode.
  destruct (b64decode _) as [b|m];
    [|exists None, w; repeat split; now left].
  unfold ret at 1. cbv zeta.
  set (mp3 := opt_truthy (MessageReq.mime msg)
              && contains (u "mp3")
                   (lower env (str_or (MessageReq.mime msg) []))).
  set (ext := if mp3 then u ".mp3" else u ".wav").
  unfold write_media.
  destruct (write_fault env (u "media/" ++ mid ++ ext)) as [f|] eqn:Ef.
  - exists None, w. cbn. repeat split. right. exists ext. congruence.
  - eexists (Some _), _. cbn [ret].
    split; [reflexivity|]. do 5 (split; [reflexivity|]).
    exists b, ext. split; [reflexivity|]. split; [reflexivity|].
    split; [subst ext; destruct mp3; tauto|].
    split; [|split; [exact Ef|split]].
    + unfold mp3_mime. subst ext mp3.
      destruct (MessageReq.mime msg) as [m|]; cbn [opt_truthy andb].
      * destruct (truthy_str m) eqn:Et; cbn [andb].
        -- unfold str_or. rewrite Et.
           destruct (contains (u "mp3") (lower env m)) eqn:Ec.
           ++ split; [intros _ | reflexivity].
              exists m. split; [reflexivity|]. split.
              ** intros ->. discriminate.
              ** now apply contains_spec.
           ++ split; [intros E; vm_compute in E; discriminate E|].
              intros [m' [E [_ Ho]]]. injection E as <-.
              apply contains_spec in Ho. congruence.
        -- split; [intros E; vm_compute in E; discriminate E|].
           intros [m' [E [Hne _]]]. injection E as <-.
           destruct m; [now elim Hne | discriminate].
      * split; [intros E; vm_compute in E; discriminate E|].
        intros [m' [E _]]. discriminate.
    + cbn [media set_media]. rewrite file_get_written.
      now rewrite str_eqb_refl.
    + intros q Hq. cbn [media set_media]. rewrite file_get_written.
      assert (E : str_eqb (u "media/" ++ mid ++ ext) q = false)
        by (apply str_eqb_neq; congruence).
      now rewrite E.
Qed.

(** *** The preparation of an audio message *)

Lemma prepare_audio env sid (msg : MessageReq.t) (w : World) :
  is_text msg = false ->
  exists p wp,
    prepare_message env sid msg w = (Ok p, wp)
    /\ quiet w wp
    /\ prepared_for sid msg p
    /\ stored_input msg p wp
    /\ p_transcript p = u "<audio_received>"
    /\ Message.audio_path_or_b64 (p_message_row p) = p_audio_path_or_b64 p
    /\ (forall path, p_audio_path_or_b64 p = Some path ->
          exists ext, path = u "media/" ++ p_message_id p ++ ext
                      /\ (ext = u ".mp3" \/ ext = u ".wav")
                      /\ (ext = u ".mp3" <-> mp3_mime env msg)).
Proof.
  intros Et.
  unfold prepare_message.
  unfold bind at 1. unfold gen_uuid at 1.
  unfold bind at 1. unfold now_iso, bind at 1, datetime_utcnow, ret at 1.
  rewrite Et.
  set (w0 := tick_clock (tick_entropy w)).
  set (mid := uuid4 env (entropy_ctr w)).
  destruct (save_incoming_audio_run env msg mid w0)
    as [r [wp [Hrun [Hdb [Huow [Hc [_ [_ Hr]]]]]]]].
  rewrite (bind_ok (bind_ok Hrun)). unfold ret.
  do 2 eexists. split; [reflexivity|].
  split; [unfold quiet; now rewrite Hdb, Huow, Hc|].
  split; [|split; [|split; [reflexivity|split; [reflexivity|]]]].
  - unfold prepared_for. cbn. do 4 (split; [reflexivity|]).
    split; [congruence|]. intros _. split; [reflexivity|].
    unfold malformed_audio. intros Hm.
    destruct r as [path|]; [|reflexivity].
    destruct Hr as [b [ext [Hb _]]]. unfold audio_bytes in Hb.
    destruct (opt_truthy (MessageReq.audio_base64 msg)); [|discriminate].
    destruct (b64decode _); discriminate.
  - unfold stored_input. cbn [p_audio_path_or_b64 p_message_id].
    destruct r as [path|]; [|exact I].
    destruct Hr as [b [ext [Hb [-> [Hext [_ [_ [Hget _]]]]]]]].
    split; [reflexivity|]. split.
    + apply incoming_path_is_no_reply_path.
      now destruct Hext as [-> | ->].
    + now exists b.
  - cbn [p_audio_path_or_b64 p_message_id]. intros path ->.
    destruct Hr as [b [ext [_ [-> [Hext [Hmp3 _]]]]]].
    now exists ext.
Qed.

(** *** The speech stage *)

Lemma asr_stage_hears env (msg : MessageReq.t) (p : Prepared) (w : World) :
  malformed_audio msg = false ->
  stored_input msg p w ->
  exists call w',
    asr_stage env msg p w = (Ok (heard msg, call), w')
    /\ quiet w w' /\ media w' = media w
    /\ ModelCall.model_type call = Some (u "ASR")
    /\ ModelCall.message_id call = Some (p_message_id p)
    /\ ModelCall.raw_response_snippet call = Some (heard msg).
Proof.
  intros Hm Hst. unfold asr_stage.
  assert (Hsrc : exists src,
             (if opt_truthy (p_audio_path_or_b64 p)
              then ret (inl (str_or (p_audio_path_or_b64 p) []))
              else if opt_truthy (MessageReq.audio_base64 msg)
                   then b <- base64_b64decode
                               (str_or (MessageReq.audio_base64 msg) []) ;;
                        ret (inr b)
                   else ret (inr [])) (tick_clock w)
             = (Ok src, tick_clock w)
             /\ run_asr src (str_or (MessageReq.mime msg) (u "audio/wav"))
                  (tick_clock w)
                = (Ok (heard msg), tick_clock w)).
  { unfold malformed_audio in Hm. unfold stored_input in Hst.
    unfold heard, audio_bytes in *.
    destruct (p_audio_path_or_b64 p) as [path|]; cbn [opt_truthy].
    - destruct Hst as [Ht [_ [b [Hb Hget]]]]. rewrite Ht.
      eexists. split; [reflexivity|].
      unfold str_or. rewrite Ht.
      unfold run_asr, try_except, bind, os_path_exists, os_path_getsize, ret.
      cbn [media tick_clock]. rewrite Hget.
      cbn [media tick_clock]. rewrite Hget.
      destruct (opt_truthy (MessageReq.audio_base64 msg)); [|discriminate].
      destruct (b64decode _) as [b'|]; [|discriminate].
      injection Hb as ->. destruct b; reflexivity.
    - destruct (opt_truthy (MessageReq.audio_base64 msg));
        [|eexists; split; reflexivity].
      unfold bind, base64_b64decode.
      destruct (b64decode _) as [b|]; [|discriminate].
      eexists. split; [reflexivity|].
      unfold run_asr, try_except, ret. now destruct b. }
  destruct Hsrc as [src [Hsrc Hasr]].
  unfold bind at 1. unfold datetime_utcnow at 1.
  rewrite (bind_ok Hsrc), (bind_ok Hasr).
  unfold bind, gen_uuid, now_iso, datetime_utcnow, bind, ret.
  do 2 eexists. split; [reflexivity|]. split; [quiet_now|].
  split; [reflexivity|]. split; [reflexivity|]. split; [reflexivity|].
  cbn [ModelCall.raw_response_snippet]. f_equal.
  unfold heard. now destruct (audio_bytes msg) as [[|x b]|].
Qed.

(** *** The synthesis stage *)

Lemma run_tts_run env text mid w :
  run_tts env text (Some mid) w
  = match write_fault env (reply_path mid) with
    | None =>
        (Ok (Some (reply_path mid)),
         set_media w ((reply_path mid, tts_silence)
                      :: file_del (media w) (reply_path mid)))
    | Some _ => (Ok None, w)
    end.
Proof.
  unfold run_tts, try_except, bind, write_media, ret.
  fold (reply_path mid).
  now destruct (write_fault env (reply_path mid)).
Qed.

Lemma tts_stage_run env (p : Prepared) reply (w : World) :
  exists call w',
    tts_stage env p reply w
    = (Ok (tts_path_of env (p_message_id p), call), w')
    /\ quiet w w'
    /\ ModelCall.model_type call = Some (u "TTS")
    /\ ModelCall.message_id call = Some (p_message_id p)
    /\ (forall q, q <> reply_path (p_message_id p) ->
                  file_get (media w') q = file_get (media w) q)
    /\ (forall path, tts_path_of env (p_message_id p) = Some path ->
                     file_get (media w') path = Some tts_silence).
Proof.
  unfold tts_stage.
  unfold bind at 1. unfold datetime_utcnow at 1.
  unfold bind at 1. rewrite run_tts_run. unfold tts_path_of.
  destruct (write_fault env (reply_path (p_message_id p))) as [f|] eqn:Ef.
  - unfold bind, gen_uuid, now_iso, datetime_utcnow, bind, ret.
    do 2 eexists. split; [reflexivity|]. split; [quiet_now|].
    split; [reflexivity|]. split; [reflexivity|].
    split; [reflexivity | discriminate].
  - unfold bind, gen_uuid, now_iso, datetime_utcnow, bind, ret.
    do 2 eexists. split; [reflexivity|]. split; [quiet_now|].
    split; [reflexivity|]. split; [reflexivity|].
    cbn [media set_media tick_clock tick_entropy]. split.
    + intros q Hq. rewrite file_get_written.
      assert (E : str_eqb (reply_path (p_message_id p)) q = false)
        by (apply str_eqb_neq; congruence).
      now rewrite E.
    + intros path E. injection E as <-. rewrite file_get_written.
      now rewrite str_eqb_refl.
Qed.

Lemma llm_stage_run env (p : Prepared) user_text (w : World) :
  exists call w',
    llm_stage env p user_text w
    = (Ok (generate_reply (lower env) user_text, call), w')
    /\ quiet w w' /\ media w' = media w
    /\ ModelCall.model_type call = Some (u "LLM")
    /\ ModelCall.message_id call = Some (p_message_id p).
Proof.
  unfold llm_stage, bind, gen_uuid, now_iso, datetime_utcnow, bind, ret.
  do 2 eexists. split; [reflexivity|]. split; [quiet_now|]. now repeat split.
Qed.

(** *** The database block up to its commit, from the result of the
    speech stage on *)

Lemma run_stages_trace env {sid} (msg : MessageReq.t) (p : Prepared)
    {s : Session.t} {w : World} (tr : pystr) (calls0 : list ModelCall.t)
    (w0 : World) :
  session_is w sid s ->
  uow w = [] ->
  (if is_audio msg
   then exists call, asr_stage env msg p w = (Ok (tr, call), w0)
                     /\ calls0 = [call]
   else tr = p_transcript p /\ calls0 = [] /\ w0 = w) ->
  quiet w w0 ->
  exists llm tts w1,
    ModelCall.model_type llm = Some (u "LLM")
    /\ ModelCall.model_type tts = Some (u "TTS")
    /\ ModelCall.message_id llm = Some (p_message_id p)
    /\ ModelCall.message_id tts = Some (p_message_id p)
    /\ uow w1 = [] /\ commit_ctr w1 = S (commit_ctr w)
    /\ (forall q, q <> reply_path (p_message_id p) ->
                  file_get (media w1) q = file_get (media w0) q)
    /\ (forall path, tts_path_of env (p_message_id p) = Some path ->
                     file_get (media w1) path = Some tts_silence)
    /\ match commit_fault env (commit_ctr w) with
       | None =>
           run_stages_and_commit env sid msg p w
           = (Ok (committed_of env msg p s tr
                    (tts_path_of env (p_message_id p))
                    (calls0 ++ [llm; tts])), w1)
           /\ db w1 = flush (db w)
                        (RMessage (final_row env msg p tr
                                     (tts_path_of env (p_message_id p)))
                         :: List.map RModelCall (calls0 ++ [llm; tts]))
       | Some e =>
           run_stages_and_commit env sid msg p w
           = (Raise (DBAPIError e), w1)
           /\ db w1 = db w
       end.
Proof.
  intros Hs Hu Hasr Hq0.
  remember (run_stages_and_commit env sid msg p w) as R eqn:HR.
  unfold run_stages_and_commit in HR.
  unfold bind at 1 in HR. unfold db_select at 1 in HR. rewrite Hs in HR.
  unfold bind at 1 in HR. cbn [one_or_none ret] in HR.
  assert (Hrun0 :
            (if is_audio msg
             then ' (transcript, asr_call) <- asr_stage env msg p ;;
                  ret (transcript, set_transcript (p_message_row p) transcript,
                       [] ++ [asr_call])
             else ret (p_transcript p, p_message_row p, [])) w
            = (Ok (tr, (if is_audio msg
                        then set_transcript (p_message_row p) tr
                        else p_message_row p), calls0), w0)).
  { destruct (is_audio msg).
    - destruct Hasr as [call [Hrun ->]]. now rewrite (bind_ok Hrun).
    - now destruct Hasr as [-> [-> ->]]. }
  rewrite (bind_ok Hrun0) in HR.
  destruct (llm_stage_run env p (user_text_of msg p tr) w0)
    as [llm [w2 [Hrun2 [Hq2 [Hm2 [Hty2 Hid2]]]]]].
  unfold user_text_of in Hrun2. rewrite (bind_ok Hrun2) in HR.
  destruct (tts_stage_run env p
              (generate_reply (lower env) (user_text_of msg p tr)) w2)
    as [tts [w3 [Hrun3 [Hq3 [Hty3 [Hid3 [Hkeep Hnew]]]]]]].
  unfold user_text_of in Hrun3. rewrite (bind_ok Hrun3) in HR.
  pose proof (quiet_trans (quiet_trans Hq0 Hq2) Hq3) as [Qdb [Quow Qc]].
  assert (Happ : (calls0 ++ [llm]) ++ [tts] = calls0 ++ [llm; tts])
    by now rewrite <- app_assoc.
  rewrite Happ in HR.
  unfold bind at 1 in HR. unfold db_add at 1 in HR.
  unfold bind at 1 in HR. rewrite add_model_calls_run in HR.
  unfold bind, db_commit, ret in HR. cbn [commit_ctr set_uow uow db] in HR.
  rewrite Qc, Quow, Hu, Qdb in HR.
  exists llm, tts.
  destruct (commit_fault env (commit_ctr w)) as [e|];
    [ exists (tick_commit (set_uow w3 []))
    | exists (tick_commit
                (set_uow
                   (set_db w3
                      (flush (db w)
                         (RMessage (final_row env msg p tr
                                      (tts_path_of env (p_message_id p)))
                          :: List.map RModelCall (calls0 ++ [llm; tts]))))
                   [])) ];
    (do 4 (split; [assumption|]));
    (split; [reflexivity|]); (split; [cbn; now rewrite Qc|]);
    (split; [intros q Hq; cbn; rewrite (Hkeep q Hq); now rewrite Hm2|]);
    (split; [exact Hnew|]); (split; [exact HR|]); try reflexivity.
  exact Qdb.
Qed.

(** *** The dispatch *)

Lemma mcp_handler_media env payload w :
  media (snd (mcp_handler env payload w)) = media w
  /\ uow (snd (mcp_handler env payload w)) = uow w.
Proof.
  destruct (McpFacts.well_formed_cases payload) as [Hw | [Hs | [Hb Hm]]].
  - destruct (filter (fun x => str_eqb (Session.id x)
                                 (MCPPayload.session_id payload))
                (sessions (db w))) as [|s [|s' l]] eqn:Hsel.
    + destruct (McpFacts.mcp_lookup_fails env payload w Hw) as [H _].
      now rewrite (H Hsel).
    + destruct Hw as [Hw1 Hw2].
      destruct (mcp_valid_run env (conj Hw1 (conj Hw2 Hsel)))
        as [w' [Huow [Hmedia Hrun]]].
      destruct (commit_fault env (commit_ctr w));
        destruct Hrun as [-> _]; now split.
    + destruct (McpFacts.mcp_lookup_fails env payload w Hw) as [_ H].
      now rewrite (H _ _ _ Hsel).
  - now rewrite (mcp_no_scenario env payload w Hs).
  - now rewrite (mcp_missing env payload w Hb Hm).
Qed.

Lemma dispatch_crm_run env sid c w :
  dispatch_crm env sid c w = (Ok tt, after_dispatch env sid c w).
Proof.
  unfold dispatch_crm, client_post, after_dispatch, served, try_except, bind,
    ret, raise.
  destruct (crm_transport env) as [|m|[|]]; try reflexivity;
    now destruct (mcp_handler env (crm_payload sid c) w) as [[r|e] w'].
Qed.

(** The record the pipeline posts lacks a required field exactly when
    the transcript is empty. *)
Lemma crm_payload_missing sid c :
  missing_fields
    (dict_or_empty (MCPPayload.crm_record (crm_payload sid c)))
  = if truthy_str (c_transcript c) then [] else [u "query"].
Proof.
  unfold crm_payload. cbn [MCPPayload.crm_record dict_or_empty].
  destruct (c_transcript c) as [|x t]; vm_compute; reflexivity.
Qed.

(** *** The whole handler *)

Lemma post_message_unfold env sid msg w p wp :
  is_text msg || is_audio msg = true ->
  prepare_message env sid msg w = (Ok p, wp) ->
  match run_stages_and_commit env sid msg p (set_uow wp []) with
  | (Ok c, w1) =>
      post_message env sid msg w
      = (Ok (summary sid c), set_uow (after_dispatch env sid c w1) (uow wp))
  | (Raise e, w1) =>
      post_message env sid msg w = (Raise e, set_uow w1 (uow wp))
  end.
Proof.
  intros Hty Hp. unfold post_message. rewrite Hty. cbn [negb].
  rewrite (bind_ok Hp).
  destruct (run_stages_and_commit env sid msg p (set_uow wp []))
    as [[c|e] w1] eqn:Hr.
  - assert (Hs : (c <- run_stages_and_commit env sid msg p ;;
                  dispatch_crm env sid c ;; ret c) (set_uow wp [])
                 = (Ok c, after_dispatch env sid c w1))
      by (rewrite (bind_ok Hr), (bind_ok (dispatch_crm_run env sid c w1));
          reflexivity).
    now rewrite (bind_ok (session_run Hs)).
  - assert (Hs : (c <- run_stages_and_commit env sid msg p ;;
                  dispatch_crm env sid c ;; ret c) (set_uow wp [])
                 = (Raise e, w1))
      by (rewrite (bind_raise Hr); reflexivity).
    now rewrite (bind_raise (session_run Hs)).
Qed.

(** Every post that reaches the speech stage with a usable input, step
    by step: the prepared locals [p], the model calls, the world [w1]
    at the end of the commit and the world [w'] the handler leaves. *)
Lemma post_message_trace env {sid msg w s} :
  is_text msg || is_audio msg = true ->
  session_is w sid s ->
  is_audio msg = false \/ malformed_audio msg = false ->
  exists p calls w1 w',
    let tr := if is_audio msg then heard msg else p_transcript p in
    let audio := tts_path_of env (p_message_id p) in
    prepared_for sid msg p
    /\ List.map ModelCall.model_type calls = expected_types msg
    /\ Forall (fun c => ModelCall.message_id c = Some (p_message_id p)) calls
    /\ (is_text msg = false ->
        Message.audio_path_or_b64 (p_message_row p) = p_audio_path_or_b64 p
        /\ forall path,
             p_audio_path_or_b64 p = Some path ->
             (exists ext, path = u "media/" ++ p_message_id p ++ ext
                          /\ (ext = u ".mp3" \/ ext = u ".wav")
                          /\ (ext = u ".mp3" <-> mp3_mime env msg))
             /\ exists b, audio_bytes msg = Some b
                          /\ file_get (media w1) path = Some b)
    /\ (forall path, audio = Some path ->
                     file_get (media w1) path = Some tts_silence)
    /\ commit_ctr w1 = S (commit_ctr w)
    /\ media w' = media w1 /\ uow w' = uow w
    /\ match commit_fault env (commit_ctr w) with
       | None =>
           let c := committed_of env msg p s tr audio calls in
           post_message env sid msg w = (Ok (summary sid c), w')
           /\ db w1 = flush (db w)
                        (RMessage (final_row env msg p tr audio)
                         :: List.map RModelCall calls)
           /\ db w' = db (after_dispatch env sid c w1)
       | Some e =>
           post_message env sid msg w = (Raise (DBAPIError e), w')
           /\ db w' = db w
       end.
Proof.
  intros Hty Hs Hok.
  (* the preparation, and what the speech stage finds *)
  assert (Hprep : exists p wp tr calls0 w0,
             prepare_message env sid msg w = (Ok p, wp)
             /\ quiet w wp /\ prepared_for sid msg p
             /\ tr = (if is_audio msg then heard msg else p_transcript p)
             /\ (if is_audio msg
                 then exists call,
                        asr_stage env msg p (set_uow wp [])
                        = (Ok (tr, call), w0)
                        /\ calls0 = [call]
                 else tr = p_transcript p /\ calls0 = []
                      /\ w0 = set_uow wp [])
             /\ quiet (set_uow wp []) w0
             /\ List.map ModelCall.model_type calls0
                = (if is_audio msg then [Some (u "ASR")] else [])
             /\ Forall (fun c => ModelCall.message_id c
                                 = Some (p_message_id p)) calls0
             /\ (is_text msg = false ->
                 Message.audio_path_or_b64 (p_message_row p)
                 = p_audio_path_or_b64 p
                 /\ forall path,
                      p_audio_path_or_b64 p = Some path ->
                      path <> reply_path (p_message_id p)
                      /\ (exists ext,
                            path = u "media/" ++ p_message_id p ++ ext
                            /\ (ext = u ".mp3" \/ ext = u ".wav")
                            /\ (ext = u ".mp3" <-> mp3_mime env msg))
                      /\ exists b, audio_bytes msg = Some b
                                   /\ file_get (media w0) path = Some b)).
  { destruct (is_text msg) eqn:Et.
    - destruct (prepare_message_total env sid msg w)
        as [p [wp [Hp [Hq Hpf]]]].
      rewrite (text_is_not_audio msg Et).
      exists p, wp, (p_transcript p), [], (set_uow wp []).
      split; [exact Hp|]. split; [exact Hq|]. split; [exact Hpf|].
      split; [reflexivity|]. split; [now repeat split|].
      split; [apply quiet_refl|]. split; [reflexivity|].
      split; [constructor | discriminate].
    - assert (Ea : is_audio msg = true) by exact Hty.
      rewrite Ea. destruct Hok as [Hok|Hok]; [congruence|].
      destruct (prepare_audio env sid msg w Et)
        as [p [wp [Hp [Hq [Hpf [Hst [_ [Hrow Hshape]]]]]]]].
      assert (Hst' : stored_input msg p (set_uow wp [])) by exact Hst.
      destruct (asr_stage_hears env msg p (set_uow wp []) Hok Hst')
        as [call [w0 [Hrun [Hq0 [Hm0 [Hty0 [Hid0 _]]]]]]].
      exists p, wp, (heard msg), [call], w0.
      split; [exact Hp|]. split; [exact Hq|]. split; [exact Hpf|].
      split; [reflexivity|]. split; [now exists call|].
      split; [exact Hq0|]. split; [cbn; now rewrite Hty0|].
      split; [now constructor|].
      intros _. split; [exact Hrow|]. intros path Epath.
      unfold stored_input in Hst. rewrite Epath in Hst.
      destruct Hst as [_ [Hne [b [Hb Hget]]]].
      split; [exact Hne|]. split; [now apply Hshape|].
      exists b. split; [exact Hb|]. now rewrite Hm0. }
  destruct Hprep
    as [p [wp [tr [calls0 [w0 [Hp [[Qdb [Quow Qc]] [Hpf [Htr [Hasr [Hq0
         [Hty0 [Hid0 Hin]]]]]]]]]]]]].
  (* the stages and the commit *)
  assert (Hs' : session_is (set_uow wp []) sid s)
    by (unfold session_is in *; cbn; now rewrite Qdb).
  destruct (run_stages_trace env msg p tr calls0 w0 Hs' eq_refl Hasr Hq0)
    as [llm [tts [w1 [L1 [L2 [L3 [L4 [U1 [C1 [Hkeep [Hnew Hrun]]]]]]]]]]].
  cbn [set_uow commit_ctr db] in Hrun, C1. rewrite Qc in Hrun, C1.
  rewrite Qdb in Hrun.
  pose proof (post_message_unfold env sid msg w p wp Hty Hp) as Hpost.
  exists p, (calls0 ++ [llm; tts]), w1.
  assert (Hcalls : List.map ModelCall.model_type (calls0 ++ [llm; tts])
                   = expected_types msg)
    by (unfold expected_types; rewrite map_app, Hty0; cbn;
        now rewrite L1, L2).
  assert (Hids : Forall (fun c => ModelCall.message_id c
                                  = Some (p_message_id p))
                   (calls0 ++ [llm; tts]))
    by (apply Forall_app; split; [exact Hid0 | now repeat constructor]).
  assert (Hfiles : is_text msg = false ->
             Message.audio_path_or_b64 (p_message_row p)
             = p_audio_path_or_b64 p
             /\ forall path,
                  p_audio_path_or_b64 p = Some path ->
                  (exists ext, path = u "media/" ++ p_message_id p ++ ext
                               /\ (ext = u ".mp3" \/ ext = u ".wav")
                               /\ (ext = u ".mp3" <-> mp3_mime env msg))
                  /\ exists b, audio_bytes msg = Some b
                               /\ file_get (media w1) path = Some b).
  { intros Et. destruct (Hin Et) as [Hrow Hpaths]. split; [exact Hrow|].
    intros path Epath.
    destruct (Hpaths path Epath) as [Hne [Hshape [b [Hb Hget]]]].
    split; [exact Hshape|]. exists b. split; [exact Hb|].
    now rewrite (Hkeep path Hne). }
  subst tr.
  destruct (commit_fault env (commit_ctr w)) as [e|];
    destruct Hrun as [Hrun Hdb]; rewrite Hrun in Hpost.
  - exists (set_uow w1 (uow wp)). cbv zeta.
    split; [exact Hpf|]. split; [exact Hcalls|]. split; [exact Hids|].
    split; [exact Hfiles|]. split; [exact Hnew|]. split; [exact C1|].
    split; [reflexivity|]. split; [exact Quow|].
    split; [exact Hpost | exact Hdb].
  - match type of Hpost with
    | _ = (_, ?W) => exists W
    end. cbv zeta.
    split; [exact Hpf|]. split; [exact Hcalls|]. split; [exact Hids|].
    split; [exact Hfiles|]. split; [exact Hnew|]. split; [exact C1|].
    split; [|split; [exact Quow|]].
    + cbn [media set_uow]. unfold after_dispatch.
      destruct (served (crm_transport env)); [|reflexivity].
      apply mcp_handler_media.
    + split; [exact Hpost|]. split; [exact Hdb | reflexivity].
Qed.

End PipelineFacts.

(** ** What a post leaves behind *)

Module PostFacts.
Import ToolsFacts SessionsFacts ConversationFacts McpFacts PipelineFacts.

Lemma after_dispatch_keeps env sid c w :
  pipeline_tables_kept w (after_dispatch env sid c w).
Proof.
  unfold after_dispatch. destruct (served (crm_transport env)).
  - apply mcp_handler_keeps.
  - now repeat split.
Qed.

Lemma heard_cases msg :
  heard msg = EMPTY_TRANSCRIPT \/ heard msg = PENDING_TRANSCRIPT.
Proof. unfold heard. destruct (audio_bytes msg) as [[|x b]|]; tauto. Qed.

(** Neither report of the speech stage holds a key of the responder. *)
Lemma sentinel_reply lower t :
  t = EMPTY_TRANSCRIPT \/ t = PENDING_TRANSCRIPT ->
  lower t = t ->
  generate_reply lower t = FALLBACK_REPLY.
Proof.
  intros Ht Hl. unfold generate_reply. rewrite Hl.
  destruct Ht as [-> | ->]; vm_compute; reflexivity.
Qed.

(** X7.  An audio post to an existing session whose payload is absent,
    empty or valid base64, when the commit succeeds.  The transcript is
    decided by the payload alone: the pending-model report when it
    decodes to at least one byte, the empty report otherwise, whether
    or not the audio could be written to the media directory.  The
    reply is the answer of the responder to this report, which is the
    fallback reply when lower-casing leaves the two reports alone: an
    audio post is never asked to repeat.  If the message row names a
    saved input, it is media/<message id>.mp3 when the mime type names
    mp3 and media/<message id>.wav otherwise, and at the end of the
    post the file holds the decoded payload; if the summary names a
    reply audio, it is media/reply_<message id>.wav and the file holds
    the synthesized silence. *)
Theorem audio_post_outcome env (sid : pystr) (msg : MessageReq.t)
    (w : World) (s : Session.t) :
  is_audio msg = true ->
  session_is w sid s ->
  malformed_audio msg = false ->
  commit_fault env (commit_ctr w) = None ->
  exists (r : MessageSummary) (row : Message.t) (w' : World),
    post_message env sid msg w = (Ok r, w')
    /\ transcript r = Some (heard msg)
    /\ incoming_text r = None
    /\ reply_text r = Some (generate_reply (lower env) (heard msg))
    /\ (lower env EMPTY_TRANSCRIPT = EMPTY_TRANSCRIPT ->
        lower env PENDING_TRANSCRIPT = PENDING_TRANSCRIPT ->
        reply_text r = Some FALLBACK_REPLY)
    /\ messages (db w') = messages (db w) ++ [row]
    /\ Message.id row = message_id r
    /\ Message.text row = None
    /\ Message.transcript row = Some (heard msg)
    /\ Message.reply_text row = reply_text r
    /\ Message.reply_audio_path_or_b64 row = reply_audio_path r
    /\ (forall path,
          Message.audio_path_or_b64 row = Some path ->
          (exists ext, path = u "media/" ++ message_id r ++ ext
                       /\ (ext = u ".mp3" \/ ext = u ".wav")
                       /\ (ext = u ".mp3" <-> mp3_mime env msg))
          /\ exists b, audio_bytes msg = Some b
                       /\ file_get (media w') path = Some b)
    /\ (forall path,
          reply_audio_path r = Some path ->
          path = reply_path (message_id r)
          /\ file_get (media w') path = Some tts_silence).
Proof.
  intros Ha Hs Hm Hc.
  assert (Hty : is_text msg || is_audio msg = true)
    by (rewrite Ha; apply orb_true_r).
  assert (Et : is_text msg = false).
  { destruct (is_text msg) eqn:Et; [|reflexivity].
    now rewrite (text_is_not_audio msg Et) in Ha. }
  destruct (post_message_trace env Hty Hs (or_intror Hm))
    as [p [calls [w1 [w' [Hpf [_ [_ [Hfiles [Hnew [_ [Hmedia [_ Hrun]]]]]]]]]]]].
  rewrite Hc, Ha in Hrun. cbv zeta in Hrun.
  destruct Hrun as [Hpost [Hdb1 Hdb']].
  destruct (Hfiles Et) as [Hrow Hpaths]. clear Hfiles.
  destruct Hpf as [Hid [_ [_ [Htext [_ Hpa]]]]]. destruct (Hpa Et) as [Hinc _].
  assert (Hreply : generate_reply (lower env)
                     (user_text_of msg p (heard msg))
                   = generate_reply (lower env) (heard msg))
    by (unfold user_text_of; now rewrite Et, str_or_nil).
  do 3 eexists. split; [exact Hpost|].
  cbn [summary transcript incoming_text reply_text message_id
       reply_audio_path c_prepared c_message_row committed_of].
  unfold final_row. rewrite Ha.
  cbn [set_reply set_transcript Message.transcript Message.reply_text
       Message.reply_audio_path_or_b64 Message.id Message.text
       Message.audio_path_or_b64].
  rewrite Hreply.
  split; [reflexivity|]. split; [exact Hinc|]. split; [reflexivity|].
  split.
  { intros L1 L2. f_equal. apply sentinel_reply; [apply heard_cases|].
    destruct (heard_cases msg) as [-> | ->]; assumption. }
  split.
  { destruct (after_dispatch_keeps env sid
                (committed_of env msg p s (heard msg)
                   (tts_path_of env (p_message_id p)) calls) w1)
      as [_ [Km _]].
    rewrite Hdb', Km, Hdb1.
    destruct (flush_message_and_calls (db w)
                (final_row env msg p (heard msg)
                   (tts_path_of env (p_message_id p))) calls)
      as [_ [Fm _]].
    rewrite Fm. unfold final_row. rewrite Ha, Hreply. reflexivity. }
  split; [exact Hid|].
  split; [change (Message.text (p_message_row p) = None); now rewrite Htext|].
  do 3 (split; [reflexivity|]). split.
  - intros path Epath.
    change (Message.audio_path_or_b64 (p_message_row p) = Some path)
      in Epath.
    rewrite Hrow in Epath.
    destruct (Hpaths path Epath) as [Hshape [b [Hb Hget]]].
    split; [exact Hshape|]. exists b. now rewrite Hmedia.
  - intros path Epath. rewrite Hmedia, (Hnew path Epath).
    split; [|reflexivity].
    unfold tts_path_of in Epath.
    destruct (write_fault env (reply_path (p_message_id p)));
      [discriminate | now injection Epath].
Qed.

Lemma audio_post_outcome_witness :
  exists r w',
    post_message demo_env (u "s-1") (audio_msg (Some (u "aGVsbG8=")))
      demo_world = (Ok r, w')
    /\ audio_bytes (audio_msg (Some (u "aGVsbG8="))) = Some (u "hello")
    /\ transcript r = Some PENDING_TRANSCRIPT
    /\ reply_text r = Some FALLBACK_REPLY.
Proof.
  destruct (audio_post_outcome demo_env (u "s-1")
              (audio_msg (Some (u "aGVsbG8="))) demo_world demo_session
              eq_refl eq_refl eq_refl eq_refl)
    as [r [row [w' [Hpost [Htr [_ [_ [Hfb _]]]]]]]].
  exists r, w'. split; [exact Hpost|]. split; [reflexivity|].
  split; [exact Htr | exact (Hfb eq_refl eq_refl)].
Defined.

(** *** The rows of the dispatch *)

Lemma str_or_twice a d a' :
  truthy_str d = true ->
  str_or (Some (str_or (Some a) d)) a' = str_or (Some a) d.
Proof.
  intros Hd. unfold str_or at 1.
  assert (H : truthy_str (str_or (Some a) d) = true)
    by (unfold str_or; destruct (truthy_str a) eqn:E; assumption).
  now rewrite H.
Qed.

(** X8.  What the best-effort dispatch of a post writes.  After the
    commit of the message the handler posts a billing_query record
    whose query is the transcript.  The endpoint serves it when the
    transport delivers it (or times out after serving); it accepts it
    exactly when the transcript is not empty.  So: with an empty
    transcript (a text post without text) or an unserved request no
    CRMRecord or ToolCall is written; otherwise, when the commit of the
    endpoint succeeds, exactly one CRMRecord (pending, billing_query,
    for this session, customer the session's or "cust_demo", query the
    transcript) and one ToolCall (accepted) are appended; when it
    fails, no CRMRecord and at most a ToolCall with status failed.  In
    every case the post itself is answered. *)
Theorem post_dispatch_effects env (sid : pystr) (msg : MessageReq.t)
    (w : World) (s : Session.t) :
  is_text msg || is_audio msg = true ->
  session_is w sid s ->
  is_audio msg = false \/ malformed_audio msg = false ->
  commit_fault env (commit_ctr w) = None ->
  exists (r : MessageSummary) (q : pystr) (w' : World),
    post_message env sid msg w = (Ok r, w')
    /\ transcript r = Some q
    /\ q = (if is_text msg then str_or (MessageReq.text msg) []
            else heard msg)
    /\ if served (crm_transport env) && truthy_str q then
         match commit_fault env (S (commit_ctr w)) with
         | None =>
             exists crm tool rec,
               crm_records (db w') = crm_records (db w) ++ [crm]
               /\ tool_calls (db w') = tool_calls (db w) ++ [tool]
               /\ CRMRecord.session_id crm = Some sid
               /\ CRMRecord.customer_id crm
                  = Some (str_or (Some (Session.customer_id s))
                            (u "cust_demo"))
               /\ CRMRecord.scenario crm = Some (u "billing_query")
               /\ CRMRecord.status crm = Some (u "pending")
               /\ CRMRecord.record_json crm = Some rec
               /\ dict_get rec (u "query") = Some (JStr q)
               /\ missing_fields rec = []
               /\ ToolCall.session_id tool = Some sid
               /\ ToolCall.status tool = Some (u "accepted")
         | Some _ =>
             crm_records (db w') = crm_records (db w)
             /\ (tool_calls (db w') = tool_calls (db w)
                 \/ exists tool,
                      tool_calls (db w') = tool_calls (db w) ++ [tool]
                      /\ ToolCall.session_id tool = Some sid
                      /\ ToolCall.status tool = Some (u "failed"))
         end
       else
         crm_records (db w') = crm_records (db w)
         /\ tool_calls (db w') = tool_calls (db w).
Proof.
  intros Hty Hs Hok Hc.
  destruct (post_message_trace env Hty Hs Hok)
    as [p [calls [w1 [w' [Hpf [_ [_ [_ [_ [Hctr [_ [_ Hrun]]]]]]]]]]]].
  rewrite Hc in Hrun. cbv zeta in Hrun.
  set (tr := if is_audio msg then heard msg else p_transcript p) in *.
  set (c := committed_of env msg p s tr
              (tts_path_of env (p_message_id p)) calls) in *.
  destruct Hrun as [Hpost [Hdb1 Hdb']].
  destruct (flush_message_and_calls (db w)
              (final_row env msg p tr (tts_path_of env (p_message_id p)))
              calls) as [Fs [_ [_ [Fc Ft]]]].
  rewrite <- Hdb1 in Fs, Fc, Ft.
  exists (summary sid c), tr, w'. split; [exact Hpost|]. split.
  { cbn. unfold final_row, tr.
    destruct (is_audio msg); [reflexivity|].
    now destruct Hpf as [_ [_ [H _]]]. }
  split.
  { unfold tr. destruct (is_text msg) eqn:Et.
    - rewrite (text_is_not_audio msg Et).
      destruct Hpf as [_ [_ [_ [_ [H _]]]]]. now destruct (H Et).
    - cbn in Hty. now rewrite Hty. }
  rewrite Hdb'. unfold after_dispatch.
  destruct (served (crm_transport env)); cbn [andb]; [|now split].
  pose proof (crm_payload_missing sid c) as Hmiss.
  change (c_transcript c) with tr in Hmiss.
  destruct (truthy_str tr) eqn:Htr.
  - assert (Hv : valid_call w1 (crm_payload sid c) s).
    { split; [reflexivity|]. split; [intros _; exact Hmiss|].
      cbn [crm_payload MCPPayload.session_id]. rewrite Fs. exact Hs. }
    destruct (mcp_valid_run env Hv) as [w2 [_ [_ Hm]]].
    rewrite Hctr in Hm.
    destruct (commit_fault env (S (commit_ctr w))) as [e|].
    + destruct Hm as [-> Hdb2]. cbn [snd].
      destruct (commit_fault env (S (S (commit_ctr w)))); rewrite Hdb2.
      * split; [exact Fc | left; exact Ft].
      * cbn. rewrite Fc, Ft. split; [reflexivity|]. right.
        eexists. split; [reflexivity|]. now split.
    + destruct Hm as [-> Hdb2]. cbn [snd]. rewrite Hdb2.
      exists (crm_row_of env w1 (crm_payload sid c) s),
        (tool_row_of env w1 (crm_payload sid c)),
        (dict_or_empty (MCPPayload.crm_record (crm_payload sid c))).
      cbn [flush fold_left insert_row crm_records tool_calls].
      rewrite Fc, Ft.
      split; [reflexivity|]. split; [reflexivity|].
      split; [reflexivity|]. split.
      { cbn [crm_row_of CRMRecord.customer_id crm_payload
             MCPPayload.customer_id].
        f_equal. now apply str_or_twice. }
      do 3 (split; [reflexivity|]).
      split; [reflexivity|]. split; [exact Hmiss | now split].
  - assert (Hne : missing_fields
                    (dict_or_empty
                       (MCPPayload.crm_record (crm_payload sid c))) <> [])
      by (rewrite Hmiss; discriminate).
    rewrite (mcp_missing env (crm_payload sid c) w1 eq_refl Hne).
    now split.
Qed.

Lemma post_dispatch_effects_witness :
  exists r w' crm,
    post_message demo_env (u "s-1") bill_msg demo_world = (Ok r, w')
    /\ crm_records (db w') = [crm]
    /\ CRMRecord.customer_id crm = Some (u "cust_123")
    /\ List.length (tool_calls (db w')) = 1.
Proof.
  destruct (post_dispatch_effects demo_env (u "s-1") bill_msg demo_world
              demo_session eq_refl eq_refl (or_introl eq_refl) eq_refl)
    as [r [q [w' [Hpost [_ [Hq Hrows]]]]]].
  subst q. cbn in Hrows.
  destruct Hrows as [crm [tool [rec [Hc [Ht [_ [Hcust _]]]]]]].
  exists r, w', crm. split; [exact Hpost|]. split; [exact Hc|].
  split; [exact Hcust|]. now rewrite Ht.
Defined.

(** *** Reading a post back *)

Lemma flat_map_ext_in {A B} (f g : A -> list B) l :
  (forall a, In a l -> f a = g a) -> flat_map f l = flat_map g l.
Proof.
  induction l as [|a l IH]; intros H; [reflexivity|].
  cbn. rewrite (H a (or_introl eq_refl)), IH; [reflexivity|].
  intros b Hb. apply H. now right.
Qed.

Lemma filter_none {A} (f : A -> bool) l :
  (forall a, In a l -> f a = false) -> filter f l = [].
Proof.
  induction l as [|a l IH]; intros H; [reflexivity|].
  cbn. rewrite (H a (or_introl eq_refl)). apply IH.
  intros b Hb. apply H. now right.
Qed.

(** The join after one more message with a new id and its model calls:
    the old rows of the session, then the new calls. *)
Lemma join_after_post st st' sid row calls :
  messages st' = messages st ++ [row] ->
  model_calls st' = model_calls st ++ calls ->
  Message.session_id row = sid ->
  Forall (fun c => ModelCall.message_id c = Some (Message.id row)) calls ->
  (forall m, In m (messages st) -> Message.id m <> Message.id row) ->
  (forall c, In c (model_calls st) ->
             ModelCall.message_id c <> Some (Message.id row)) ->
  join_model_calls st' sid = join_model_calls st sid ++ calls.
Proof.
  intros Hm Hc Hsid Hids Hfm Hfc. unfold join_model_calls.
  rewrite Hm, Hc, flat_map_app. clear Hm Hc. f_equal.
  - apply flat_map_ext_in. intros mc Hmc. rewrite filter_app. cbn [filter].
    assert (E : opt_str_eqb (ModelCall.message_id mc) (Message.id row)
                = false).
    { destruct (opt_str_eqb _ _) eqn:E; [|reflexivity].
      apply opt_str_eqb_eq in E. now elim (Hfc mc Hmc). }
    rewrite E. cbn [andb]. now rewrite app_nil_r.
  - induction Hids as [|mc calls Hid _ IH]; [reflexivity|].
    cbn [flat_map]. rewrite IH, filter_app. cbn [filter].
    rewrite Hid. cbn [opt_str_eqb]. rewrite str_eqb_refl, Hsid, str_eqb_refl.
    cbn [andb]. rewrite filter_none; [reflexivity|].
    intros m Hin. cbn [opt_str_eqb].
    assert (E : str_eqb (Message.id row) (Message.id m) = false)
      by (apply str_eqb_neq; intros E; now elim (Hfm m Hin)).
    now rewrite E.
Qed.

(** X9.  A post that is answered can be read back.  The summary is
    the stored message row, field by field.  When the message id is
    new (no stored message has it, no stored model call refers to it),
    the conversation of the session read in the world the post leaves
    shows the former messages of the session and the new row, and the
    former model calls of the session and exactly the calls logged for
    the new message, whatever the dispatch did. *)
Theorem posted_message_reads_back env (sid : pystr) (msg : MessageReq.t)
    (w : World) (s : Session.t) :
  is_text msg || is_audio msg = true ->
  session_is w sid s ->
  is_audio msg = false \/ malformed_audio msg = false ->
  commit_fault env (commit_ctr w) = None ->
  exists (r : MessageSummary) (row : Message.t) (calls : list ModelCall.t)
         (w' : World),
    post_message env sid msg w = (Ok r, w')
    /\ Message.id row = message_id r
    /\ Message.session_id row = session_id r
    /\ session_id r = sid
    /\ Message.text row = incoming_text r
    /\ Message.transcript row = transcript r
    /\ Message.reply_text row = reply_text r
    /\ Message.reply_audio_path_or_b64 row = reply_audio_path r
    /\ List.map ModelCall.model_type calls = expected_types msg
    /\ ((forall m, In m (messages (db w)) -> Message.id m <> message_id r) ->
        (forall c, In c (model_calls (db w)) ->
                   ModelCall.message_id c <> Some (message_id r)) ->
        exists msgs crm tools mcs,
          get_conversation sid w'
          = (Ok (Conversation s msgs crm tools mcs), w')
          /\ Permutation msgs
               (filter (fun m => str_eqb (Message.session_id m) sid)
                  (messages (db w)) ++ [row])
          /\ Permutation mcs (join_model_calls (db w) sid ++ calls)
          /\ ascending Message.created_at msgs
          /\ ascending ModelCall.created_at mcs).
Proof.
  intros Hty Hs Hok Hc.
  destruct (post_message_trace env Hty Hs Hok)
    as [p [calls [w1 [w' [Hpf [Hcalls [Hids [_ [_ [_ [_ [_ Hrun]]]]]]]]]]]].
  rewrite Hc in Hrun. cbv zeta in Hrun.
  set (tr := if is_audio msg then heard msg else p_transcript p) in *.
  set (audio := tts_path_of env (p_message_id p)) in *.
  set (c := committed_of env msg p s tr audio calls) in *.
  destruct Hrun as [Hpost [Hdb1 Hdb']].
  destruct (flush_message_and_calls (db w) (final_row env msg p tr audio)
              calls) as [Fs [Fm [Fc _]]].
  rewrite <- Hdb1 in Fs, Fm, Fc.
  destruct (after_dispatch_keeps env sid c w1) as [Ks [Km [Kc _]]].
  rewrite <- Hdb' in Ks, Km, Kc.
  rewrite Fs in Ks. rewrite Fm in Km. rewrite Fc in Kc.
  destruct Hpf as [Hid [Hsid [_ [Htext _]]]].
  assert (Rid : Message.id (final_row env msg p tr audio) = p_message_id p)
    by (unfold final_row; destruct (is_audio msg); exact Hid).
  assert (Rsid : Message.session_id (final_row env msg p tr audio) = sid)
    by (unfold final_row; destruct (is_audio msg); exact Hsid).
  assert (Rtext : Message.text (final_row env msg p tr audio)
                  = p_incoming_text p)
    by (unfold final_row; destruct (is_audio msg); exact Htext).
  exists (summary sid c), (final_row env msg p tr audio), calls, w'.
  split; [exact Hpost|]. split; [exact Rid|]. split; [exact Rsid|].
  split; [reflexivity|]. split; [exact Rtext|].
  do 3 (split; [reflexivity|]).
  split; [exact Hcalls|].
  cbn [summary message_id c c_prepared committed_of].
  intros Hfm Hfc.
  assert (Hs' : session_is w' sid s)
    by (unfold session_is in *; now rewrite Ks).
  rewrite (CreateFacts.get_conversation_run Hs').
  do 4 eexists. split; [reflexivity|].
  split; [|split; [|split]]; try apply order_by_ascending.
  - rewrite order_by_perm, Km, filter_app. cbn [filter].
    now rewrite Rsid, str_eqb_refl.
  - rewrite order_by_perm.
    rewrite (join_after_post (db w) (db w') sid
               (final_row env msg p tr audio) calls Km Kc Rsid);
      [reflexivity | | |]; rewrite Rid; assumption.
Qed.

Lemma posted_message_reads_back_witness :
  exists r w' msgs crm tools mcs,
    post_message demo_env (u "s-1") bill_msg demo_world = (Ok r, w')
    /\ get_conversation (u "s-1") w'
       = (Ok (Conversation demo_session msgs crm tools mcs), w')
    /\ List.map Message.id msgs = [message_id r]
    /\ List.length mcs = 2.
Proof.
  destruct (posted_message_reads_back demo_env (u "s-1") bill_msg demo_world
              demo_session eq_refl eq_refl (or_introl eq_refl) eq_refl)
    as [r [row [calls [w' [Hpost [Hid [_ [_ [_ [_ [_ [_ [Hty Hread]]]]]]]]]]]]].
  destruct (Hread (fun m (H : In m []) => False_ind _ H)
                  (fun c (H : In c []) => False_ind _ H))
    as [msgs [crm [tools [mcs [Hget [Pm [Pc _]]]]]]].
  exists r, w', msgs, crm, tools, mcs.
  split; [exact Hpost|]. split; [exact Hget|]. split.
  - apply Permutation_sym, Permutation_length_1_inv in Pm.
    rewrite Pm. cbn. now rewrite Hid.
  - rewrite (Permutation_length Pc). cbn.
    apply (f_equal (@List.length _)) in Hty.
    now rewrite length_map in Hty.
Defined.

(** *** Reading the record of the dispatch back *)

Lemma after_dispatch_accepted env sid c w1 s :
  served (crm_transport env) = true ->
  truthy_str (c_transcript c) = true ->
  session_is w1 sid s ->
  commit_fault env (commit_ctr w1) = None ->
  db (after_dispatch env sid c w1)
  = flush (db w1)
      [RCRMRecord (crm_row_of env w1 (crm_payload sid c) s);
       RToolCall (tool_row_of env w1 (crm_payload sid c))].
Proof.
  intros Hserved Htr Hs Hc. unfold after_dispatch. rewrite Hserved.
  assert (Hv : valid_call w1 (crm_payload sid c) s).
  { split; [reflexivity|]. split; [|exact Hs].
    intros _. now rewrite crm_payload_missing, Htr. }
  destruct (mcp_valid_run env Hv) as [w2 [_ [_ Hm]]].
  rewrite Hc in Hm. destruct Hm as [-> Hdb]. exact Hdb.
Qed.

(** X17.  From the post to the conversation through the CRM endpoint:
    when a post with a non-empty transcript is committed, the request
    to the endpoint is served and the endpoint's commit succeeds, the
    conversation of the session read afterwards lists, besides the
    former CRM records and tool calls of the session, exactly one new
    CRMRecord (pending, of this session) and one new ToolCall
    (accepted, of this session). *)
Theorem dispatched_record_reads_back env (sid : pystr) (msg : MessageReq.t)
    (w : World) (s : Session.t) :
  is_text msg || is_audio msg = true ->
  session_is w sid s ->
  is_audio msg = false \/ malformed_audio msg = false ->
  truthy_str (if is_text msg then str_or (MessageReq.text msg) []
              else heard msg) = true ->
  served (crm_transport env) = true ->
  commit_fault env (commit_ctr w) = None ->
  commit_fault env (S (commit_ctr w)) = None ->
  exists (r : MessageSummary) (w' : World) (crm : CRMRecord.t)
         (tool : ToolCall.t) msgs crms tools mcs,
    post_message env sid msg w = (Ok r, w')
    /\ get_conversation sid w'
       = (Ok (Conversation s msgs crms tools mcs), w')
    /\ Permutation crms
         (filter (fun c => opt_str_eqb (CRMRecord.session_id c) sid)
            (crm_records (db w)) ++ [crm])
    /\ Permutation tools
         (filter (fun t => opt_str_eqb (ToolCall.session_id t) sid)
            (tool_calls (db w)) ++ [tool])
    /\ CRMRecord.session_id crm = Some sid
    /\ CRMRecord.status crm = Some (u "pending")
    /\ CRMRecord.scenario crm = Some (u "billing_query")
    /\ ToolCall.session_id tool = Some sid
    /\ ToolCall.status tool = Some (u "accepted")
    /\ exists body,
         ToolCall.payload_json tool = Some body
         /\ dict_get body (u "session_id") = Some (JStr sid)
         /\ dict_get body (u "scenario") = Some (JStr (u "billing_query")).
Proof.
  intros Hty Hs Hok Htr Hserved Hc Hc'.
  destruct (post_message_trace env Hty Hs Hok)
    as [p [calls [w1 [w' [Hpf [_ [_ [_ [_ [Hctr [_ [_ Hrun]]]]]]]]]]]].
  rewrite Hc in Hrun. cbv zeta in Hrun.
  set (tr := if is_audio msg then heard msg else p_transcript p) in *.
  set (c := committed_of env msg p s tr
              (tts_path_of env (p_message_id p)) calls) in *.
  destruct Hrun as [Hpost [Hdb1 Hdb']].
  destruct (flush_message_and_calls (db w)
              (final_row env msg p tr (tts_path_of env (p_message_id p)))
              calls) as [Fs [_ [_ [Fc Ft]]]].
  rewrite <- Hdb1 in Fs, Fc, Ft.
  assert (Hs1 : session_is w1 sid s)
    by (unfold session_is in *; now rewrite Fs).
  assert (Htr' : truthy_str (c_transcript c) = true).
  { change (c_transcript c) with tr. unfold tr.
    destruct (is_text msg) eqn:Et.
    - rewrite (text_is_not_audio msg Et).
      destruct Hpf as [_ [_ [_ [_ [H _]]]]]. destruct (H Et) as [_ ->].
      exact Htr.
    - cbn in Hty. now rewrite Hty. }
  rewrite <- Hctr in Hc'.
  rewrite (after_dispatch_accepted env sid c w1 s Hserved Htr' Hs1 Hc')
    in Hdb'.
  set (crm := crm_row_of env w1 (crm_payload sid c) s) in *.
  set (tool := tool_row_of env w1 (crm_payload sid c)) in *.
  destruct (flush_crm_and_tool (db w1) crm tool) as [G1 [_ [_ [G4 G5]]]].
  rewrite <- Hdb' in G1, G4, G5. rewrite Fc in G4. rewrite Ft in G5.
  assert (Hs' : session_is w' sid s)
    by (unfold session_is in *; now rewrite G1).
  exists (summary sid c), w', crm, tool.
  rewrite (CreateFacts.get_conversation_run Hs').
  do 4 eexists. split; [exact Hpost|]. split; [reflexivity|].
  split; [|split].
  - rewrite order_by_perm, G4, filter_app. cbn [filter].
    cbn [crm crm_row_of CRMRecord.session_id crm_payload
         MCPPayload.session_id opt_str_eqb].
    now rewrite str_eqb_refl.
  - rewrite order_by_perm, G5, filter_app. cbn [filter].
    cbn [tool tool_row_of ToolCall.session_id crm_payload
         MCPPayload.session_id opt_str_eqb].
    now rewrite str_eqb_refl.
  - do 5 (split; [reflexivity|]).
    eexists. split; [reflexivity|]. split; reflexivity.
Qed.

Lemma dispatched_record_reads_back_witness :
  exists r w' msgs crms tools mcs,
    post_message demo_env (u "s-1") bill_msg demo_world = (Ok r, w')
    /\ get_conversation (u "s-1") w'
       = (Ok (Conversation demo_session msgs crms tools mcs), w')
    /\ List.map CRMRecord.status crms = [Some (u "pending")]
    /\ List.map ToolCall.status tools = [Some (u "accepted")].
Proof.
  destruct (dispatched_record_reads_back demo_env (u "s-1") bill_msg
              demo_world demo_session eq_refl eq_refl (or_introl eq_refl)
              eq_refl eq_refl eq_refl eq_refl)
    as [r [w' [crm [tool [msgs [crms [tools [mcs
         [Hpost [Hget [Pc [Pt [_ [Hcs [_ [_ [Hts _]]]]]]]]]]]]]]]]].
  exists r, w', msgs, crms, tools, mcs.
  split; [exact Hpost|]. split; [exact Hget|].
  apply Permutation_sym, Permutation_length_1_inv in Pc, Pt.
  rewrite Pc, Pt. cbn [List.map]. rewrite Hcs, Hts. split; reflexivity.
Defined.

(** *** The two stages that touch the media directory *)

(** X12.  Saving the incoming audio never fails and never touches the
    database.  It returns a path exactly when the payload is present,
    decodes and the file can be written; the path is then
    media/<message id>.mp3 when the mime type is given and its
    lower-cased text contains "mp3", media/<message id>.wav otherwise,
    the file holds the decoded payload and every other file is as
    before.  When it returns no path the world is unchanged. *)
Theorem save_incoming_audio_stores env (msg : MessageReq.t) (mid : pystr)
    (w : World) :
  exists r w',
    save_incoming_audio env msg mid w = (Ok r, w')
    /\ db w' = db w /\ uow w' = uow w /\ commit_ctr w' = commit_ctr w
    /\ entropy_ctr w' = entropy_ctr w /\ clock_ctr w' = clock_ctr w
    /\ match r with
       | Some path =>
           exists b ext,
             audio_bytes msg = Some b
             /\ path = u "media/" ++ mid ++ ext
             /\ (ext = u ".mp3" \/ ext = u ".wav")
             /\ (ext = u ".mp3" <-> mp3_mime env msg)
             /\ write_fault env path = None
             /\ file_get (media w') path = Some b
             /\ (forall q, q <> path ->
                           file_get (media w') q = file_get (media w) q)
       | None =>
           w' = w
           /\ (audio_bytes msg = None
               \/ exists ext, write_fault env (u "media/" ++ mid ++ ext)
                              <> None)
       end.
Proof. exact (save_incoming_audio_run env msg mid w). Qed.

(** X13.  The synthesis stub never fails, never touches the database
    and ignores the text it is given.  The file is
    media/reply_<name>.wav, where the name is the message id or, when
    none is given, "tts_" and six random bytes in hex; when the file
    can be written the path is returned, the file holds the
    synthesized silence and every other file is as before; when it
    cannot, the result is None and the media directory is unchanged. *)
Theorem run_tts_outcome env (text : pystr) (message_id : option pystr)
    (w : World) :
  let name := match message_id with
              | Some m => m
              | None => u "tts_" ++ urandom_hex env (entropy_ctr w)
              end in
  exists w',
    db w' = db w /\ uow w' = uow w /\ commit_ctr w' = commit_ctr w
    /\ (forall text', run_tts env text' message_id w
                      = run_tts env text message_id w)
    /\ match write_fault env (reply_path name) with
       | None =>
           run_tts env text message_id w = (Ok (Some (reply_path name)), w')
           /\ file_get (media w') (reply_path name) = Some tts_silence
           /\ (forall q, q <> reply_path name ->
                         file_get (media w') q = file_get (media w) q)
       | Some _ =>
           run_tts env text message_id w = (Ok None, w')
           /\ media w' = media w
       end.
Proof.
  intros name.
  assert (Hrun : forall t,
             run_tts env t message_id w
             = match write_fault env (reply_path name) with
               | None =>
                   (Ok (Some (reply_path name)),
                    set_media
                      (match message_id with
                       | Some _ => w
                       | None => tick_entropy w
                       end)
                      ((reply_path name, tts_silence)
                       :: file_del (media w) (reply_path name)))
               | Some _ =>
                   (Ok None,
                    match message_id with
                    | Some _ => w
                    | None => tick_entropy w
                    end)
               end).
  { intros t. subst name. destruct message_id as [m|].
    - apply run_tts_run.
    - unfold run_tts, try_except, bind, write_media, os_urandom_hex, ret.
      cbn [media tick_entropy].
      fold (reply_path (u "tts_" ++ urandom_hex env (entropy_ctr w))).
      now destruct (write_fault env _). }
  destruct (write_fault env (reply_path name)) as [f|] eqn:Ef.
  - exists (match message_id with Some _ => w | None => tick_entropy w end).
    split; [now destruct message_id|]. split; [now destruct message_id|].
    split; [now destruct message_id|].
    split; [intros t; now rewrite !Hrun|].
    split; [apply Hrun | now destruct message_id].
  - eexists. split; [|split; [|split; [|split; [|split; [apply Hrun|]]]]];
      try (now destruct message_id).
    cbn [media set_media]. split.
    + rewrite file_get_written. now rewrite str_eqb_refl.
    + intros q Hq. rewrite file_get_written.
      assert (E : str_eqb (reply_path name) q = false)
        by (apply str_eqb_neq; congruence).
      now rewrite E.
Qed.


(** *** Every way a post can end *)

(** X14.  The outcomes of post_message, for every request, when
    session ids are unique.  It answers exactly when the type is text
    or audio, the session exists, the audio payload (if the type is
    audio) is absent, empty or valid base64, and the commit succeeds.
    Otherwise it raises, with the database unchanged: the structured
    400 for another type, the structured 404 for a missing session,
    and two raw exceptions - the decoding error of a malformed audio
    payload and the storage error of a failed commit. *)
Theorem post_message_outcomes env (sid : pystr) (msg : MessageReq.t)
    (w : World) :
  session_ids_unique w ->
  match post_message env sid msg w with
  | (Ok r, w') =>
      is_text msg || is_audio msg = true
      /\ (exists s, session_is w sid s)
      /\ is_audio msg && malformed_audio msg = false
      /\ commit_fault env (commit_ctr w) = None
  | (Raise e, w') =>
      db w' = db w
      /\ ((e = BAD_TYPE /\ is_text msg || is_audio msg = false)
          \/ (e = HTTPException 404 (u "session not found")
              /\ is_text msg || is_audio msg = true
              /\ no_session w sid)
          \/ (e = ValueError (decode_error msg)
              /\ is_audio msg = true /\ malformed_audio msg = true
              /\ exists s, session_is w sid s)
          \/ (exists m,
                e = DBAPIError m
                /\ commit_fault env (commit_ctr w) = Some m
                /\ is_text msg || is_audio msg = true
                /\ (exists s, session_is w sid s)
                /\ is_audio msg && malformed_audio msg = false))
  end.
Proof.
  intros Hu.
  destruct (is_text msg || is_audio msg) eqn:Hty.
  2:{ assert (E : post_message env sid msg w = (Raise BAD_TYPE, w))
        by (unfold post_message; now rewrite Hty).
      rewrite E. split; [reflexivity|]. left. now split. }
  destruct (filter_unique_key Session.id
              (fun x => str_eqb (Session.id x) sid) sid (sessions (db w)) Hu)
    as [Hnone | [s Hone]].
  { intros x Hx. now apply str_eqb_eq in Hx. }
  - destruct (prepare_message_total env sid msg w)
      as [p [wp [Hp [[Qdb [Quow _]] _]]]].
    pose proof (post_message_unfold env sid msg w p wp Hty Hp) as Hpost.
    assert (Hn : no_session (set_uow wp []) sid)
      by (unfold no_session; cbn; now rewrite Qdb).
    rewrite (run_stages_no_session env msg p Hn) in Hpost.
    rewrite Hpost. split; [exact Qdb|]. right. left. now repeat split.
  - destruct (is_audio msg && malformed_audio msg) eqn:Ebad.
    + apply andb_true_iff in Ebad as [Ha Hm].
      destruct (audio_post_malformed_crash env Ha Hone Hm)
        as [w' [Hpost Hdb]].
      rewrite Hpost. split; [exact Hdb|]. right. right. left.
      split; [reflexivity|]. split; [exact Ha|]. split; [exact Hm|].
      now exists s.
    + assert (Hok : is_audio msg = false \/ malformed_audio msg = false)
        by (apply andb_false_iff; exact Ebad).
      destruct (post_message_outcome env Hty Hone Hok)
        as [p [calls [tr [audio [w' [_ [_ [_ [_ Hrun]]]]]]]]].
      destruct (commit_fault env (commit_ctr w)) as [m|] eqn:Ec.
      * destruct Hrun as [Hpost Hdb]. rewrite Hpost.
        split; [exact Hdb|]. right. right. right.
        exists m. split; [reflexivity|]. split; [reflexivity|].
        split; [reflexivity|]. split; [now exists s | reflexivity].
      * destruct Hrun as [Hpost _]. rewrite Hpost.
        split; [reflexivity|]. split; [now exists s|]. now split.
Qed.

Lemma post_message_outcomes_witness :
  exists w',
    post_message demo_env (u "s-1") (audio_msg (Some (u "abc"))) demo_world
    = (Raise (ValueError (u "Incorrect padding")), w')
    /\ db w' = db demo_world.
Proof.
  assert (Hu : session_ids_unique demo_world)
    by (repeat constructor; intros []).
  pose proof (post_message_outcomes demo_env (u "s-1")
                (audio_msg (Some (u "abc"))) demo_world Hu) as H.
  destruct (post_message demo_env (u "s-1") (audio_msg (Some (u "abc")))
              demo_world) as [[r|e] w'].
  - destruct H as [_ [_ [H _]]]. discriminate H.
  - exists w'. destruct H as [Hdb [[_ H] | [[_ [_ H]] | [[-> _] | H]]]].
    + discriminate H.
    + discriminate H.
    + split; [reflexivity | exact Hdb].
    + destruct H as [m [_ [H _]]]. discriminate H.
Defined.

End PostFacts.

(** ** The responder beyond its rules *)

Module ResponderMore.
Import ResponderFacts.

Lemma lstrip_app_blank x s : blank x = true -> lstrip (x ++ s) = lstrip s.
Proof.
  induction x as [|c x IH]; [reflexivity|].
  cbn [blank forallb app lstrip]. intros H.
  apply andb_true_iff in H as [Hc Hx]. rewrite Hc. now apply IH.
Qed.

Lemma rstrip_app_blank s y : blank y = true -> rstrip (s ++ y) = rstrip s.
Proof.
  intros Hy. unfold rstrip. rewrite rev_app_distr, lstrip_app_blank;
    [reflexivity | now rewrite blank_rev].
Qed.

Lemma strip_pad x s y :
  blank x = true -> blank y = true -> strip (x ++ s ++ y) = strip s.
Proof.
  intros Hx Hy. unfold strip. rewrite (lstrip_app_blank x _ Hx).
  destruct (lstrip_suffix s) as [ws [Es Hws]].
  rewrite Es at 1. rewrite <- app_assoc, (lstrip_app_blank ws _ Hws).
  pose proof (lstrip_head s) as Hh.
  destruct (lstrip s) as [|c r].
  - cbn [app]. now rewrite (lstrip_blank y Hy).
  - cbn [app lstrip]. rewrite Hh.
    change (c :: r ++ y) with ((c :: r) ++ y). now apply rstrip_app_blank.
Qed.

Lemma isspace_ascii_lower_char c :
  isspace (ascii_lower_char c) = isspace c.
Proof.
  unfold ascii_lower_char.
  destruct ((65 <=? c) && (c <=? 90))%N eqn:E; [|reflexivity].
  apply andb_true_iff in E as [E1 E2].
  apply N.leb_le in E1, E2. unfold isspace.
  repeat match goal with
         | |- context [(?a <=? ?b)%N] =>
             destruct (N.leb_spec a b); try lia
         | |- context [(?a =? ?b)%N] =>
             destruct (N.eqb_spec a b); try lia
         end; reflexivity.
Qed.

Lemma blank_ascii_lower s : blank (ascii_lower s) = blank s.
Proof.
  unfold blank, ascii_lower.
  induction s as [|c s IH]; [reflexivity|].
  cbn [List.map forallb]. now rewrite isspace_ascii_lower_char, IH.
Qed.

Lemma blank_app a b : blank (a ++ b) = blank a && blank b.
Proof. apply forallb_app. Qed.

(** X10.  The reply ignores ASCII case and surrounding whitespace:
    under a case table that lower-cases ASCII text as the interpreter
    does, two ASCII texts that differ only in the case of their letters
    get the same reply, also when one of them is wrapped in ASCII
    whitespace. *)
Theorem reply_ignores_case_and_padding (lower : pystr -> pystr)
    (a b ws ws' : pystr) :
  lowers_ascii lower ->
  is_ascii a = true -> is_ascii b = true ->
  is_ascii ws = true -> is_ascii ws' = true ->
  blank ws = true -> blank ws' = true ->
  ascii_lower a = ascii_lower b ->
  generate_reply lower (ws ++ a ++ ws') = generate_reply lower b.
Proof.
  intros Hl Ha Hb Hw Hw' Bw Bw' Eab.
  assert (Hpad : is_ascii (ws ++ a ++ ws') = true)
    by (unfold is_ascii in *; now rewrite !forallb_app, Hw, Ha, Hw').
  assert (Es : strip (lower (ws ++ a ++ ws')) = strip (lower b)).
  { rewrite (Hl _ Hpad), (Hl _ Hb), <- Eab.
    unfold ascii_lower. rewrite !map_app.
    apply strip_pad; now rewrite (blank_ascii_lower _). }
  assert (Eb : blank (ws ++ a ++ ws') = blank b).
  { rewrite !blank_app, Bw, Bw', andb_true_r. cbn [andb].
    now rewrite <- (blank_ascii_lower a), <- (blank_ascii_lower b), Eab. }
  unfold generate_reply. rewrite !blank_test. cbv zeta.
  now rewrite Es, Eb.
Qed.

Lemma reply_ignores_case_and_padding_witness :
  generate_reply ascii_lower (u "  " ++ u "I want my MONEY Back" ++ [10%N])
  = generate_reply ascii_lower (u "i want my money back").
Proof.
  apply (reply_ignores_case_and_padding ascii_lower
           (u "I want my MONEY Back") (u "i want my money back")
           (u "  ") [10%N]); try reflexivity.
  intros s _. reflexivity.
Defined.

Lemma occurs_shorter k k' s : occurs (k ++ k') s -> occurs k s.
Proof.
  intros [a [b ->]]. exists a, (k' ++ b). now rewrite <- app_assoc.
Qed.

Lemma contains_shorter k k' s :
  contains (k ++ k') s = true -> contains k s = true.
Proof. rewrite !contains_spec. apply occurs_shorter. Qed.

Lemma orb_absorb (x y : bool) : (x = true -> y = true) -> x || y = y.
Proof. destruct x, y; intuition discriminate. Qed.

(** X11.  Two of the seven billing keys never decide a reply: a text
    with "charges" has "charge" and a text with "fees" has "fee", so
    for every case table and every text the reply is the one of the
    ordered rules with the five keys bill, charge, amount, invoice and
    fee. *)
Theorem redundant_billing_keys (lower : pystr -> pystr) (text : pystr) :
  generate_reply lower text
  = if blank text then ASK_REPEAT
    else if existsb (fun k => contains k (lower text))
              [u "refund"; u "money back"]
         then REFUND_REPLY
         else if existsb (fun k => contains k (lower text))
                   [u "bill"; u "charge"; u "amount"; u "invoice"; u "fee"]
              then BILLING_REPLY
              else FALLBACK_REPLY.
Proof.
  unfold generate_reply. rewrite blank_test.
  destruct (blank text); [reflexivity|].
  cbv zeta. cbn [existsb].
  rewrite !key_contains_strip by (simpl; tauto).
  rewrite !orb_false_r.
  set (s := lower text).
  assert (H1 : contains (u "charges") s = true -> contains (u "charge") s = true)
    by apply (contains_shorter (u "charge") (u "s")).
  assert (H2 : contains (u "fees") s = true -> contains (u "fee") s = true)
    by apply (contains_shorter (u "fee") (u "s")).
  destruct (contains (u "refund") s || contains (u "money back") s);
    [reflexivity|].
  replace (contains (u "bill") s || contains (u "charge") s
           || contains (u "charges") s || contains (u "amount") s
           || contains (u "invoice") s || contains (u "fees") s
           || contains (u "fee") s)
    with (contains (u "bill") s
          || (contains (u "charge") s
              || (contains (u "amount") s
                  || (contains (u "invoice") s || contains (u "fee") s))));
    [reflexivity|].
  destruct (contains (u "bill") s), (contains (u "charge") s),
    (contains (u "charges") s), (contains (u "amount") s),
    (contains (u "invoice") s), (contains (u "fees") s),
    (contains (u "fee") s); try reflexivity;
    try (now specialize (H1 eq_refl)); now specialize (H2 eq_refl).
Qed.

End ResponderMore.

(** ** Primary keys *)

Module KeyFacts.
Import ToolsFacts SessionsFacts ConversationFacts McpFacts PipelineFacts
  PostFacts.

(** *** No handler takes back a draw *)

Lemma mono_ret {A} (a : A) : mono (ret a).
Proof. intros w. cbn. lia. Qed.

Lemma mono_raise {A} e : mono (@raise A e).
Proof. intros w. cbn. lia. Qed.

Lemma mono_bind {A B} (c : M A) (k : A -> M B) :
  mono c -> (forall a, mono (k a)) -> mono (bind c k).
Proof.
  intros Hc Hk w. unfold bind. specialize (Hc w).
  destruct (c w) as [[a|e] w1]; cbn in *; [|exact Hc].
  specialize (Hk a w1). lia.
Qed.

Lemma mono_try {A} (c : M A) (h : exn -> M A) :
  mono c -> (forall e, mono (h e)) -> mono (try_except c h).
Proof.
  intros Hc Hh w. unfold try_except. specialize (Hc w).
  destruct (c w) as [[a|e] w1]; cbn in *; [exact Hc|].
  specialize (Hh e w1). lia.
Qed.

Lemma mono_session {A} (c : M A) : mono c -> mono (with_session c).
Proof.
  intros Hc w. unfold with_session. specialize (Hc (set_uow w [])).
  destruct (c (set_uow w [])) as [r w1]. exact Hc.
Qed.

Lemma mono_gen_uuid env : mono (gen_uuid env).
Proof. intros w. cbn. lia. Qed.

Lemma mono_urandom env : mono (os_urandom_hex env).
Proof. intros w. cbn. lia. Qed.

Lemma mono_utcnow env : mono (datetime_utcnow env).
Proof. intros w. cbn. lia. Qed.

Lemma mono_now_iso env : mono (now_iso env).
Proof. intros w. cbn. lia. Qed.

Lemma mono_b64decode s : mono (base64_b64decode s).
Proof.
  intros w. unfold base64_b64decode. destruct (b64decode s); cbn; lia.
Qed.

Lemma mono_write_media env path c : mono (write_media env path c).
Proof.
  intros w. unfold write_media. destruct (write_fault env path); cbn; lia.
Qed.

Lemma mono_path_exists path : mono (os_path_exists path).
Proof. intros w. cbn. lia. Qed.

Lemma mono_path_getsize path : mono (os_path_getsize path).
Proof.
  intros w. unfold os_path_getsize.
  destruct (file_get (media w) path); cbn; lia.
Qed.

Lemma mono_db_add r : mono (db_add r).
Proof. intros w. cbn. lia. Qed.

Lemma mono_db_commit env : mono (db_commit env).
Proof.
  intros w. unfold db_commit.
  destruct (commit_fault env (commit_ctr w)); cbn; lia.
Qed.

Lemma mono_db_select {A} (table : Store -> list A) f :
  mono (db_select table f).
Proof. intros w. cbn. lia. Qed.

Lemma mono_one_or_none {A} (rows : list A) : mono (one_or_none rows).
Proof. intros w. destruct rows as [|a [|b l]]; cbn; lia. Qed.

Create HintDb mono.
#[local] Hint Resolve mono_ret mono_raise mono_session mono_gen_uuid
  mono_urandom mono_utcnow mono_now_iso mono_b64decode mono_write_media
  mono_path_exists mono_path_getsize mono_db_add mono_db_commit
  mono_db_select mono_one_or_none : mono.

Ltac mono_auto :=
  repeat first
    [ solve [auto with mono]
    | apply mono_bind; [|intros]
    | apply mono_try; [|intros]
    | apply mono_session
    | match goal with
      | |- mono (if ?b then _ else _) => destruct b
      | |- mono (match ?x with _ => _ end) => destruct x
      end
    | progress cbv zeta ].

Lemma mono_run_asr source mime : mono (run_asr source mime).
Proof. unfold run_asr. mono_auto. Qed.

Lemma mono_run_tts env text mid : mono (run_tts env text mid).
Proof. unfold run_tts. mono_auto. Qed.

Lemma mono_save_incoming_audio env msg mid :
  mono (save_incoming_audio env msg mid).
Proof. unfold save_incoming_audio. mono_auto. Qed.

#[local] Hint Resolve mono_run_asr mono_run_tts mono_save_incoming_audio
  : mono.

Lemma mono_prepare_message env sid msg : mono (prepare_message env sid msg).
Proof. unfold prepare_message. mono_auto. Qed.

Lemma mono_asr_stage env msg p : mono (asr_stage env msg p).
Proof. unfold asr_stage. mono_auto. Qed.

Lemma mono_llm_stage env p t : mono (llm_stage env p t).
Proof. unfold llm_stage. mono_auto. Qed.

Lemma mono_tts_stage env p t : mono (tts_stage env p t).
Proof. unfold tts_stage. mono_auto. Qed.

Lemma mono_add_model_calls l : mono (add_model_calls l).
Proof. induction l; cbn [add_model_calls]; mono_auto. Qed.

#[local] Hint Resolve mono_prepare_message mono_asr_stage mono_llm_stage
  mono_tts_stage mono_add_model_calls : mono.

Lemma mono_run_stages env sid msg p :
  mono (run_stages_and_commit env sid msg p).
Proof. unfold run_stages_and_commit. mono_auto. Qed.

Lemma mono_mcp_handler env payload : mono (mcp_handler env payload).
Proof. unfold mcp_handler. mono_auto. Qed.

#[local] Hint Resolve mono_run_stages mono_mcp_handler : mono.

Lemma mono_dispatch_crm env sid c : mono (dispatch_crm env sid c).
Proof. unfold dispatch_crm, client_post. mono_auto. Qed.

#[local] Hint Resolve mono_dispatch_crm : mono.

Lemma mono_post_message env sid msg : mono (post_message env sid msg).
Proof. unfold post_message. mono_auto. Qed.

Lemma mono_create_session env req : mono (create_session env req).
Proof. unfold create_session. mono_auto. Qed.

(** *** The keys of a flush *)

Lemma ids_insert st r :
  Permutation (ids_of (insert_row st r)) (row_id r :: ids_of st).
Proof.
  destruct r; unfold ids_of;
    cbn [insert_row row_id sessions messages model_calls crm_records
         tool_calls];
    rewrite ?map_app; cbn [List.map]; rewrite <- ?app_assoc; cbn [app];
    symmetry;
    repeat first
      [ apply Permutation_middle
      | apply Permutation_cons_append
      | etransitivity; [apply Permutation_middle|];
        apply Permutation_app_head ].
Qed.

Lemma ids_flush rows st :
  Permutation (ids_of (flush st rows)) (List.map row_id rows ++ ids_of st).
Proof.
  revert st. induction rows as [|r rows IH]; intros st; [reflexivity|].
  change (flush st (r :: rows)) with (flush (insert_row st r) rows).
  rewrite IH, ids_insert. cbn [List.map app].
  symmetry. apply Permutation_middle.
Qed.

Lemma keyed_extend env w w' rows ks :
  injective_ids env ->
  keyed env w ->
  db w' = flush (db w) rows ->
  List.map row_id rows = List.map (uuid4 env) ks ->
  NoDup ks ->
  Forall (fun k => entropy_ctr w <= k < entropy_ctr w') ks ->
  entropy_ctr w <= entropy_ctr w' ->
  keyed env w'.
Proof.
  intros Hinj [Hnd Hdr] Hdb Hids Hks Hrange Hle. unfold keyed.
  rewrite Hdb.
  assert (P : Permutation (List.map (uuid4 env) ks ++ ids_of (db w))
                (ids_of (flush (db w) rows)))
    by (rewrite <- Hids; symmetry; apply ids_flush).
  assert (Hold : Forall (drawn env w') (ids_of (db w))).
  { eapply Forall_impl; [|exact Hdr].
    intros x [i [Hi ->]]. exists i. split; [lia | reflexivity]. }
  rewrite Forall_forall in Hrange, Hdr.
  split.
  - apply (Permutation_NoDup P). apply NoDup_app.
    + clear - Hinj Hks. induction Hks as [|k ks Hk _ IH]; [constructor|].
      cbn. constructor; [|exact IH].
      intros Hin. apply in_map_iff in Hin as [j [E Hj]].
      apply Hinj in E. now subst j.
    + exact Hnd.
    + intros x Hnew Hold'. apply in_map_iff in Hnew as [k [<- Hk]].
      destruct (Hdr _ Hold') as [i [Hi E]]. apply Hinj in E.
      specialize (Hrange k Hk). lia.
  - apply (Permutation_Forall P). apply Forall_app. split; [|exact Hold].
    apply Forall_forall. intros x Hx.
    apply in_map_iff in Hx as [k [<- Hk]]. exists k.
    split; [apply (Hrange k Hk) | reflexivity].
Qed.

Lemma keyed_same env w w' :
  keyed env w -> db w' = db w -> entropy_ctr w <= entropy_ctr w' ->
  keyed env w'.
Proof.
  intros [Hnd Hdr] Hdb Hle. unfold keyed. rewrite Hdb.
  split; [exact Hnd|]. eapply Forall_impl; [|exact Hdr].
  intros x [i [Hi ->]]. exists i. split; [lia | reflexivity].
Qed.

(** The next identifier is not a stored key. *)
Lemma keyed_fresh env w x :
  injective_ids env -> keyed env w ->
  In x (ids_of (db w)) -> x <> uuid4 env (entropy_ctr w).
Proof.
  intros Hinj [_ Hdr] Hin E. rewrite Forall_forall in Hdr.
  destruct (Hdr x Hin) as [i [Hi Ei]]. rewrite Ei in E.
  apply Hinj in E. lia.
Qed.

(** *** The identifiers a post assigns *)

Lemma prepare_message_id env sid msg w p wp :
  prepare_message env sid msg w = (Ok p, wp) ->
  Message.id (p_message_row p) = uuid4 env (entropy_ctr w)
  /\ entropy_ctr wp = S (entropy_ctr w).
Proof.
  unfold prepare_message.
  unfold bind at 1. unfold gen_uuid at 1.
  unfold bind at 1. unfold now_iso, bind at 1, datetime_utcnow, ret at 1.
  destruct (is_text msg).
  - unfold bind, ret. intros H. injection H as <- <-. now split.
  - destruct (save_incoming_audio_run env msg (uuid4 env (entropy_ctr w))
                (tick_clock (tick_entropy w)))
      as [r [w1 [Hrun [_ [_ [_ [He _]]]]]]].
    rewrite (bind_ok (bind_ok Hrun)). unfold ret.
    intros H. injection H as <- <-. split; [reflexivity|].
    now rewrite He.
Qed.

Lemma asr_stage_inv env msg p w t call w' :
  asr_stage env msg p w = (Ok (t, call), w') ->
  quiet w w'
  /\ ModelCall.id call = uuid4 env (entropy_ctr w)
  /\ entropy_ctr w' = S (entropy_ctr w).
Proof.
  unfold asr_stage. unfold bind at 1. unfold datetime_utcnow at 1.
  match goal with
  | |- bind ?c _ _ = _ -> _ =>
      assert (Hsrc : (exists src, c (tick_clock w) = (Ok src, tick_clock w))
                     \/ exists e, c (tick_clock w) = (Raise e, tick_clock w))
  end.
  { destruct (opt_truthy (p_audio_path_or_b64 p));
      [left; eexists; reflexivity|].
    destruct (opt_truthy (MessageReq.audio_base64 msg));
      [|left; eexists; reflexivity].
    unfold bind, base64_b64decode.
    destruct (b64decode _); [left | right]; eexists; reflexivity. }
  destruct Hsrc as [[src Hsrc] | [e Hsrc]].
  - rewrite (bind_ok Hsrc).
    destruct (run_asr_total src (str_or (MessageReq.mime msg) (u "audio/wav"))
                (tick_clock w)) as [t' [Ht _]].
    rewrite (bind_ok Ht).
    unfold bind, gen_uuid, now_iso, datetime_utcnow, bind, ret.
    intros H. injection H as <- <- <-.
    split; [quiet_now|]. now split.
  - rewrite (bind_raise Hsrc). discriminate.
Qed.

Lemma llm_stage_inv env p text w reply call w' :
  llm_stage env p text w = (Ok (reply, call), w') ->
  quiet w w'
  /\ ModelCall.id call = uuid4 env (entropy_ctr w)
  /\ entropy_ctr w' = S (entropy_ctr w).
Proof.
  unfold llm_stage, bind, gen_uuid, now_iso, datetime_utcnow, bind, ret.
  intros H. injection H as <- <- <-. split; [quiet_now|]. now split.
Qed.

Lemma tts_stage_inv env p reply w path call w' :
  tts_stage env p reply w = (Ok (path, call), w') ->
  quiet w w'
  /\ ModelCall.id call = uuid4 env (entropy_ctr w)
  /\ entropy_ctr w' = S (entropy_ctr w).
Proof.
  unfold tts_stage.
  unfold bind at 1. unfold datetime_utcnow at 1.
  unfold bind at 1. rewrite run_tts_run.
  destruct (write_fault env (reply_path (p_message_id p)));
    unfold bind, gen_uuid, now_iso, datetime_utcnow, bind, ret;
    intros H; injection H as <- <- <-;
    (split; [quiet_now|]); now split.
Qed.

Lemma run_stages_inv env sid msg p w c w1 :
  run_stages_and_commit env sid msg p w = (Ok c, w1) ->
  uow w = [] ->
  db w1 = flush (db w)
            (RMessage (c_message_row c)
             :: List.map RModelCall (c_model_calls c))
  /\ Message.id (c_message_row c) = Message.id (p_message_row p)
  /\ List.map ModelCall.id (c_model_calls c)
     = List.map (uuid4 env)
         (seq (entropy_ctr w) (List.length (c_model_calls c)))
  /\ entropy_ctr w1 = entropy_ctr w + List.length (c_model_calls c).
Proof.
  intros H Hu. unfold run_stages_and_commit in H.
  unfold bind at 1 in H. unfold db_select at 1 in H.
  destruct (filter _ (sessions (db w))) as [|s [|s' l]];
    unfold bind at 1 in H; cbn [one_or_none ret raise] in H;
    try discriminate.
  (* 1) ASR *)
  match type of H with
  | bind ?b _ _ = _ =>
      destruct (b w) as [[[[tr row] calls0]|e] w0] eqn:Ha;
        [rewrite (bind_ok Ha) in H | rewrite (bind_raise Ha) in H;
                                     discriminate]
  end.
  assert (Hasr : quiet w w0
                 /\ Message.id row = Message.id (p_message_row p)
                 /\ List.map ModelCall.id calls0
                    = List.map (uuid4 env)
                        (seq (entropy_ctr w) (List.length calls0))
                 /\ entropy_ctr w0 = entropy_ctr w + List.length calls0).
  { destruct (is_audio msg).
    - destruct (asr_stage env msg p w) as [[[t call]|e] wa] eqn:Hs;
        [rewrite (bind_ok Hs) in Ha | rewrite (bind_raise Hs) in Ha;
                                      discriminate].
      unfold ret in Ha. injection Ha as <- <- <- <-.
      destruct (asr_stage_inv env msg p w t call wa Hs) as [Hq [Hid He]].
      split; [exact Hq|]. split; [reflexivity|]. cbn.
      split; [now rewrite Hid | lia].
    - unfold ret in Ha. injection Ha as <- <- <- <-.
      split; [apply quiet_refl|]. split; [reflexivity|]. cbn.
      split; [reflexivity | lia]. }
  destruct Hasr as [Hq0 [Hrow [Hids0 He0]]]. clear Ha.
  cbv beta iota in H.
  (* 3) LLM *)
  match type of H with
  | bind ?b _ _ = _ =>
      destruct (b w0) as [[[reply llm]|e] w2] eqn:Hl;
        [rewrite (bind_ok Hl) in H | rewrite (bind_raise Hl) in H;
                                     discriminate]
  end.
  destruct (llm_stage_inv _ _ _ _ _ _ _ Hl) as [Hq2 [Hid2 He2]]. clear Hl.
  cbv beta iota in H.
  (* 4) TTS *)
  match type of H with
  | bind ?b _ _ = _ =>
      destruct (b w2) as [[[path tts]|e] w3] eqn:Ht;
        [rewrite (bind_ok Ht) in H | rewrite (bind_raise Ht) in H;
                                     discriminate]
  end.
  destruct (tts_stage_inv _ _ _ _ _ _ _ Ht) as [Hq3 [Hid3 He3]]. clear Ht.
  cbv beta iota in H.
  (* 5) the commit *)
  pose proof (quiet_trans (quiet_trans Hq0 Hq2) Hq3) as [Qdb [Quow Qc]].
  unfold bind at 1 in H. unfold db_add at 1 in H.
  unfold bind at 1 in H. rewrite add_model_calls_run in H.
  unfold bind, db_commit, ret in H. cbn [commit_ctr set_uow uow db] in H.
  rewrite Quow, Hu, Qdb in H.
  destruct (commit_fault env (commit_ctr w3)); [discriminate|].
  injection H as <- <-.
  cbn [c_message_row c_model_calls db set_db set_uow tick_commit
       entropy_ctr app].
  split; [reflexivity|]. split; [exact Hrow|].
  rewrite !length_app, !map_app, !seq_app, !map_app. cbn [List.length seq List.map].
  split.
  - rewrite Hids0, Hid2, Hid3, He2, He0. do 3 f_equal. f_equal. lia.
  - lia.
Qed.

Lemma post_message_ok_inv env sid msg w r w' :
  post_message env sid msg w = (Ok r, w') ->
  exists p wp c w1,
    prepare_message env sid msg w = (Ok p, wp)
    /\ run_stages_and_commit env sid msg p (set_uow wp []) = (Ok c, w1)
    /\ w' = set_uow (after_dispatch env sid c w1) (uow wp).
Proof.
  intros H.
  assert (Hty : is_text msg || is_audio msg = true).
  { unfold post_message in H.
    destruct (is_text msg || is_audio msg); [reflexivity | discriminate]. }
  destruct (prepare_message_total env sid msg w) as [p [wp [Hp _]]].
  pose proof (post_message_unfold env sid msg w p wp Hty Hp) as Hpost.
  destruct (run_stages_and_commit env sid msg p (set_uow wp []))
    as [[c|e] w1] eqn:Hr; rewrite Hpost in H; [|discriminate].
  injection H as _ <-. now exists p, wp, c, w1.
Qed.

(** *** The handlers keep the keys unique *)

Lemma mcp_valid_entropy env {w payload s} :
  valid_call w payload s ->
  entropy_ctr (snd (mcp_handler env payload w)) = S (S (entropy_ctr w)).
Proof.
  intros [Hscen [Hmiss Hsel]].
  unfold mcp_handler. rewrite Hscen. cbn [negb].
  match goal with
  | |- entropy_ctr (snd (bind ?c _ w)) = _ =>
      assert (Hv : c w = (Ok tt, w))
  end.
  { destruct (MCPPayload.scenario payload) as [sc|] eqn:Esc; [|reflexivity].
    cbn [opt_str_eqb]. destruct (str_eqb sc (u "billing_query")) eqn:Eb;
      [|reflexivity].
    apply str_eqb_eq in Eb. subst sc. cbv zeta. now rewrite Hmiss. }
  rewrite (bind_ok Hv).
  unfold with_session, bind, db_select, gen_uuid, now_iso, datetime_utcnow,
    try_except, db_add, db_commit, bind, ret, raise.
  cbn [db set_uow uow]. rewrite Hsel. cbn [one_or_none ret].
  cbn [db uow media entropy_ctr clock_ctr commit_ctr set_uow set_db
       tick_entropy tick_clock tick_commit app].
  destruct (commit_fault env (commit_ctr w)); [|reflexivity].
  cbn [db uow media entropy_ctr clock_ctr commit_ctr set_uow set_db
       tick_entropy tick_clock tick_commit app].
  now destruct (commit_fault env (S (commit_ctr w))).
Qed.

Lemma keyed_mcp env payload w :
  injective_ids env -> keyed env w ->
  keyed env (snd (mcp_handler env payload w)).
Proof.
  intros Hinj Hk.
  destruct (well_formed_cases payload) as [Hw | [Hs | [Hb Hm]]].
  - destruct (filter (fun x => str_eqb (Session.id x)
                                 (MCPPayload.session_id payload))
                (sessions (db w))) as [|s [|s' l]] eqn:Hsel.
    + destruct (mcp_lookup_fails env payload w Hw) as [H _].
      now rewrite (H Hsel).
    + destruct Hw as [Hw1 Hw2].
      pose proof (mcp_valid_entropy env (conj Hw1 (conj Hw2 Hsel))) as He.
      destruct (mcp_valid_run env (conj Hw1 (conj Hw2 Hsel)))
        as [w' [_ [_ Hrun]]].
      destruct (commit_fault env (commit_ctr w)).
      * destruct Hrun as [E Hdb]. rewrite E in He |- *. cbn [snd] in *.
        destruct (commit_fault env (S (commit_ctr w))).
        -- apply (keyed_same env w w' Hk Hdb). lia.
        -- apply (keyed_extend env w w' _ [S (entropy_ctr w)] Hinj Hk Hdb);
             [reflexivity | repeat constructor; intros [] | | lia].
           repeat constructor; lia.
      * destruct Hrun as [E Hdb]. rewrite E in He |- *. cbn [snd] in *.
        apply (keyed_extend env w w' _ [entropy_ctr w; S (entropy_ctr w)]
                 Hinj Hk Hdb); [reflexivity | | | lia].
        -- repeat constructor; cbn; [lia | intros []].
        -- repeat constructor; lia.
    + destruct (mcp_lookup_fails env payload w Hw) as [_ H].
      now rewrite (H _ _ _ Hsel).
  - now rewrite (mcp_no_scenario env payload w Hs).
  - now rewrite (mcp_missing env payload w Hb Hm).
Qed.

Lemma keyed_post env sid msg w :
  injective_ids env -> keyed env w ->
  keyed env (snd (post_message env sid msg w)).
Proof.
  intros Hinj Hk.
  pose proof (mono_post_message env sid msg w) as Hmono.
  destruct (post_message env sid msg w) as [[r|e] w'] eqn:Hpost;
    cbn [snd] in *.
  - destruct (post_message_ok_inv env sid msg w r w' Hpost)
      as [p [wp [c [w1 [Hp [Hr ->]]]]]].
    destruct (prepare_message_id env sid msg w p wp Hp) as [Hid He].
    destruct (run_stages_inv env sid msg p (set_uow wp []) c w1 Hr eq_refl)
      as [Hdb [Hrow [Hids He1]]].
    cbn [entropy_ctr db set_uow] in Hdb, Hids, He1. rewrite He in Hids, He1.
    destruct (prepare_message_total env sid msg w)
      as [p' [wp' [Hp' [[Qdb _] _]]]].
    rewrite Hp in Hp'. injection Hp' as <- <-. rewrite Qdb in Hdb.
    assert (Hk1 : keyed env w1).
    { apply (keyed_extend env w w1 _
               (entropy_ctr w
                :: seq (S (entropy_ctr w)) (List.length (c_model_calls c)))
               Hinj Hk Hdb).
      - cbn [List.map row_id]. rewrite Hrow, Hid. f_equal.
        rewrite map_map. exact Hids.
      - constructor; [|apply seq_NoDup].
        intros Hin. apply in_seq in Hin. lia.
      - constructor; [lia|]. apply Forall_forall. intros k Hin.
        apply in_seq in Hin. lia.
      - lia. }
    assert (Hk2 : keyed env (after_dispatch env sid c w1)).
    { unfold after_dispatch. destruct (served (crm_transport env));
        [now apply keyed_mcp | exact Hk1]. }
    exact Hk2.
  - apply (keyed_same env w w' Hk); [|exact Hmono].
    pose proof (post_message_after_commit env sid msg w) as Hafter.
    pose proof (through_commit_atomic env sid msg w) as Hat.
    destruct (post_message_through_commit env sid msg w) as [[c|e'] w1].
    + destruct Hafter as [w2 [E _]]. rewrite E in Hpost. discriminate.
    + rewrite Hafter in Hpost. injection Hpost as _ <-. exact Hat.
Qed.

Lemma keyed_create env req w :
  injective_ids env -> keyed env w ->
  keyed env (snd (create_session env req w)).
Proof.
  intros Hinj Hk.
  unfold create_session, bind, gen_uuid, now_iso, datetime_utcnow, bind, ret,
    with_session, db_add, db_commit.
  cbn [db uow media entropy_ctr clock_ctr commit_ctr set_uow set_db
       tick_entropy tick_clock tick_commit app].
  destruct (commit_fault env (commit_ctr w)); cbn [snd].
  - apply (keyed_same env w _ Hk); [reflexivity | cbn; lia].
  - match goal with
    | |- keyed env ?W =>
        apply (keyed_extend env w W
                 [RSession (session_row_of env w req)] [entropy_ctr w]
                 Hinj Hk)
    end; [reflexivity | reflexivity | | | cbn; lia].
    + repeat constructor. intros [].
    + repeat constructor; cbn; lia.
Qed.

(** X18.  The handlers keep the primary keys unique.  If the
    identifier source never repeats itself and, in a world, the keys of
    all stored rows are pairwise different and were drawn from it, then
    the same holds in the world create_session, mcp_handler or
    post_message leaves, whatever the request and however the call
    ends: every row a handler stores carries an identifier drawn
    during the call, no two rows get the same one, and no handler takes
    back a draw.  In such a world session ids are unique, so the lookup
    by id never finds two sessions. *)
Theorem handlers_keep_keys_unique env (w : World) :
  injective_ids env ->
  keyed env w ->
  (forall req, keyed env (snd (create_session env req w)))
  /\ (forall payload, keyed env (snd (mcp_handler env payload w)))
  /\ (forall sid msg, keyed env (snd (post_message env sid msg w)))
  /\ (forall sid, keyed env (snd (get_conversation sid w)))
  /\ session_ids_unique w.
Proof.
  intros Hinj Hk.
  split; [intros req; now apply keyed_create|].
  split; [intros payload; now apply keyed_mcp|].
  split; [intros sid msg; now apply keyed_post|].
  split.
  - intros sid. unfold get_conversation, with_session, bind, db_select.
    cbn [db set_uow].
    destruct (filter _ (sessions (db w))) as [|s [|s' l]];
      cbn [one_or_none ret raise snd]; now rewrite session_restore.
  - destruct Hk as [Hnd _]. unfold session_ids_unique, ids_of in *.
    now apply NoDup_app_remove_r in Hnd.
Qed.

Lemma u_injective a b : u a = u b -> a = b.
Proof.
  unfold u. intros E.
  apply (f_equal (List.map ascii_of_N)) in E. rewrite !map_map in E.
  assert (Hid : forall l, List.map (fun x => ascii_of_N (N_of_ascii x)) l = l).
  { intros l. rewrite (map_ext _ (fun x => x)) by apply ascii_N_embedding.
    apply map_id. }
  rewrite !Hid in E.
  apply (f_equal string_of_list_ascii) in E.
  now rewrite !string_of_list_ascii_of_string in E.
Qed.

Lemma demo_ids_injective : injective_ids demo_env.
Proof.
  intros i j E. cbn [uuid4 demo_env] in E.
  apply app_inv_head, u_injective in E.
  apply (f_equal NilEmpty.int_of_string) in E.
  rewrite !NilEmpty.isi in E. injection E as E.
  apply (f_equal Z.of_int) in E. rewrite !DecimalZ.of_to in E.
  now apply Nat2Z.inj.
Qed.

Lemma handlers_keep_keys_unique_witness :
  keyed demo_env initial_world
  /\ keyed demo_env (snd (create_session demo_env demo_req initial_world))
  /\ keyed demo_env
       (snd (post_message demo_env (u "s-1") bill_msg initial_world)).
Proof.
  assert (Hk : keyed demo_env initial_world)
    by (split; constructor).
  destruct (handlers_keep_keys_unique demo_env initial_world
              demo_ids_injective Hk) as [Hc [_ [Hp _]]].
  split; [exact Hk|]. split; [apply Hc | apply Hp].
Defined.

End KeyFacts.
